(** * Cloudreve, [service/explorer/file.go]: single-file services

    A shallow embedding of the request handlers of
    [service/explorer/file.go] ([Create], [DownloadArchived], the
    anonymous [Download] and [Source], [CreateDocPreviewSession],
    [CreateDownloadSession], the session [Download], [PreviewContent] and
    [PutContent]) together with the parts of the Go standard library they
    call, and the properties of the upload, download and preview flows
    that follow from the code.

    Layout: Go library functions first, then the data model, the handler
    monad (state, panics and [defer]), the collaborators of the handlers,
    the handlers themselves, and finally the theorems. *)

From Stdlib Require Import ZArith NArith List String Ascii Bool Lia.
From stdpp Require Import base option gmap strings pretty list fin_maps.

Local Open Scope string_scope.
Local Open Scope list_scope.

(** ** Go strings

    A Go [string] is a sequence of bytes; it is embedded as a Rocq
    [string], whose characters are bytes too. *)

Definition byte_of (c : ascii) : N := N_of_ascii c.

Definition in_range (lo hi : N) (c : ascii) : bool :=
  (lo <=? byte_of c)%N && (byte_of c <=? hi)%N.

Definition is_digit (c : ascii) : bool := in_range 48 57 c.
Definition is_lower (c : ascii) : bool := in_range 97 122 c.
Definition is_upper (c : ascii) : bool := in_range 65 90 c.
Definition is_alnum (c : ascii) : bool := is_digit c || is_lower c || is_upper c.

Definition ascii_eqb (a b : ascii) : bool := Ascii.eqb a b.

Fixpoint string_forallb (p : ascii -> bool) (s : string) : bool :=
  match s with
  | EmptyString => true
  | String c s' => p c && string_forallb p s'
  end.

Fixpoint string_existsb (p : ascii -> bool) (s : string) : bool :=
  match s with
  | EmptyString => false
  | String c s' => p c || string_existsb p s'
  end.

Fixpoint string_rev_acc (s acc : string) : string :=
  match s with
  | EmptyString => acc
  | String c s' => string_rev_acc s' (String c acc)
  end.

Definition string_rev (s : string) : string := string_rev_acc s EmptyString.

(** ** [strconv.ParseUint(s, 10, 64)] *)

Module strconv.

Definition maxUint64 : N := 18446744073709551615.

(** The digits are accumulated from the left; a byte that is not a
    decimal digit is a syntax error, a value above [maxUint64] a range
    error. Both are reported as an error; the handlers only test
    [err != nil]. *)
Fixpoint parse_digits (s : string) (acc : N) : option N :=
  match s with
  | EmptyString => Some acc
  | String c s' =>
      if is_digit c then
        let acc' := (acc * 10 + (byte_of c - 48))%N in
        if (maxUint64 <? acc')%N then None else parse_digits s' acc'
      else None
  end.

Definition ParseUint (s : string) : option N :=
  match s with
  | EmptyString => None
  | _ => parse_digits s 0%N
  end.

End strconv.

(** ** Package [path]: [Base], [Split], [Clean], [Dir] *)

Module path.

Definition slash : ascii := "/"%char.

(** [strip_trailing] removes every trailing slash: the leading ones
    of the reversed string. *)
Fixpoint strip_leading (s : string) : string :=
  match s with
  | String c s' => if ascii_eqb c slash then strip_leading s' else s
  | EmptyString => EmptyString
  end.

Definition strip_trailing (s : string) : string :=
  string_rev (strip_leading (string_rev s)).

(** [after_last_slash s] is [s[i+1:]] for the last slash [i] of [s], and
    [s] itself when it has none; [upto_last_slash s] is [s[:i+1]]. *)
Fixpoint take_until_slash (s : string) : string :=
  match s with
  | EmptyString => EmptyString
  | String c s' => if ascii_eqb c slash then EmptyString else String c (take_until_slash s')
  end.

Fixpoint drop_until_slash (s : string) : string :=
  match s with
  | EmptyString => EmptyString
  | String c s' => if ascii_eqb c slash then s else drop_until_slash s'
  end.

Definition after_last_slash (s : string) : string :=
  string_rev (take_until_slash (string_rev s)).

Definition upto_last_slash (s : string) : string :=
  string_rev (drop_until_slash (string_rev s)).

Definition Base (p : string) : string :=
  match p with
  | EmptyString => "."
  | _ =>
      let p1 := strip_trailing p in
      let p2 := after_last_slash p1 in
      match p2 with
      | EmptyString => "/"
      | _ => p2
      end
  end.

Definition Split (p : string) : string * string :=
  (upto_last_slash p, after_last_slash p).

(** [Clean]: the path is cut at its slashes; empty elements and [.] are
    dropped, [..] removes the element before it (at the root it is
    dropped, at the start of a relative path it is kept). *)
Fixpoint elements (s cur : string) : list string :=
  match s with
  | EmptyString => [string_rev cur]
  | String c s' =>
      if ascii_eqb c slash then string_rev cur :: elements s' EmptyString
      else elements s' (String c cur)
  end.

(** The stack holds the elements kept so far, last one first. *)
Definition clean_step (rooted : bool) (stack : list string) (e : string) : list string :=
  if String.eqb e "" then stack
  else if String.eqb e "." then stack
  else if String.eqb e ".." then
    match stack with
    | top :: rest => if String.eqb top ".." then e :: stack else rest
    | [] => if rooted then [] else [e]
    end
  else e :: stack.

Fixpoint join (l : list string) : string :=
  match l with
  | [] => EmptyString
  | [e] => e
  | e :: l' => e +:+ "/" +:+ join l'
  end.

Definition Clean (p : string) : string :=
  match p with
  | EmptyString => "."
  | String c _ =>
      let rooted := ascii_eqb c slash in
      let kept := rev (fold_left (clean_step rooted) (elements p EmptyString) []) in
      if rooted then "/" +:+ join kept
      else match kept with
           | [] => "."
           | _ => join kept
           end
  end.

Definition Dir (p : string) : string := Clean (fst (Split p)).

End path.

(** ** [net/url]: [QueryEscape] and [PathEscape] *)

Module url.

Definition upperhex (n : N) : ascii :=
  if (n <? 10)%N then ascii_of_N (48 + n) else ascii_of_N (55 + n).

Definition is_unreserved_mark (c : ascii) : bool :=
  existsb (ascii_eqb c) ["-"%char; "_"%char; "."%char; "~"%char].

Inductive encoding := encodePathSegment | encodeQueryComponent.

(** [shouldEscape] for the two modes the handlers use. *)
Definition shouldEscape (mode : encoding) (c : ascii) : bool :=
  if is_alnum c then false
  else if is_unreserved_mark c then false
  else if existsb (ascii_eqb c)
            ["$"%char; "&"%char; "+"%char; ","%char; "/"%char; ":"%char;
             ";"%char; "="%char; "?"%char; "@"%char]
  then match mode with
       | encodePathSegment =>
           existsb (ascii_eqb c) ["/"%char; ";"%char; ","%char; "?"%char]
       | encodeQueryComponent => true
       end
  else true.

Definition percent (c : ascii) (rest : string) : string :=
  String "%"%char
    (String (upperhex (N.shiftr (byte_of c) 4))
       (String (upperhex (N.land (byte_of c) 15)) rest)).

Fixpoint escape (mode : encoding) (s : string) : string :=
  match s with
  | EmptyString => EmptyString
  | String c s' =>
      if shouldEscape mode c then
        match mode with
        | encodeQueryComponent =>
            if ascii_eqb c " "%char then String "+"%char (escape mode s')
            else percent c (escape mode s')
        | encodePathSegment => percent c (escape mode s')
        end
      else String c (escape mode s')
  end.

Definition QueryEscape (s : string) : string := escape encodeQueryComponent s.
Definition PathEscape (s : string) : string := escape encodePathSegment s.

End url.

(** ** [encoding/base64]: [StdEncoding.EncodeToString] *)

Module base64.

Definition encodeStd : string :=
  "ABCDEFGHIJKLMNOPQRSTUVWXYZabcdefghijklmnopqrstuvwxyz0123456789+/".

Definition enc (n : N) : ascii :=
  match String.get (N.to_nat n) encodeStd with
  | Some c => c
  | None => "="%char
  end.

Definition pad : ascii := "="%char.

Fixpoint encode (s : string) : string :=
  match s with
  | EmptyString => EmptyString
  | String a EmptyString =>
      let x := byte_of a in
      String (enc (N.shiftr x 2))
        (String (enc (N.shiftl (N.land x 3) 4))
           (String pad (String pad EmptyString)))
  | String a (String b EmptyString) =>
      let x := byte_of a in
      let y := byte_of b in
      String (enc (N.shiftr x 2))
        (String (enc (N.lor (N.shiftl (N.land x 3) 4) (N.shiftr y 4)))
           (String (enc (N.shiftl (N.land y 15) 2))
              (String pad EmptyString)))
  | String a (String b (String c s')) =>
      let x := byte_of a in
      let y := byte_of b in
      let z := byte_of c in
      String (enc (N.shiftr x 2))
        (String (enc (N.lor (N.shiftl (N.land x 3) 4) (N.shiftr y 4)))
           (String (enc (N.lor (N.shiftl (N.land y 15) 2) (N.shiftr z 6)))
              (String (enc (N.land z 63)) (encode s'))))
  end.

Definition EncodeToString (s : string) : string := encode s.

End base64.

(** ** [strings.Replace(s, old, new, -1)] for a non-empty [old] *)

Module strings.

(** Left to right, non-overlapping: where [old] starts, [new] is
    written and the bytes of [old] are skipped ([skip] counts the bytes
    of a match still to be passed over). The handlers only replace
    non-empty placeholders; for an empty [old] the string is returned as
    it is. *)
Fixpoint replace_from (old new : string) (skip : nat) (s : string) : string :=
  match s with
  | EmptyString => EmptyString
  | String c s' =>
      match skip with
      | S k => replace_from old new k s'
      | O =>
          if String.prefix old s
          then new +:+ replace_from old new (String.length old - 1) s'
          else String c (replace_from old new O s')
      end
  end.

Definition ReplaceAll (s old new : string) : string :=
  match old with
  | EmptyString => s
  | _ => replace_from old new O s
  end.

End strings.

(** ** Data model *)

(** [err.Error()] identifies an error. *)
Definition error := string.

Definition dquote : string := String (ascii_of_nat 34) EmptyString.

Module model.

(** The fields of [model.File] the handlers and their collaborators
    read or write. *)
Record File := mkFile {
  ID : N;
  Name : string;
  UserID : N;
  SourceName : string;
  Size : N;
  UpdatedAt : Z
}.

Record Folder := mkFolder { FolderID : N; FolderName : string }.

Record GroupOption := mkGroupOption { OneTimeDownload : bool }.
Record Group := mkGroup { OptionsSerialized : GroupOption }.
Record User := mkUser { UID : N; UserGroup : Group }.

Definition setSourceName (k : string) (f : File) : File :=
  mkFile (ID f) (Name f) (UserID f) k (Size f) (UpdatedAt f).

End model.

(** [response.RSCloser]: a readable, seekable, closable stream. A nil
    interface value is [None]. *)
Record RSCloser := mkRS { rs_id : N; rs_bytes : string }.

Module local.
(** [local.FileStream]; [File] is the content its reader yields. *)
Record FileStream := mkFileStream {
  File : string;
  Size : N;
  VirtualPath : string;
  Name : string;
  MIMEType : string
}.
End local.

Module fsctx.
Inductive key := GinCtx | DisableOverwrite | FileModelCtx | FolderModelCtx | PathCtx.
Definition key_eqb (a b : key) : bool :=
  match a, b with
  | GinCtx, GinCtx | DisableOverwrite, DisableOverwrite
  | FileModelCtx, FileModelCtx | FolderModelCtx, FolderModelCtx
  | PathCtx, PathCtx => true
  | _, _ => false
  end.
End fsctx.

(** Values carried by a [context.Context]. [model.File] and
    [*model.File] are different dynamic types: a type assertion to one
    fails on the other. *)
Inductive ctx_value :=
  | VBool (b : bool)
  | VGin
  | VFile (f : model.File)
  | VFilePtr (f : model.File)
  | VFolderPtr (d : model.Folder)
  | VString (s : string).

(** A context is its chain of [WithValue] links, newest first;
    [context.Background()] is the empty chain. Cancellation only concerns
    goroutines waiting on the context and is not represented. *)
Module context.
Definition Context := list (fsctx.key * ctx_value).
Definition Background : Context := [].
Definition WithValue (ctx : Context) (k : fsctx.key) (v : ctx_value) : Context :=
  (k, v) :: ctx.
Fixpoint Value (ctx : Context) (k : fsctx.key) : option ctx_value :=
  match ctx with
  | [] => None
  | (k', v) :: ctx' => if fsctx.key_eqb k' k then Some v else Value ctx' k
  end.
End context.

Module gin.
(** Values stored under the keys of a [gin.Context]. *)
Inductive any := AUint (n : N) | AString (s : string).

(** The request side of a [gin.Context]: its keys, the request headers
    (canonical name to first value) and the request body. The response
    side (headers set, content served) is part of the [World]. *)
Record Context := mkContext {
  Keys : gmap string any;
  Header : gmap string string;
  Body : string
}.

Definition Get (c : Context) (k : string) : option any := Keys c !! k.
(** [c.Request.Header.Get(k)] is the empty string for a missing header. *)
Definition HeaderGet (c : Context) (k : string) : string := default "" (Header c !! k).
End gin.

Module serializer.

Inductive code :=
  | CodePolicyNotAllowed | CodeGroupNotAllowed | CodeUploadFailed
  | CodeNotSet | CodeNotFound | CodeIOFailed
  | CodeLit (n : Z).

Inductive data := DNil | DString (s : string).

(** The three ways the handlers build a [serializer.Response]: the
    struct literal with its [Code] and [Data], [serializer.Err(code,
    msg, err)] and [serializer.ParamErr(msg, err)]. *)
Inductive Response :=
  | Resp (Code : Z) (Data : data)
  | Err (c : code) (msg : string) (err : option error)
  | ParamErr (msg : string) (err : option error).

Definition is_redirect (r : Response) : bool :=
  match r with
  | Resp c _ => (c =? -301)%Z || (c =? -302)%Z
  | _ => false
  end.

Definition is_error (r : Response) : bool :=
  match r with
  | Resp _ _ => false
  | _ => true
  end.

End serializer.

(** ** The file system object and its hooks *)

Module filesystem.

(** The hook functions of package [filesystem] that the handlers
    register. *)
Inductive Hook :=
  | HookValidateFile | GenericAfterUpload | HookUpdateSourceName
  | HookResetPolicy | HookChangeCapacity | HookCleanFileContent
  | HookClearFileSize | HookGiveBackCapacity | GenericAfterUpdate.

Record FileSystem := mkFS {
  User : model.User;
  FileTarget : list model.File;
  Root : option model.Folder;
  Hooks : gmap string (list Hook)
}.

Definition hooks_of (fs : FileSystem) (stage : string) : list Hook :=
  default [] (Hooks fs !! stage).

(** Modelled from the spec: [FileSystem.Use] is not in this file. The
    hook pipeline of section 4.1 keeps, per stage name, the callbacks in
    registration order; [Use] registers one more callback at the end of
    the chain of its stage. *)
Definition Use (fs : FileSystem) (stage : string) (h : Hook) : FileSystem :=
  mkFS (User fs) (FileTarget fs) (Root fs)
       (<[stage := hooks_of fs stage ++ [h]]> (Hooks fs)).

Definition setFileTarget (fs : FileSystem) (t : list model.File) : FileSystem :=
  mkFS (User fs) t (Root fs) (Hooks fs).

Definition setRoot (fs : FileSystem) (d : model.Folder) : FileSystem :=
  mkFS (User fs) (FileTarget fs) (Some d) (Hooks fs).

(** [response.ContentResponse], the result of [Preview]. *)
Record ContentResponse := mkContentResponse {
  Redirect : bool;
  Content : option RSCloser;
  URL : string;
  MaxAge : Z
}.

End filesystem.

(** ** The world the handlers act on *)

(** Values of the session cache: the path of a prepared archive or the
    file record of a prepared download. *)
Inductive cache_value := CString (s : string) | CFile (f : model.File).

(** The metadata store and the physical storage. *)
Record Store := mkStore {
  files : gmap N model.File;
  objects : gmap string string
}.

(** Calls that leave the handler, in the order they are made. *)
Inductive Event :=
  | EvNewFileSystemFromContext
  | EvNewAnonymousFileSystem
  | EvRecycle
  | EvCacheGet (k : string)
  | EvCacheDeletes (keys : list string) (prefix : string)
  | EvGetPhysicalFileContent (p : string)
  | EvGetDownloadContent (id : N)
  | EvClose (rs : RSCloser)
  | EvServeContent (name : string) (modtime : Z) (rs : RSCloser)
  | EvSetTargetFileByIDs (ids : list N)
  | EvSignURL (f : model.File) (ttl : Z) (isDownload : bool)
  | EvGetDownloadURL (id : N) (ttl : string)
  | EvResetFileIfNotExist (p : string)
  | EvPreview (id : N) (isText : bool)
  | EvGetFilesByIDs (ids : list N) (uid : N)
  | EvRemoveFilesWithSoftLinks (fs : list model.File)
  | EvGenerateSavePath (file : local.FileStream)
  | EvUpload (ctx : context.Context) (file : local.FileStream)
  | EvHook (stage : string) (h : filesystem.Hook)
  | EvPut (savePath : string) (bytes : string).

Record World := mkWorld {
  w_cache : gmap string cache_value;
  w_store : Store;
  w_header : gmap string string;
  w_log : list Event
}.

Definition set_cache (m : gmap string cache_value) (w : World) : World :=
  mkWorld m (w_store w) (w_header w) (w_log w).
Definition set_store (s : Store) (w : World) : World :=
  mkWorld (w_cache w) s (w_header w) (w_log w).
Definition set_header (h : gmap string string) (w : World) : World :=
  mkWorld (w_cache w) (w_store w) h (w_log w).
Definition add_log (e : Event) (w : World) : World :=
  mkWorld (w_cache w) (w_store w) (w_header w) (w_log w ++ [e]).

(** ** The handler monad: state, panics and [defer] *)

Inductive Outcome (A : Type) :=
  | Done (a : A)
  | Panic (msg : string).
Arguments Done {A} a.
Arguments Panic {A} msg.

Definition M (A : Type) : Type := World -> Outcome A * World.

Definition ret {A} (a : A) : M A := fun w => (Done a, w).

Definition bind {A B} (m : M A) (k : A -> M B) : M B :=
  fun w =>
    match m w with
    | (Done a, w') => k a w'
    | (Panic s, w') => (Panic s, w')
    end.

Definition panic {A} (msg : string) : M A := fun w => (Panic msg, w).

Notation "'do' x <- m ; k" := (bind m (fun x => k))
  (at level 10, x name, m at level 100, k at level 200).
Notation "'do' ' p <- m ; k" := (bind m (fun x => match x with p => k end))
  (at level 10, p pattern, m at level 100, k at level 200).
Notation "'exec' m ; k" := (bind m (fun _ => k))
  (at level 10, m at level 100, k at level 200).

(** [defer d] before [body]: [d] runs when [body] is left, by a return
    or by a panic; a panic of [d] itself replaces the result. Nested
    [defer]s run last in, first out. *)
Definition defer {A} (d : M unit) (body : M A) : M A :=
  fun w =>
    match body w with
    | (r, w') =>
        match d w' with
        | (Done _, w'') => (r, w'')
        | (Panic s, w'') => (Panic s, w'')
        end
    end.

Definition emit (e : Event) : M unit := fun w => (Done tt, add_log e w).
Definition modify (f : World -> World) : M unit := fun w => (Done tt, f w).

Definition when (b : bool) (m : M unit) : M unit := if b then m else ret tt.

(** [l[0]] panics on an empty slice. *)
Definition index0 {A} (l : list A) : M A :=
  match l with
  | x :: _ => ret x
  | [] => panic "index out of range [0] with length 0"
  end.

(** [v.(uint)] on the value [c.Get] returned. *)
Definition assert_uint (v : option gin.any) : M N :=
  match v with
  | Some (gin.AUint n) => ret n
  | _ => panic "interface conversion: interface {} is not uint"
  end.

(** ** Collaborators of the handlers

    The other packages of the repository are not part of this file. What
    a call returns is read from an environment [Env]; what it changes is
    written down where the specification states it. *)

Inductive result (A : Type) :=
  | Ok (a : A)
  | Fail (err : error).
Arguments Ok {A} a.
Arguments Fail {A} err.

Record Env := mkEnv {
  (** [filesystem.NewFileSystemFromContext(c)] and
      [filesystem.NewAnonymousFileSystem()] *)
  e_NewFileSystemFromContext : gin.Context -> result filesystem.FileSystem;
  e_NewAnonymousFileSystem : result filesystem.FileSystem;
  (** [fs.GetPhysicalFileContent(ctx, path)] and
      [fs.GetDownloadContent(ctx, id)]: the stream and the error, both as
      returned (the handlers touch the stream before they test the
      error) *)
  e_GetPhysicalFileContent :
    filesystem.FileSystem -> string -> option RSCloser * option error;
  e_GetDownloadContent :
    filesystem.FileSystem -> context.Context -> N -> option RSCloser * option error;
  (** [fs.SetTargetFileByIDs(ids)] and [fs.ResetFileIfNotExist(ctx, path)]:
      the new [fs.FileTarget], or the error *)
  e_SetTargetFileByIDs : filesystem.FileSystem -> list N -> result (list model.File);
  e_ResetFileIfNotExist :
    filesystem.FileSystem -> context.Context -> string -> result (list model.File);
  (** [fs.SignURL(ctx, file, ttl, isDownload)] and
      [fs.GetDownloadURL(ctx, id, timeout)] *)
  e_SignURL :
    filesystem.FileSystem -> context.Context -> model.File -> Z -> bool -> result string;
  e_GetDownloadURL :
    filesystem.FileSystem -> context.Context -> N -> string -> result string;
  (** [model.GetIntSetting(name, default)], [model.GetSettingByName(name)] *)
  e_GetIntSetting : string -> Z -> Z;
  e_GetSettingByName : string -> string;
  (** [time.Now()] *)
  e_Now : Z;
  (** [fs.GenerateSavePath(ctx, file)] *)
  e_GenerateSavePath :
    filesystem.FileSystem -> context.Context -> local.FileStream -> string;
  (** what a hook other than [HookUpdateSourceName] does to the stores *)
  e_hook :
    filesystem.Hook -> context.Context -> local.FileStream -> Store -> result Store;
  (** a failure of the transfer of the bytes to the storage driver *)
  e_transfer : string -> local.FileStream -> option error;
  (** a failure of the query behind [model.RemoveFilesWithSoftLinks] *)
  e_softlink_query : list model.File -> option error;
  (** inside [fs.Preview]: the target it resolves, whether the policy of
      the file serves previews itself, and the signed preview URL with
      its lifetime *)
  e_preview_target :
    filesystem.FileSystem -> context.Context -> N -> result (list model.File);
  e_IsDirectlyPreview : filesystem.FileSystem -> bool;
  e_preview_url :
    filesystem.FileSystem -> context.Context -> N -> result (string * Z)
}.

Module cache.

(** Modelled from the spec: package [cache] is not in this file.
    Section 4.3: [get(key) -> (value, found)] returns the value and a
    presence flag; an expired entry is not found, so the store holds
    the entries that are still alive. *)
Definition Get (k : string) : M (option cache_value) :=
  fun w => (Done (w_cache w !! k), add_log (EvCacheGet k) w).

(** Modelled from the spec: [cache.Deletes] is not in this file.
    Section 4.3: [delete(keys, namespace_prefix)] removes entries in
    bulk, the keys being namespaced by the prefix. *)
Definition delete_all (keys : list string) (prefix : string)
    (m : gmap string cache_value) : gmap string cache_value :=
  fold_left (fun m k => delete (prefix +:+ k) m) keys m.

Definition Deletes (keys : list string) (prefix : string) : M unit :=
  fun w =>
    (Done tt, add_log (EvCacheDeletes keys prefix)
                (set_cache (delete_all keys prefix (w_cache w)) w)).

End cache.

Module Import collaborators.
Section WithEnv.
Context (E : Env).

Import filesystem.

Definition NewFileSystemFromContext (c : gin.Context) : M (result FileSystem) :=
  exec emit EvNewFileSystemFromContext;
  ret (e_NewFileSystemFromContext E c).

Definition NewAnonymousFileSystem : M (result FileSystem) :=
  exec emit EvNewAnonymousFileSystem;
  ret (e_NewAnonymousFileSystem E).

Definition Recycle (fs : FileSystem) : M unit := emit EvRecycle.

Definition GetPhysicalFileContent (fs : FileSystem) (ctx : context.Context)
    (p : string) : M (option RSCloser * option error) :=
  exec emit (EvGetPhysicalFileContent p);
  ret (e_GetPhysicalFileContent E fs p).

Definition GetDownloadContent (fs : FileSystem) (ctx : context.Context)
    (id : N) : M (option RSCloser * option error) :=
  exec emit (EvGetDownloadContent id);
  ret (e_GetDownloadContent E fs ctx id).

(** [rs.Close()] *)
Definition Close (rs : RSCloser) : M unit := emit (EvClose rs).

(** [defer rs.Close()]: the method value of a nil interface cannot be
    taken, the statement panics; otherwise the stream is closed when
    the handler is left. *)
Definition defer_Close {A} (rs : option RSCloser) (body : RSCloser -> M A) : M A :=
  match rs with
  | None => panic "invalid memory address or nil pointer dereference"
  | Some s => defer (Close s) (body s)
  end.

Definition SetTargetFileByIDs (fs : FileSystem) (ids : list N)
    : M (FileSystem * option error) :=
  exec emit (EvSetTargetFileByIDs ids);
  match e_SetTargetFileByIDs E fs ids with
  | Ok t => ret (setFileTarget fs t, None)
  | Fail err => ret (fs, Some err)
  end.

Definition ResetFileIfNotExist (fs : FileSystem) (ctx : context.Context)
    (p : string) : M (FileSystem * option error) :=
  exec emit (EvResetFileIfNotExist p);
  match e_ResetFileIfNotExist E fs ctx p with
  | Ok t => ret (setFileTarget fs t, None)
  | Fail err => ret (fs, Some err)
  end.

(** [fs.SetTargetFile(&files)]: the files become the target, after
    those that already are. *)
Definition SetTargetFile (fs : FileSystem) (fl : list model.File) : FileSystem :=
  setFileTarget fs (FileTarget fs ++ fl).

Definition SignURL (fs : FileSystem) (ctx : context.Context) (f : model.File)
    (ttl : Z) (isDownload : bool) : M (result string) :=
  exec emit (EvSignURL f ttl isDownload);
  ret (e_SignURL E fs ctx f ttl isDownload).

Definition GetDownloadURL (fs : FileSystem) (ctx : context.Context) (id : N)
    (timeout : string) : M (result string) :=
  exec emit (EvGetDownloadURL id timeout);
  ret (e_GetDownloadURL E fs ctx id timeout).

Definition Header (k v : string) : M unit :=
  modify (fun w => set_header (<[k := v]> (w_header w)) w).

(** [http.ServeContent(c.Writer, c.Request, name, modtime, content)] *)
Definition ServeContent (name : string) (modtime : Z) (rs : RSCloser) : M unit :=
  emit (EvServeContent name modtime rs).

(** Modelled from the spec: [model.GetFilesByIDs] is not in this file.
    Section 6: [getFilesByIDs(ids, ownerID) -> []FileRecord], the
    records of the metadata store with one of the ids, owned by the
    owner. *)
Definition owned_by (uid : N) (st : Store) (id : N) : option model.File :=
  match files st !! id with
  | Some f => if (model.UserID f =? uid)%N then Some f else None
  | None => None
  end.

Definition GetFilesByIDs (ids : list N) (uid : N) : M (list model.File) :=
  fun w => (Done (omap (owned_by uid (w_store w)) ids),
            add_log (EvGetFilesByIDs ids uid) w).

(** Modelled from the spec: [model.RemoveFilesWithSoftLinks] is not in
    this file. Section 6: it returns the subset of records that are not
    part of a soft-link group; glossary: a soft link is two or more
    FileRecords pointing at the same physical storage object. The query
    may fail; the result then is nil with the error. *)
Definition has_soft_link (st : Store) (f : model.File) : bool :=
  existsb (fun '(id, g) =>
             negb (id =? model.ID f)%N
             && String.eqb (model.SourceName g) (model.SourceName f))
          (map_to_list (files st)).

Definition RemoveFilesWithSoftLinks (fl : list model.File)
    : M (list model.File * option error) :=
  fun w =>
    (Done match e_softlink_query E fl with
          | Some err => ([], Some err)
          | None => (List.filter (fun f => negb (has_soft_link (w_store w) f)) fl, None)
          end,
     add_log (EvRemoveFilesWithSoftLinks fl) w).

Definition GenerateSavePath (fs : FileSystem) (ctx : context.Context)
    (file : local.FileStream) : M string :=
  exec emit (EvGenerateSavePath file);
  ret (e_GenerateSavePath E fs ctx file).

(** *** The hook pipeline and [Upload] *)

(** Modelled from the spec: [filesystem.HookUpdateSourceName] is not in
    this file. Section 4.2 (b): the hook updates the FileRecord's
    physical key to the new value, the one of the record carried by the
    operation context. *)
Definition updateSourceName (ctx : context.Context) (st : Store) : result Store :=
  match context.Value ctx fsctx.FileModelCtx with
  | Some (VFile f) =>
      Ok (mkStore (alter (model.setSourceName (model.SourceName f)) (model.ID f) (files st))
                  (objects st))
  | _ => Fail "object not exist"
  end.

Definition hook_sem (h : Hook) (ctx : context.Context) (file : local.FileStream)
    (st : Store) : result Store :=
  match h with
  | HookUpdateSourceName => updateSourceName ctx st
  | _ => e_hook E h ctx file st
  end.

Definition run_hook (stage : string) (h : Hook) (ctx : context.Context)
    (file : local.FileStream) : M (option error) :=
  fun w =>
    match hook_sem h ctx file (w_store w) with
    | Ok st => (Done None, add_log (EvHook stage h) (set_store st w))
    | Fail err => (Done (Some err), add_log (EvHook stage h) w)
    end.

(** Modelled from the spec: [FileSystem.Trigger] is not in this file.
    Section 4.1: every callback registered for the stage runs, in
    registration order, against the shared context; a failing callback
    aborts the remaining ones and its error is surfaced. *)
Fixpoint run_hooks (stage : string) (hs : list Hook) (ctx : context.Context)
    (file : local.FileStream) : M (option error) :=
  match hs with
  | [] => ret None
  | h :: hs' =>
      do r <- run_hook stage h ctx file;
      match r with
      | Some err => ret (Some err)
      | None => run_hooks stage hs' ctx file
      end
  end.

Definition Trigger (fs : FileSystem) (stage : string) (ctx : context.Context)
    (file : local.FileStream) : M (option error) :=
  run_hooks stage (hooks_of fs stage) ctx file.

(** Modelled from the spec: the storage driver is not in this file.
    Section 4.1: the byte stream is persisted, or the transfer fails
    and [AfterUploadCanceled] rolls back. The bytes of the stream are
    stored under the save path. The spec does not say what
    [fsctx.DisableOverwrite] makes the driver do; the context is handed
    over and not looked at here. *)
Definition Put (ctx : context.Context) (savePath : string)
    (file : local.FileStream) : M (option error) :=
  fun w =>
    let st := w_store w in
    let w1 := add_log (EvPut savePath (local.File file)) w in
    match e_transfer E savePath file with
    | Some err => (Done (Some err), w1)
    | None =>
        (Done None,
         set_store (mkStore (files st) (<[savePath := local.File file]> (objects st))) w1)
    end.

(** Modelled from the spec: [FileSystem.Upload] is not in this file.
    Section 4.1: [BeforeUpload] fires before any byte is written, its
    failure prevents the write and triggers [AfterValidateFailed];
    [AfterUploadCanceled] fires when the transfer fails; [AfterUpload]
    fires once the stream is persisted. Sections 4.2 and 8: an
    overwrite writes to the physical key of the record carried by the
    operation context (the original key in place, or the fresh one), any
    other upload to the path computed for it. Section 7: the error that
    started a rollback is the one reported. *)
Definition Upload (fs : FileSystem) (ctx : context.Context)
    (file : local.FileStream) : M (option error) :=
  exec emit (EvUpload ctx file);
  do r <- Trigger fs "BeforeUpload" ctx file;
  match r with
  | Some err =>
      exec Trigger fs "AfterValidateFailed" ctx file;
      ret (Some err)
  | None =>
      do savePath <-
        match context.Value ctx fsctx.FileModelCtx with
        | Some (VFile f) => ret (model.SourceName f)
        | _ => GenerateSavePath fs ctx file
        end;
      do r <- Put ctx savePath file;
      match r with
      | Some err =>
          exec Trigger fs "AfterUploadCanceled" ctx file;
          ret (Some err)
      | None => Trigger fs "AfterUpload" ctx file
      end
  end.

(** Modelled from the spec: [FileSystem.Preview] is not in this file.
    Section 3: a PreviewResponse is either a redirect with its URL and
    [maxAge], or a byte stream. Section 4.5: text-designated previews
    are always proxied, never redirected. Section 4.4: otherwise the
    storage policy owning the file chooses between the two. *)
Definition Preview (fs : FileSystem) (ctx : context.Context) (id : N)
    (isText : bool) : M (FileSystem * result ContentResponse) :=
  exec emit (EvPreview id isText);
  match e_preview_target E fs ctx id with
  | Fail err => ret (fs, Fail err)
  | Ok t =>
      let fs := setFileTarget fs t in
      if isText || e_IsDirectlyPreview E fs then
        do '(rs, err) <- GetDownloadContent fs ctx id;
        match err with
        | Some e => ret (fs, Fail e)
        | None => ret (fs, Ok (mkContentResponse false rs "" 0))
        end
      else
        match e_preview_url E fs ctx id with
        | Fail err => ret (fs, Fail err)
        | Ok (u, ttl) => ret (fs, Ok (mkContentResponse true None u ttl))
        end
  end.

End WithEnv.
End collaborators.

Module util.
(** Modelled from the spec: [util.Replace] is not in this file.
    Section 4.4: the values are substituted into the template string at
    their placeholders. The table is a Go map; its entries are taken in
    the order a walk of the map yields them, and each placeholder is
    replaced throughout the string in turn. *)
Definition replace_pairs (pairs : list (string * string)) (s : string) : string :=
  fold_left (fun s '(k, v) => strings.ReplaceAll s k v) pairs s.

Definition Replace (table : gmap string string) (s : string) : string :=
  replace_pairs (map_to_list table) s.
End util.

(** ** The handlers of [service/explorer/file.go] *)

Module explorer.

Import serializer filesystem.

Record SingleFileService := mkSingleFileService { Path : string }.
Record FileIDService := mkFileIDService {}.
Record FileAnonymousGetService := mkFileAnonymousGetService { FileID : N; FileName : string }.
Record DownloadService := mkDownloadService { ID : string }.

(** [v.(string)] on a value of the cache, and [v.(model.File)] *)
Definition assert_string (v : cache_value) : M string :=
  match v with
  | CString s => ret s
  | CFile _ => panic "interface conversion: interface {} is model.File, not string"
  end.

Definition assert_File (v : cache_value) : M model.File :=
  match v with
  | CFile f => ret f
  | CString _ => panic "interface conversion: interface {} is string, not model.File"
  end.

(** [ctx.Value(fsctx.PathCtx).(string)] *)
Definition assert_path (v : option ctx_value) : M string :=
  match v with
  | Some (VString s) => ret s
  | _ => panic "interface conversion: interface {} is not string"
  end.

Section WithEnv.
Context (E : Env).

(** [func (service *SingleFileService) Create] *)
Definition Create (service : SingleFileService) (c : gin.Context) : M Response :=
  do r <- NewFileSystemFromContext E c;
  match r with
  | Fail err => ret (Err CodePolicyNotAllowed err (Some err))
  | Ok fs =>
      defer (Recycle fs)
        (let ctx := context.Background in
         let ctx := context.WithValue ctx fsctx.DisableOverwrite (VBool true) in
         let fs := Use fs "BeforeUpload" HookValidateFile in
         let fs := Use fs "AfterUpload" GenericAfterUpload in
         do err <- Upload E fs ctx
                     (local.mkFileStream "" 0 (path.Dir (Path service))
                        (path.Base (Path service)) "");
         match err with
         | Some e => ret (Err CodeUploadFailed e (Some e))
         | None => ret (Resp 0 DNil)
         end)
  end.

(** [func (service *DownloadService) DownloadArchived] *)
Definition DownloadArchived (service : DownloadService) (ctx : context.Context)
    (c : gin.Context) : M Response :=
  do r <- NewFileSystemFromContext E c;
  match r with
  | Fail err => ret (Err CodePolicyNotAllowed err (Some err))
  | Ok fs =>
      defer (Recycle fs)
        (do found <- cache.Get ("archive_" +:+ ID service);
         match found with
         | None => ret (Err (CodeLit 404) "归档文件不存在" None)
         | Some zipPath =>
             do p <- assert_string zipPath;
             do '(rs, err) <- GetPhysicalFileContent E fs ctx p;
             defer_Close rs (fun rs =>
               match err with
               | Some e => ret (Err CodeNotSet e (Some e))
               | None =>
                   exec when (model.OneTimeDownload
                                (model.OptionsSerialized (model.UserGroup (User fs))))
                          (cache.Deletes [ID service] "archive_");
                   exec Header "Content-Disposition" "attachment;";
                   exec Header "Content-Type" "application/zip";
                   exec ServeContent "" (e_Now E) rs;
                   ret (Resp 0 DNil)
               end)
         end)
  end.

(** [func (service *FileAnonymousGetService) Download] *)
Definition AnonymousDownload (service : FileAnonymousGetService)
    (ctx : context.Context) (c : gin.Context) : M Response :=
  do r <- NewAnonymousFileSystem E;
  match r with
  | Fail err => ret (Err CodeGroupNotAllowed err (Some err))
  | Ok fs =>
      defer (Recycle fs)
        (do '(fs, err) <- SetTargetFileByIDs E fs [FileID service];
         match err with
         | Some e => ret (Err CodeNotSet e (Some e))
         | None =>
             do '(rs, err) <- GetDownloadContent E fs ctx 0;
             defer_Close rs (fun rs =>
               match err with
               | Some e => ret (Err CodeNotSet e (Some e))
               | None =>
                   do target <- index0 (FileTarget fs);
                   exec ServeContent (FileName service) (model.UpdatedAt target) rs;
                   ret (Resp 0 DNil)
               end)
         end)
  end.

(** [func (service *FileAnonymousGetService) Source] *)
Definition Source (service : FileAnonymousGetService) (ctx : context.Context)
    (c : gin.Context) : M Response :=
  do r <- NewAnonymousFileSystem E;
  match r with
  | Fail err => ret (Err CodeGroupNotAllowed err (Some err))
  | Ok fs =>
      defer (Recycle fs)
        (do '(fs, err) <- SetTargetFileByIDs E fs [FileID service];
         match err with
         | Some e => ret (Err CodeNotSet e (Some e))
         | None =>
             do target <- index0 (FileTarget fs);
             do res <- SignURL E fs ctx target (e_GetIntSetting E "preview_timeout" 60) false;
             match res with
             | Fail e => ret (Err CodeNotSet e (Some e))
             | Ok u => ret (Resp (-302) (DString u))
             end
         end)
  end.

(** The prologue shared by [CreateDocPreviewSession] and
    [PreviewContent]: the object id of the request, replaced by 0 when
    the context already carries the file or the folder. The result is
    the file system, the object id, and the response to return at once
    when the reset of the target failed. *)
Definition resolve_object (fs : FileSystem) (ctx : context.Context)
    (c : gin.Context) : M (FileSystem * option gin.any * option Response) :=
  let objectID := gin.Get c "object_id" in
  let '(fs, objectID) :=
    match context.Value ctx fsctx.FileModelCtx with
    | Some (VFilePtr file) => (SetTargetFile fs [file], Some (gin.AUint 0))
    | _ => (fs, objectID)
    end in
  match context.Value ctx fsctx.FolderModelCtx with
  | Some (VFolderPtr folder) =>
      let fs := setRoot fs folder in
      do p <- assert_path (context.Value ctx fsctx.PathCtx);
      do '(fs, err) <- ResetFileIfNotExist E fs ctx p;
      match err with
      | Some e => ret (fs, objectID, Some (Err CodeNotFound e (Some e)))
      | None => ret (fs, Some (gin.AUint 0), None)
      end
  | _ => ret (fs, objectID, None)
  end.

(** [func (service *FileIDService) CreateDocPreviewSession] *)
Definition CreateDocPreviewSession (service : FileIDService)
    (ctx : context.Context) (c : gin.Context) : M Response :=
  do r <- NewFileSystemFromContext E c;
  match r with
  | Fail err => ret (Err CodePolicyNotAllowed err (Some err))
  | Ok fs =>
      defer (Recycle fs)
        (do '(fs, objectID, early) <- resolve_object fs ctx c;
         match early with
         | Some resp => ret resp
         | None =>
             do id <- assert_uint objectID;
             do r <- GetDownloadURL E fs ctx id "doc_preview_timeout";
             match r with
             | Fail e => ret (Err CodeNotSet e (Some e))
             | Ok downloadURL =>
                 let srcB64 := base64.EncodeToString downloadURL in
                 let srcEncoded := url.QueryEscape downloadURL in
                 let srcB64Encoded := url.QueryEscape srcB64 in
                 ret (Resp 0
                        (DString
                           (util.Replace
                              (<["{$src}" := srcEncoded]>
                                 (<["{$srcB64}" := srcB64Encoded]> ∅))
                              (e_GetSettingByName E "office_preview_service"))))
             end
         end)
  end.

(** [func (service *FileIDService) CreateDownloadSession] *)
Definition CreateDownloadSession (service : FileIDService)
    (ctx : context.Context) (c : gin.Context) : M Response :=
  do r <- NewFileSystemFromContext E c;
  match r with
  | Fail err => ret (Err CodePolicyNotAllowed err (Some err))
  | Ok fs =>
      defer (Recycle fs)
        (do id <- assert_uint (gin.Get c "object_id");
         do r <- GetDownloadURL E fs ctx id "download_timeout";
         match r with
         | Fail e => ret (Err CodeNotSet e (Some e))
         | Ok downloadURL => ret (Resp 0 (DString downloadURL))
         end)
  end.

(** [func (service *DownloadService) Download] *)
Definition Download (service : DownloadService) (ctx : context.Context)
    (c : gin.Context) : M Response :=
  do r <- NewFileSystemFromContext E c;
  match r with
  | Fail err => ret (Err CodePolicyNotAllowed err (Some err))
  | Ok fs =>
      defer (Recycle fs)
        (do found <- cache.Get ("download_" +:+ ID service);
         match found with
         | None => ret (Err (CodeLit 404) "文件下载会话不存在" None)
         | Some file =>
             do f <- assert_File file;
             let fs := setFileTarget fs [f] in
             let ctx := context.WithValue ctx fsctx.GinCtx VGin in
             do '(rs, err) <- GetDownloadContent E fs ctx 0;
             match err with
             | Some e => ret (Err CodeNotSet e (Some e))
             | None =>
                 defer_Close rs (fun rs =>
                   do target <- index0 (FileTarget fs);
                   exec Header "Content-Disposition"
                          ("attachment; filename=" +:+ dquote
                           +:+ url.PathEscape (model.Name target) +:+ dquote);
                   exec when (model.OneTimeDownload
                                (model.OptionsSerialized (model.UserGroup (User fs))))
                          (cache.Deletes [ID service] "download_");
                   exec ServeContent (model.Name target) (model.UpdatedAt target) rs;
                   ret (Resp 0 DNil))
             end
         end)
  end.

(** [func (service *FileIDService) PreviewContent] *)
Definition PreviewContent (service : FileIDService) (ctx : context.Context)
    (c : gin.Context) (isText : bool) : M Response :=
  do r <- NewFileSystemFromContext E c;
  match r with
  | Fail err => ret (Err CodePolicyNotAllowed err (Some err))
  | Ok fs =>
      defer (Recycle fs)
        (do '(fs, objectID, early) <- resolve_object fs ctx c;
         match early with
         | Some resp => ret resp
         | None =>
             do id <- assert_uint objectID;
             do '(fs, r) <- Preview E fs ctx id isText;
             match r with
             | Fail e => ret (Err CodeNotSet e (Some e))
             | Ok resp =>
                 if Redirect resp then
                   exec Header "Cache-Control" ("max-age=" +:+ pretty (MaxAge resp));
                   ret (Resp (-301) (DString (URL resp)))
                 else
                   defer_Close (Content resp) (fun content =>
                     exec when isText (Header "Cache-Control" "no-cache");
                     do target <- index0 (FileTarget fs);
                     exec ServeContent (model.Name target) (model.UpdatedAt target) content;
                     ret (Resp 0 DNil))
             end
         end)
  end.

(** [func (service *FileIDService) PutContent]. The context of the
    caller is replaced by a fresh one at once. The error of [ParseUint]
    is written as the name of the function. The handler does not recycle
    its file system. *)
Definition PutContent (service : FileIDService) (ctx : context.Context)
    (c : gin.Context) : M Response :=
  let ctx := context.Background in
  match strconv.ParseUint (gin.HeaderGet c "Content-Length") with
  | None => ret (ParamErr "无法解析文件尺寸" (Some "strconv.ParseUint"))
  | Some fileSize =>
      let fileData :=
        local.mkFileStream (gin.Body c) fileSize "" "" (gin.HeaderGet c "Content-Type") in
      do r <- NewFileSystemFromContext E c;
      match r with
      | Fail err => ret (Err CodePolicyNotAllowed err (Some err))
      | Ok fs =>
          let uploadCtx := context.WithValue ctx fsctx.GinCtx VGin in
          do fileID <- assert_uint (gin.Get c "object_id");
          do originFile <- GetFilesByIDs [fileID] (model.UID (User fs));
          match originFile with
          | [] => ret (Err (CodeLit 404) "文件不存在" None)
          | origin :: _ =>
              let fileData :=
                local.mkFileStream (local.File fileData) (local.Size fileData)
                  (local.VirtualPath fileData) (model.Name origin)
                  (local.MIMEType fileData) in
              do '(fileList, err) <- RemoveFilesWithSoftLinks E [origin];
              do '(origin, fs) <-
                match err, fileList with
                | None, [] =>
                    do k <- GenerateSavePath E fs uploadCtx fileData;
                    let fs := Use fs "AfterUpload" HookUpdateSourceName in
                    let fs := Use fs "AfterUploadCanceled" HookUpdateSourceName in
                    let fs := Use fs "AfterValidateFailed" HookUpdateSourceName in
                    ret (model.setSourceName k origin, fs)
                | _, _ => ret (origin, fs)
                end;
              let fs := Use fs "BeforeUpload" HookResetPolicy in
              let fs := Use fs "BeforeUpload" HookValidateFile in
              let fs := Use fs "BeforeUpload" HookChangeCapacity in
              let fs := Use fs "AfterUploadCanceled" HookCleanFileContent in
              let fs := Use fs "AfterUploadCanceled" HookClearFileSize in
              let fs := Use fs "AfterUploadCanceled" HookGiveBackCapacity in
              let fs := Use fs "AfterUpload" GenericAfterUpdate in
              let fs := Use fs "AfterValidateFailed" HookCleanFileContent in
              let fs := Use fs "AfterValidateFailed" HookClearFileSize in
              let fs := Use fs "AfterValidateFailed" HookGiveBackCapacity in
              let uploadCtx := context.WithValue uploadCtx fsctx.FileModelCtx (VFile origin) in
              do err <- Upload E fs uploadCtx fileData;
              match err with
              | Some e => ret (Err CodeUploadFailed e (Some e))
              | None => ret (Resp 0 DNil)
              end
          end
      end
  end.

End WithEnv.
End explorer.

(** ** Contracts of the hooks

    What the hooks of package [filesystem] other than
    [HookUpdateSourceName] do is left to the environment. The properties
    below name what a statement about the stores needs from them. *)

Definition keeps_objects (E : Env) (h : filesystem.Hook) : Prop :=
  forall ctx file st st', e_hook E h ctx file st = Ok st' -> objects st' = objects st.

Definition keeps_keys (E : Env) (h : filesystem.Hook) : Prop :=
  forall ctx file st st' (id : N),
    e_hook E h ctx file st = Ok st' ->
    model.SourceName <$> (files st' !! id) = model.SourceName <$> (files st !! id).

(** The response of a handler that ends with the upload. *)
Definition upload_response (err : option error) : serializer.Response :=
  match err with
  | Some e => serializer.Err serializer.CodeUploadFailed e (Some e)
  | None => serializer.Resp 0 serializer.DNil
  end.

(** The physical key an upload writes to: the key of the record carried
    by the context of an overwrite, the generated path otherwise. *)
Definition upload_key (E : Env) (fs : filesystem.FileSystem) (ctx : context.Context)
    (file : local.FileStream) : string :=
  match context.Value ctx fsctx.FileModelCtx with
  | Some (VFile f) => model.SourceName f
  | _ => e_GenerateSavePath E fs ctx file
  end.

Definition upload_key_events (ctx : context.Context) (file : local.FileStream)
    : list Event :=
  match context.Value ctx fsctx.FileModelCtx with
  | Some (VFile f) => []
  | _ => [EvGenerateSavePath file]
  end.

(** The five ways an upload can go, stage by stage. *)
Inductive upload_run (E : Env) (fs : filesystem.FileSystem) (ctx : context.Context)
    (file : local.FileStream) (w : World) : option error -> World -> Prop :=
  | run_rejected e w1 r2 w2 :
      run_hooks E "BeforeUpload" (filesystem.hooks_of fs "BeforeUpload") ctx file
        (add_log (EvUpload ctx file) w) = (Done (Some e), w1) ->
      run_hooks E "AfterValidateFailed" (filesystem.hooks_of fs "AfterValidateFailed") ctx file w1
        = (Done r2, w2) ->
      upload_run E fs ctx file w (Some e) w2
  | run_canceled e w1 w3 r4 w4 :
      run_hooks E "BeforeUpload" (filesystem.hooks_of fs "BeforeUpload") ctx file
        (add_log (EvUpload ctx file) w) = (Done None, w1) ->
      Put E ctx (upload_key E fs ctx file) file
        (mkWorld (w_cache w1) (w_store w1) (w_header w1)
           (w_log w1 ++ upload_key_events ctx file)) = (Done (Some e), w3) ->
      run_hooks E "AfterUploadCanceled" (filesystem.hooks_of fs "AfterUploadCanceled") ctx file w3
        = (Done r4, w4) ->
      upload_run E fs ctx file w (Some e) w4
  | run_stored w1 w3 r5 w5 :
      run_hooks E "BeforeUpload" (filesystem.hooks_of fs "BeforeUpload") ctx file
        (add_log (EvUpload ctx file) w) = (Done None, w1) ->
      Put E ctx (upload_key E fs ctx file) file
        (mkWorld (w_cache w1) (w_store w1) (w_header w1)
           (w_log w1 ++ upload_key_events ctx file)) = (Done None, w3) ->
      run_hooks E "AfterUpload" (filesystem.hooks_of fs "AfterUpload") ctx file w3 = (Done r5, w5) ->
      upload_run E fs ctx file w r5 w5.

(** The file system, the context and the stream [Create] hands to
    [Upload]. *)
Definition create_fs (fs : filesystem.FileSystem) : filesystem.FileSystem :=
  filesystem.Use (filesystem.Use fs "BeforeUpload" filesystem.HookValidateFile)
    "AfterUpload" filesystem.GenericAfterUpload.

Definition create_ctx : context.Context :=
  context.WithValue context.Background fsctx.DisableOverwrite (VBool true).

Definition create_stream (service : explorer.SingleFileService) : local.FileStream :=
  local.mkFileStream "" 0 (path.Dir (explorer.Path service))
    (path.Base (explorer.Path service)) "".

(** The file system, the stream and the context [PutContent] hands to
    [Upload]; [shared] tells whether the soft-link branch was taken. *)
Definition put_fs (shared : bool) (fs : filesystem.FileSystem) : filesystem.FileSystem :=
  let fs :=
    if shared then
      filesystem.Use
        (filesystem.Use
           (filesystem.Use fs "AfterUpload" filesystem.HookUpdateSourceName)
           "AfterUploadCanceled" filesystem.HookUpdateSourceName)
        "AfterValidateFailed" filesystem.HookUpdateSourceName
    else fs in
  let fs := filesystem.Use fs "BeforeUpload" filesystem.HookResetPolicy in
  let fs := filesystem.Use fs "BeforeUpload" filesystem.HookValidateFile in
  let fs := filesystem.Use fs "BeforeUpload" filesystem.HookChangeCapacity in
  let fs := filesystem.Use fs "AfterUploadCanceled" filesystem.HookCleanFileContent in
  let fs := filesystem.Use fs "AfterUploadCanceled" filesystem.HookClearFileSize in
  let fs := filesystem.Use fs "AfterUploadCanceled" filesystem.HookGiveBackCapacity in
  let fs := filesystem.Use fs "AfterUpload" filesystem.GenericAfterUpdate in
  let fs := filesystem.Use fs "AfterValidateFailed" filesystem.HookCleanFileContent in
  let fs := filesystem.Use fs "AfterValidateFailed" filesystem.HookClearFileSize in
  filesystem.Use fs "AfterValidateFailed" filesystem.HookGiveBackCapacity.

Definition put_stream (c : gin.Context) (size : N) (origin : model.File)
    : local.FileStream :=
  local.mkFileStream (gin.Body c) size "" (model.Name origin)
    (gin.HeaderGet c "Content-Type").

Definition put_gin_ctx : context.Context :=
  context.WithValue context.Background fsctx.GinCtx VGin.

Definition put_ctx (origin : model.File) : context.Context :=
  context.WithValue put_gin_ctx fsctx.FileModelCtx (VFile origin).

(** The hooks a successful overwrite runs besides
    [HookUpdateSourceName]; they are taken to account and to commit
    metadata, and so to leave the stored objects and the physical keys of
    the records alone. *)
Definition overwrite_hooks : list filesystem.Hook :=
  [filesystem.HookResetPolicy; filesystem.HookValidateFile;
   filesystem.HookChangeCapacity; filesystem.GenericAfterUpdate].

Definition metadata_only (E : Env) (hs : list filesystem.Hook) : Prop :=
  forall h, In h hs -> keeps_objects E h /\ keeps_keys E h.

(** The soft-link branch of [PutContent] is taken when the check
    succeeds and returns no record. *)
Definition soft_link_branch (E : Env) (w : World) (origin : model.File) : bool :=
  match e_softlink_query E [origin] with
  | Some _ => false
  | None => has_soft_link (w_store w) origin
  end.

(** The world after the prologue of [PutContent] for the record
    [origin] of id [id], looked up for the user [uid]. *)
Definition put_prologue (uid id : N) (origin : model.File) (w : World) : World :=
  add_log (EvRemoveFilesWithSoftLinks [origin])
    (add_log (EvGetFilesByIDs [id] uid)
       (add_log EvNewFileSystemFromContext w)).

(** The physical key of the record [id], if there is one. *)
Definition key_of (st : Store) (id : N) : option string :=
  model.SourceName <$> (files st !! id).

(** ** A concrete environment

    A user of group 1, two records 42 and 43 that share one physical
    object, one prepared archive and one prepared download. *)

Module demo.

Definition file42 : model.File :=
  model.mkFile 42 "report.pdf" 1 "uploads/1/shared.bin" 9 0.
Definition file43 : model.File :=
  model.mkFile 43 "copy.pdf" 1 "uploads/1/shared.bin" 9 0.
Definition file7 : model.File :=
  model.mkFile 7 "notes.txt" 1 "uploads/1/notes.txt" 5 0.

Definition fs (oneTime : bool) : filesystem.FileSystem :=
  filesystem.mkFS (model.mkUser 1 (model.mkGroup (model.mkGroupOption oneTime)))
    [] None ∅.

Definition stream : RSCloser := mkRS 1 "old bytes".

(** The knobs: the one-time-download option of the group, what the
    content calls return, what resolving a target returns, whether the
    soft-link query fails, and whether the policy serves previews
    itself. Hooks left to the environment change nothing. *)
Definition env (oneTime : bool) (content : option RSCloser * option error)
    (target : result (list model.File)) (query : option error) (direct : bool) : Env :=
  {| e_NewFileSystemFromContext := fun _ => Ok (fs oneTime);
     e_NewAnonymousFileSystem := Ok (fs oneTime);
     e_GetPhysicalFileContent := fun _ _ => content;
     e_GetDownloadContent := fun _ _ _ => content;
     e_SetTargetFileByIDs := fun _ _ => target;
     e_ResetFileIfNotExist := fun _ _ _ => target;
     e_SignURL := fun _ _ f _ _ => Ok ("https://cdn/" +:+ model.SourceName f);
     e_GetDownloadURL := fun _ _ _ _ => Ok "https://cdn/x?sig=ab+c";
     e_GetIntSetting := fun _ d => d;
     e_GetSettingByName := fun _ =>
       "https://view.officeapps.live.com/op/view.aspx?src={$src}";
     e_Now := 0;
     e_GenerateSavePath := fun _ _ file => "uploads/1/new_" +:+ local.Name file;
     e_hook := fun _ _ _ st => Ok st;
     e_transfer := fun _ _ => None;
     e_softlink_query := fun _ => query;
     e_preview_target := fun _ _ _ => target;
     e_IsDirectlyPreview := fun _ => direct;
     e_preview_url := fun _ _ _ => Ok ("https://cdn/preview", 600%Z) |}.

Definition plain : Env := env false (Some stream, None) (Ok [file7]) None false.

Definition store : Store :=
  mkStore (<[42%N := file42]> (<[43%N := file43]> (<[7%N := file7]> ∅)))
          (<["uploads/1/shared.bin" := "old bytes"]>
             (<["uploads/1/notes.txt" := "notes"]> ∅)).

Definition world : World :=
  mkWorld (<["archive_abc" := CString "/tmp/archive.zip"]>
             (<["download_abc" := CFile file7]> ∅))
          store ∅ [].

(** A request for object 42 that carries nine bytes. *)
Definition request (length : option string) : gin.Context :=
  gin.mkContext (<["object_id" := gin.AUint 42]> ∅)
    (match length with
     | Some l => <["Content-Length" := l]> (<["Content-Type" := "text/plain"]> ∅)
     | None => <["Content-Type" := "text/plain"]> ∅
     end)
    "new bytes".

End demo.

Definition is_GenerateSavePath (e : Event) : bool :=
  match e with
  | EvGenerateSavePath _ => true
  | _ => false
  end.

(** The world [w] with the events [evs] logged after those it has. *)
Definition logged (evs : list Event) (w : World) : World :=
  fold_left (fun w e => add_log e w) evs w.

(** The one-time-download option of the group of the user. *)
Definition one_time (fs : filesystem.FileSystem) : bool :=
  model.OneTimeDownload
    (model.OptionsSerialized (model.UserGroup (filesystem.User fs))).

(** ** Templates

    A template read as literal text between placeholders. *)

Inductive segment :=
  | Lit (s : string)
  | Src
  | SrcB64.

(** The segments written out, [a] standing where [{$src}] is and [b]
    where [{$srcB64}] is. *)
Fixpoint fill (a b : string) (segs : list segment) : string :=
  match segs with
  | [] => EmptyString
  | Lit s :: rest => s +:+ fill a b rest
  | Src :: rest => a +:+ fill a b rest
  | SrcB64 :: rest => b +:+ fill a b rest
  end.

Definition render (segs : list segment) : string := fill "{$src}" "{$srcB64}" segs.

Definition brace_free (s : string) : bool :=
  string_forallb (fun c => negb (ascii_eqb c "{"%char)) s.

Definition literals_brace_free (segs : list segment) : bool :=
  forallb (fun seg => match seg with Lit s => brace_free s | _ => true end) segs.

(** The bytes [QueryEscape] writes: letters, digits, the four unreserved
    marks, the percent sign of an escape and the plus sign of a space. *)
Definition query_safe (c : ascii) : bool :=
  is_alnum c || url.is_unreserved_mark c
  || ascii_eqb c "%"%char || ascii_eqb c "+"%char.

(** The table [CreateDocPreviewSession] hands to [util.Replace] for the
    download URL [u]. *)
Definition doc_preview_table (u : string) : gmap string string :=
  <["{$src}" := url.QueryEscape u]>
    (<["{$srcB64}" := url.QueryEscape (base64.EncodeToString u)]> ∅).

(** Variants of the concrete environment and the services called on
    it. *)
Module scenario.

(** The soft-link query fails. *)
Definition query_fails : Env :=
  demo.env false (Some demo.stream, None) (Ok [demo.file7]) (Some "database is locked") false.

(** The target of an anonymous download does not resolve. *)
Definition unresolved : Env :=
  demo.env false (Some demo.stream, None) (Fail "record not found") None false.

(** The content cannot be opened: a nil stream and an error. One-time
    download is set. *)
Definition unreadable : Env :=
  demo.env true (None, Some "open: no such file") (Ok [demo.file7]) None false.

(** One-time download is set and the content is served. *)
Definition one_time_served : Env :=
  demo.env true (Some demo.stream, None) (Ok [demo.file7]) None false.

Definition session : explorer.DownloadService := explorer.mkDownloadService "abc".
Definition expired : explorer.DownloadService := explorer.mkDownloadService "gone".
Definition anonymous : explorer.FileAnonymousGetService :=
  explorer.mkFileAnonymousGetService 7 "report.pdf".
Definition by_id : explorer.FileIDService := explorer.mkFileIDService.

(** A template with both placeholders. *)
Definition viewer : list segment :=
  [Lit "https://viewer.example/?src="; Src; Lit "&b64="; SrcB64; Lit "&embed=1"].

End scenario.

(** C3 as it is worded: any retrieved entry is deleted exactly when
    one-time download is set. *)
Definition deleted_iff_one_time : Prop :=
  forall (E : Env) (service : explorer.DownloadService) ctx c w fs v r w',
    e_NewFileSystemFromContext E c = Ok fs ->
    w_cache w !! ("download_" +:+ explorer.ID service) = Some v ->
    explorer.Download E service ctx c w = (r, w') ->
    (w_cache w' !! ("download_" +:+ explorer.ID service) = None <-> one_time fs = true).

(** * Further definitions *)

(** ** Decoding

    The decoding that undoes [escape]: a percent sign is followed by two
    hexadecimal digits; in a query component a plus sign is a space. It
    is what a receiver of the escaped string applies, and is used to show
    that the escapes lose nothing. *)

Definition unhex (c : ascii) : option N :=
  if is_digit c then Some (byte_of c - 48)%N
  else if in_range 65 70 c then Some (byte_of c - 55)%N
  else if in_range 97 102 c then Some (byte_of c - 87)%N
  else None.

Fixpoint unescape (mode : url.encoding) (s : string) : option string :=
  match s with
  | EmptyString => Some EmptyString
  | String c s1 =>
      if ascii_eqb c "%"%char then
        match s1 with
        | String a (String b rest) =>
            match unhex a, unhex b, unescape mode rest with
            | Some x, Some y, Some r => Some (String (ascii_of_N (16 * x + y)) r)
            | _, _, _ => None
            end
        | _ => None
        end
      else
        match unescape mode s1 with
        | Some r =>
            Some (String (match mode with
                          | url.encodeQueryComponent =>
                              if ascii_eqb c "+"%char then " "%char else c
                          | url.encodePathSegment => c
                          end) r)
        | None => None
        end
  end.

(** The bytes [PathEscape] writes: letters, digits, the unreserved
    marks, the reserved bytes a path segment keeps, and the percent sign
    of an escape. *)
Definition path_safe (c : ascii) : bool :=
  is_alnum c || url.is_unreserved_mark c
  || existsb (ascii_eqb c)
       ["$"%char; "&"%char; "+"%char; "="%char; ":"%char; "@"%char; "%"%char].

(** The bytes of the standard base64 alphabet and its padding. *)
Definition base64_char (c : ascii) : bool :=
  is_alnum c || existsb (ascii_eqb c) ["+"%char; "/"%char; "="%char].

Definition alnum_or_percent (c : ascii) : bool :=
  is_alnum c || ascii_eqb c "%"%char.

Definition no_slash (s : string) : bool :=
  string_forallb (fun c => negb (ascii_eqb c path.slash)) s.

(** A byte that would end a quoted header value or a header line: the
    double quote, the backslash, a control byte. *)
Definition breaks_quoted (c : ascii) : bool :=
  ascii_eqb c (ascii_of_nat 34) || ascii_eqb c (ascii_of_nat 92)
  || (byte_of c <? 32)%N || (127 <=? byte_of c)%N.

(** A path is rooted when it begins with a slash. *)
Definition is_rooted (s : string) : bool :=
  match s with
  | String c _ => ascii_eqb c path.slash
  | EmptyString => false
  end.

(** An element [Clean] keeps: not empty, without a slash. *)
Definition element_ok (e : string) : Prop := e <> "" /\ no_slash e = true.


(** A path made of slashes only. *)
Definition all_slash (s : string) : bool :=
  string_forallb (fun c => ascii_eqb c path.slash) s.

(** ** What a computation logs

    [emits P m]: however [m] ends, by a result or by a panic, the log
    is the one before with events that all satisfy [P] after it. *)
Definition emits {A} (P : Event -> Prop) (m : M A) : Prop :=
  forall w o w', m w = (o, w') ->
    exists evs, w_log w' = w_log w ++ evs /\ Forall P evs.

Definition not_Recycle (e : Event) : Prop := e <> EvRecycle.

(** An element that [Clean] keeps as a name: not empty, without a
    slash, and neither [.] nor [..]. *)
Definition plain_elem (e : string) : Prop :=
  element_ok e /\ e <> "." /\ e <> "..".

(** The stack of [Clean]: names on top of the [..] elements a relative
    path begins with; a rooted path keeps no [..] at all. *)
Definition clean_stack (rooted : bool) (stack : list string) : Prop :=
  exists names dots,
    stack = names ++ dots /\ Forall plain_elem names
    /\ Forall (fun e => e = "..") dots /\ (rooted = true -> dots = []).

(** * Properties *)

(** ** The Go library functions *)

Example ParseUint_ok : strconv.ParseUint "1024" = Some 1024%N.
Proof. reflexivity. Qed.
Example ParseUint_max : strconv.ParseUint "18446744073709551615" = Some strconv.maxUint64.
Proof. reflexivity. Qed.
Example ParseUint_range : strconv.ParseUint "18446744073709551616" = None.
Proof. reflexivity. Qed.
Example ParseUint_sign : strconv.ParseUint "+1" = None.
Proof. reflexivity. Qed.
Example Base_ex : path.Base "/docs/a.txt" = "a.txt" /\ path.Base "/docs/" = "docs"
  /\ path.Base "///" = "/" /\ path.Base "" = "." /\ path.Base "a" = "a".
Proof. repeat split. Qed.
Example Dir_ex : path.Dir "/docs/a.txt" = "/docs" /\ path.Dir "/a.txt" = "/"
  /\ path.Dir "a.txt" = "." /\ path.Dir "/a/b/../c/x" = "/a/c" /\ path.Dir "a//b/./c" = "a/b"
  /\ path.Dir "../../x" = "../.." /\ path.Dir "" = "." /\ path.Dir "/docs/" = "/docs".
Proof. repeat split. Qed.
Example QueryEscape_ex :
  url.QueryEscape "https://cdn/x?sig=ab+c" = "https%3A%2F%2Fcdn%2Fx%3Fsig%3Dab%2Bc"
  /\ url.QueryEscape "a b&c" = "a+b%26c".
Proof. repeat split. Qed.
Example PathEscape_ex : url.PathEscape "a b/c?d=e" = "a%20b%2Fc%3Fd=e".
Proof. repeat split. Qed.
Example base64_ex :
  base64.EncodeToString "https://cdn/x?sig=ab+c" = "aHR0cHM6Ly9jZG4veD9zaWc9YWIrYw=="
  /\ base64.EncodeToString "" = "" /\ base64.EncodeToString "ab" = "YWI="
  /\ base64.EncodeToString "abc" = "YWJj".
Proof. repeat split. Qed.
Example Replace_ex :
  strings.ReplaceAll "x={$src}&y={$srcB64}&z={$src}" "{$src}" "U" = "x=U&y={$srcB64}&z=U".
Proof. reflexivity. Qed.

Lemma parse_digits_bound s acc n :
  strconv.parse_digits s acc = Some n -> (acc <= strconv.maxUint64)%N ->
  (n <= strconv.maxUint64)%N.
Proof.
  revert acc. induction s as [|c s IH]; intros acc H Hacc; simpl in H.
  - congruence.
  - destruct (is_digit c); [|discriminate].
    destruct (N.ltb_spec strconv.maxUint64 (acc * 10 + (byte_of c - 48))%N); [discriminate|].
    eapply IH; eauto.
Qed.

(** A parsed size fits 64 bits. *)
Lemma ParseUint_bound s n :
  strconv.ParseUint s = Some n -> (n <= strconv.maxUint64)%N.
Proof.
  destruct s; simpl; [discriminate|]. intros H.
  eapply (parse_digits_bound (String a s)); [exact H|]. vm_compute. discriminate.
Qed.

(** A missing header reads as the empty string, which does not parse. *)
Lemma ParseUint_missing_header (c : gin.Context) (k : string) :
  gin.Header c !! k = None -> strconv.ParseUint (gin.HeaderGet c k) = None.
Proof. intros H. unfold gin.HeaderGet. rewrite H. reflexivity. Qed.

Section Handlers.
Context (E : Env).
Import serializer filesystem explorer.

(** ** [PutContent]: the size of the request *)

(** C9: when the Content-Length header is missing or is not an unsigned
    64-bit decimal number, [PutContent] returns the parameter error and
    leaves the world as it found it: no file system was created, no file
    looked up, no hook registered, nothing logged, stored or cached. *)
Theorem PutContent_unparsable_length (service : FileIDService)
    (ctx : context.Context) (c : gin.Context) (w : World) :
  gin.Header c !! "Content-Length" = None
  \/ strconv.ParseUint (gin.HeaderGet c "Content-Length") = None ->
  PutContent E service ctx c w
  = (Done (ParamErr "无法解析文件尺寸" (Some "strconv.ParseUint")), w).
Proof.
  intros [H|H]; [apply ParseUint_missing_header in H|];
    unfold PutContent; rewrite H; reflexivity.
Qed.

End Handlers.

(** ** The handler monad *)

Lemma bind_Done {A B} (m : M A) (k : A -> M B) (w : World) (a : A) (w' : World) :
  m w = (Done a, w') -> bind m k w = k a w'.
Proof. intros H. unfold bind. rewrite H. reflexivity. Qed.

Lemma defer_Done {A} (d : M unit) (body : M A) (w : World) (r : Outcome A)
    (w' w'' : World) :
  body w = (r, w') -> d w' = (Done tt, w'') -> defer d body w = (r, w'').
Proof. intros H1 H2. unfold defer. rewrite H1, H2. reflexivity. Qed.

Lemma bind_inv {A B} (m : M A) (k : A -> M B) (w : World) (b : B) (w' : World) :
  bind m k w = (Done b, w') ->
  exists a w1, m w = (Done a, w1) /\ k a w1 = (Done b, w').
Proof.
  unfold bind. destruct (m w) as [[a|s] w1]; intros H; [eauto|discriminate].
Qed.

Lemma defer_inv {A} (d : M unit) (body : M A) (w : World) (a : A) (w' : World) :
  defer d body w = (Done a, w') ->
  exists w1, body w = (Done a, w1) /\ d w1 = (Done tt, w').
Proof.
  unfold defer. destruct (body w) as [r w1]. destruct (d w1) as [[[]|s] w2] eqn:Hd;
    intros H; inversion H; subst. eauto.
Qed.

Lemma when_Done (b : bool) (m : M unit) (w w1 : World) :
  m w = (Done tt, w1) -> when b m w = (Done tt, if b then w1 else w).
Proof. intros H. destruct b; [exact H|reflexivity]. Qed.

(** One step of a handler whose next call returns by computation. *)
Ltac step := erewrite bind_Done by reflexivity; cbv beta iota.
Ltac step_when := erewrite bind_Done by (apply when_Done; reflexivity); cbv beta iota.

(** ** The hook pipeline *)

Section Pipeline.
Context (E : Env).
Import filesystem.

Lemma hooks_of_Use fs stage h stage' :
  hooks_of (Use fs stage h) stage'
  = if decide (stage = stage') then hooks_of fs stage ++ [h] else hooks_of fs stage'.
Proof.
  unfold hooks_of at 1. unfold Use. simpl.
  rewrite lookup_insert. case_decide; reflexivity.
Qed.

Lemma hooks_of_Use_eq fs stage h :
  hooks_of (Use fs stage h) stage = hooks_of fs stage ++ [h].
Proof. rewrite hooks_of_Use. apply decide_True. reflexivity. Qed.

Lemma hooks_of_Use_ne fs stage h stage' :
  stage <> stage' -> hooks_of (Use fs stage h) stage' = hooks_of fs stage'.
Proof. intros H. rewrite hooks_of_Use. apply decide_False. exact H. Qed.

Lemma In_hooks_of_Use fs stage h stage' h' :
  In h' (hooks_of (Use fs stage h) stage') -> h' = h \/ In h' (hooks_of fs stage').
Proof.
  rewrite hooks_of_Use. case_decide; [|tauto].
  subst. intros H. apply in_app_or in H. simpl in H. intuition.
Qed.

Lemma hooks_of_fresh fs stage : Hooks fs = ∅ -> hooks_of fs stage = [].
Proof. intros H. unfold hooks_of. rewrite H, lookup_empty. reflexivity. Qed.

(** A stage runs to its end or to its first error; it never panics, and
    it touches neither the session cache nor the response headers. *)
Lemma run_hooks_frame stage hs ctx file w :
  exists r w' evs,
    run_hooks E stage hs ctx file w = (Done r, w')
    /\ w_cache w' = w_cache w /\ w_header w' = w_header w
    /\ w_log w' = w_log w ++ evs.
Proof.
  revert w. induction hs as [|h hs IH]; intros w; simpl.
  - exists None, w, []. rewrite app_nil_r. auto.
  - unfold bind, run_hook.
    destruct (hook_sem E h ctx file (w_store w)) as [st|err].
    + destruct (IH (add_log (EvHook stage h) (set_store st w))) as (r & w' & evs & -> & Hc & Hh & Hl).
      exists r, w', (EvHook stage h :: evs). simpl in *.
      rewrite Hl, <- app_assoc. auto.
    + exists (Some err), (add_log (EvHook stage h) w), [EvHook stage h]. auto.
Qed.

(** A relation between stores that every hook of a chain respects is
    respected by the whole stage. *)
Lemma run_hooks_rel (R : Store -> Store -> Prop) stage hs ctx file :
  (forall st, R st st) ->
  (forall a b c, R a b -> R b c -> R a c) ->
  (forall h st st', In h hs -> hook_sem E h ctx file st = Ok st' -> R st st') ->
  forall w r w', run_hooks E stage hs ctx file w = (r, w') -> R (w_store w) (w_store w').
Proof.
  intros Hrefl Htrans. induction hs as [|h hs IH]; intros Hh w r w' H; simpl in H.
  - inversion H; subst. apply Hrefl.
  - unfold bind, run_hook in H.
    destruct (hook_sem E h ctx file (w_store w)) as [st|err] eqn:Hs.
    + apply IH in H; [|intros; eapply Hh; eauto; right; assumption].
      eapply Htrans; [|exact H]. simpl. eapply Hh; [left; reflexivity|exact Hs].
    + inversion H; subst. apply Hrefl.
Qed.

Lemma hook_sem_objects h ctx file st st' :
  (h <> HookUpdateSourceName -> keeps_objects E h) ->
  hook_sem E h ctx file st = Ok st' -> objects st' = objects st.
Proof.
  intros Hk. destruct h; simpl; try (apply Hk; discriminate).
  unfold updateSourceName.
  destruct (context.Value ctx fsctx.FileModelCtx) as [[]|]; try discriminate.
  intros [= <-]. reflexivity.
Qed.

Lemma run_hooks_objects stage hs ctx file w r w' :
  (forall h, In h hs -> h <> HookUpdateSourceName -> keeps_objects E h) ->
  run_hooks E stage hs ctx file w = (r, w') ->
  objects (w_store w') = objects (w_store w).
Proof.
  intros Hk H.
  apply (run_hooks_rel (fun a b => objects b = objects a)) in H; auto.
  - intros a b c0 H1 H2. congruence.
  - intros h st st' Hin. apply hook_sem_objects. auto.
Qed.

(** The storage driver stores the bytes under the save path, or fails
    and stores nothing. *)
Lemma Put_spec ctx k file w :
  exists r w',
    Put E ctx k file w = (Done r, w')
    /\ w_cache w' = w_cache w /\ w_header w' = w_header w
    /\ w_log w' = w_log w ++ [EvPut k (local.File file)]
    /\ files (w_store w') = files (w_store w)
    /\ match r with
       | None => objects (w_store w') = <[k := local.File file]> (objects (w_store w))
       | Some _ => objects (w_store w') = objects (w_store w)
       end.
Proof.
  unfold Put. destruct (e_transfer E k file).
  - eexists _, _. split; [reflexivity|]. simpl. auto.
  - eexists _, _. split; [reflexivity|]. simpl. auto.
Qed.

Lemma run_hooks_inv stage hs ctx file w r w' :
  run_hooks E stage hs ctx file w = (r, w') ->
  w_cache w' = w_cache w /\ w_header w' = w_header w
  /\ exists evs, w_log w' = w_log w ++ evs.
Proof.
  intros H. destruct (run_hooks_frame stage hs ctx file w) as (r0 & w0 & evs & H0 & ? & ? & ?).
  rewrite H in H0. inversion H0; subst. eauto.
Qed.

Lemma Put_inv ctx k file w r w' :
  Put E ctx k file w = (Done r, w') ->
  w_cache w' = w_cache w /\ w_header w' = w_header w
  /\ w_log w' = w_log w ++ [EvPut k (local.File file)]
  /\ files (w_store w') = files (w_store w)
  /\ match r with
     | None => objects (w_store w') = <[k := local.File file]> (objects (w_store w))
     | Some _ => objects (w_store w') = objects (w_store w)
     end.
Proof.
  intros H. destruct (Put_spec ctx k file w) as (r0 & w0 & H0 & ?).
  rewrite H in H0. inversion H0; subst. assumption.
Qed.

End Pipeline.

(** The chain of a stage after a run of [Use] calls. *)
Ltac hooks_chain :=
  repeat first [ rewrite hooks_of_Use_eq
               | rewrite hooks_of_Use_ne by discriminate ].

(** ** [Upload] *)

Section UploadFacts.
Context (E : Env).
Import filesystem.

Lemma upload_key_step fs ctx file w :
  (match context.Value ctx fsctx.FileModelCtx with
   | Some (VFile f) => ret (model.SourceName f)
   | _ => GenerateSavePath E fs ctx file
   end) w
  = (Done (upload_key E fs ctx file),
     mkWorld (w_cache w) (w_store w) (w_header w) (w_log w ++ upload_key_events ctx file)).
Proof.
  unfold upload_key, upload_key_events, GenerateSavePath, bind, emit, ret, add_log.
  destruct w as [c s h l]; simpl.
  destruct (context.Value ctx fsctx.FileModelCtx) as [[]|]; simpl;
    rewrite ?app_nil_r; reflexivity.
Qed.

(** [Upload] always returns, and in one of these ways. *)
Lemma Upload_run fs ctx file w :
  exists r w', Upload E fs ctx file w = (Done r, w') /\ upload_run E fs ctx file w r w'.
Proof.
  unfold Upload, Trigger, bind at 1, emit. simpl.
  unfold bind at 1.
  destruct (run_hooks_frame E "BeforeUpload" (hooks_of fs "BeforeUpload") ctx file
              (add_log (EvUpload ctx file) w)) as (r1 & w1 & evs1 & H1 & _).
  rewrite H1. destruct r1 as [e|].
  - unfold bind.
    destruct (run_hooks_frame E "AfterValidateFailed" (hooks_of fs "AfterValidateFailed")
                ctx file w1) as (r2 & w2 & evs2 & H2 & _).
    rewrite H2. exists (Some e), w2. split; [reflexivity|].
    eapply run_rejected; eauto.
  - unfold bind at 1. rewrite upload_key_step.
    set (w1' := mkWorld _ _ _ _).
    destruct (Put_spec E ctx (upload_key E fs ctx file) file w1') as (r3 & w3 & H3 & _).
    unfold bind at 1. rewrite H3. destruct r3 as [e|].
    + unfold bind.
      destruct (run_hooks_frame E "AfterUploadCanceled" (hooks_of fs "AfterUploadCanceled")
                  ctx file w3) as (r4 & w4 & evs4 & H4 & _).
      rewrite H4. exists (Some e), w4. split; [reflexivity|].
      eapply run_canceled; eauto.
    + destruct (run_hooks_frame E "AfterUpload" (hooks_of fs "AfterUpload")
                  ctx file w3) as (r5 & w5 & evs5 & H5 & _).
      rewrite H5. exists r5, w5. split; [reflexivity|].
      eapply run_stored; eauto.
Qed.

Lemma Upload_inv fs ctx file w r w' :
  Upload E fs ctx file w = (Done r, w') -> upload_run E fs ctx file w r w'.
Proof.
  intros H. destruct (Upload_run fs ctx file w) as (r0 & w0 & H0 & Hrun).
  rewrite H in H0. inversion H0; subst. exact Hrun.
Qed.

(** An upload logs its call first; it leaves the session cache and the
    response headers alone. *)
Lemma upload_run_frame fs ctx file w r w' :
  upload_run E fs ctx file w r w' ->
  w_cache w' = w_cache w /\ w_header w' = w_header w
  /\ exists evs, w_log w' = w_log w ++ EvUpload ctx file :: evs.
Proof.
  intros Hrun.
  destruct Hrun as [e w1 r2 w2 H1 H2 | e w1 w3 r4 w4 H1 H3 H4 | w1 w3 r5 w5 H1 H3 H5].
  - apply run_hooks_inv in H1 as (Hc1 & Hh1 & evs1 & Hl1).
    apply run_hooks_inv in H2 as (Hc2 & Hh2 & evs2 & Hl2).
    simpl in *. repeat split; try congruence.
    exists (evs1 ++ evs2). rewrite Hl2, Hl1, <- !app_assoc. reflexivity.
  - apply run_hooks_inv in H1 as (Hc1 & Hh1 & evs1 & Hl1).
    apply Put_inv in H3 as (Hc3 & Hh3 & Hl3 & _).
    apply run_hooks_inv in H4 as (Hc4 & Hh4 & evs4 & Hl4).
    simpl in *. repeat split; try congruence.
    eexists. rewrite Hl4, Hl3, Hl1, <- !app_assoc. simpl. reflexivity.
  - apply run_hooks_inv in H1 as (Hc1 & Hh1 & evs1 & Hl1).
    apply Put_inv in H3 as (Hc3 & Hh3 & Hl3 & _).
    apply run_hooks_inv in H5 as (Hc5 & Hh5 & evs5 & Hl5).
    simpl in *. repeat split; try congruence.
    eexists. rewrite Hl5, Hl3, Hl1, <- !app_assoc. simpl. reflexivity.
Qed.

Lemma Upload_frame fs ctx file w :
  exists r w' evs,
    Upload E fs ctx file w = (Done r, w')
    /\ w_cache w' = w_cache w /\ w_header w' = w_header w
    /\ w_log w' = w_log w ++ EvUpload ctx file :: evs.
Proof.
  destruct (Upload_run fs ctx file w) as (r & w' & H & Hrun).
  apply upload_run_frame in Hrun as (Hc & Hh & evs & Hl).
  exists r, w', evs. auto.
Qed.

End UploadFacts.

Section UploadOutcome.
Context (E : Env).
Import filesystem.

(** A successful upload passed [BeforeUpload], stored the bytes under
    the upload key and passed [AfterUpload]. *)
Lemma Upload_success_log fs ctx file w w' :
  Upload E fs ctx file w = (Done None, w') ->
  exists evs1 evs2,
    w_log w' = w_log w ++ EvUpload ctx file :: evs1 ++ upload_key_events ctx file
                 ++ EvPut (upload_key E fs ctx file) (local.File file) :: evs2.
Proof.
  intros H. apply Upload_inv in H.
  inversion H as [| |w1 w3 r5 w5 H1 H3 H5]; subst.
  apply run_hooks_inv in H1 as (_ & _ & evs1 & Hl1).
  apply Put_inv in H3 as (_ & _ & Hl3 & _).
  apply run_hooks_inv in H5 as (_ & _ & evs5 & Hl5).
  exists evs1, evs5. rewrite Hl5, Hl3. simpl. rewrite Hl1. simpl.
  repeat (rewrite <- app_assoc; simpl). reflexivity.
Qed.

Lemma Upload_success_objects fs ctx file w w' :
  Upload E fs ctx file w = (Done None, w') ->
  (forall h, In h (hooks_of fs "BeforeUpload" ++ hooks_of fs "AfterUpload") ->
             h <> HookUpdateSourceName -> keeps_objects E h) ->
  objects (w_store w')
  = <[upload_key E fs ctx file := local.File file]> (objects (w_store w)).
Proof.
  intros H Hk. apply Upload_inv in H.
  inversion H as [| |w1 w3 r5 w5 H1 H3 H5]; subst.
  apply run_hooks_objects in H1; [|intros; apply Hk; auto; apply in_or_app; auto].
  apply Put_inv in H3 as (_ & _ & _ & _ & Ho).
  apply run_hooks_objects in H5; [|intros; apply Hk; auto; apply in_or_app; auto].
  rewrite H5, Ho. simpl. rewrite H1. reflexivity.
Qed.

End UploadOutcome.

(** ** [Create] *)

Section CreateFacts.
Context (E : Env).
Import serializer filesystem explorer.

(** [Create] is its upload, between the creation of the file system and
    its recycling. *)
Lemma Create_upload service c w fs :
  e_NewFileSystemFromContext E c = Ok fs ->
  exists r w1,
    Upload E (create_fs fs) create_ctx (create_stream service)
      (add_log EvNewFileSystemFromContext w) = (Done r, w1)
    /\ Create E service c w = (Done (upload_response r), add_log EvRecycle w1).
Proof.
  intros Hfs.
  destruct (Upload_run E (create_fs fs) create_ctx (create_stream service)
              (add_log EvNewFileSystemFromContext w)) as (r & w1 & HU & _).
  exists r, w1. split; [exact HU|].
  unfold Create, NewFileSystemFromContext, bind at 1, bind at 1, emit, ret. simpl.
  rewrite Hfs. unfold defer, bind, Recycle, emit.
  fold (create_fs fs). fold create_ctx. fold (create_stream service).
  rewrite HU. destruct r; reflexivity.
Qed.

Lemma create_fs_hooks fs :
  Hooks fs = ∅ ->
  Hooks (create_fs fs)
  = <["AfterUpload" := [GenericAfterUpload]]> (<["BeforeUpload" := [HookValidateFile]]> ∅).
Proof.
  intros H. unfold create_fs, Use. simpl. unfold hooks_of. simpl.
  rewrite H. rewrite lookup_insert_ne by discriminate. rewrite !lookup_empty. reflexivity.
Qed.

Lemma create_fs_hooks_of fs stage h :
  Hooks fs = ∅ -> In h (hooks_of (create_fs fs) stage) ->
  h = HookValidateFile \/ h = GenericAfterUpload.
Proof.
  intros H. unfold hooks_of. rewrite (create_fs_hooks fs H).
  rewrite lookup_insert. case_decide.
  - simpl. intuition.
  - rewrite lookup_insert. case_decide; simpl; [intuition|].
    rewrite lookup_empty. simpl. tauto.
Qed.

End CreateFacts.

Section CreateClaims.
Context (E : Env).
Import serializer filesystem explorer.

(** C7: when the file system has been created, [Create] uploads the
    empty stream, of declared size 0, named by the base of the path into
    the directory of the path. A response that is no error is code 0, and
    then the storage driver was handed zero bytes and the stored object
    is empty; a failed upload is answered by the upload-failed error that
    carries its cause. *)
Theorem Create_empty_file (service : SingleFileService) (c : gin.Context)
    (w : World) (fs : FileSystem) :
  e_NewFileSystemFromContext E c = Ok fs ->
  Hooks fs = ∅ ->
  create_stream service
  = local.mkFileStream "" 0 (path.Dir (Path service)) (path.Base (Path service)) ""
  /\ exists err w1 evs,
      Upload E (create_fs fs) create_ctx (create_stream service)
        (add_log EvNewFileSystemFromContext w) = (Done err, w1)
      /\ Create E service c w = (Done (upload_response err), add_log EvRecycle w1)
      /\ w_log w1
         = w_log w ++ EvNewFileSystemFromContext
             :: EvUpload create_ctx (create_stream service) :: evs
      /\ (is_error (upload_response err) = false ->
          upload_response err = Resp 0 DNil
          /\ exists k,
               In (EvPut k "") evs
               /\ (keeps_objects E HookValidateFile ->
                   keeps_objects E GenericAfterUpload ->
                   objects (w_store (add_log EvRecycle w1)) !! k = Some ""))
      /\ (forall e, err = Some e ->
          upload_response err = Err CodeUploadFailed e (Some e)).
Proof.
  intros Hfs Hfresh. split; [reflexivity|].
  destruct (Create_upload E service c w fs Hfs) as (err & w1 & HU & HC).
  destruct (Upload_frame E (create_fs fs) create_ctx (create_stream service)
              (add_log EvNewFileSystemFromContext w)) as (r0 & w0 & evs & HU0 & _ & _ & Hl).
  rewrite HU in HU0. inversion HU0; subst r0 w0. clear HU0.
  exists err, w1, evs. repeat split; auto.
  - rewrite Hl. simpl. rewrite <- app_assoc. reflexivity.
  - destruct err; [discriminate|reflexivity].
  - destruct err as [e|]; [discriminate|].
    exists (upload_key E (create_fs fs) create_ctx (create_stream service)). split.
    + destruct (Upload_success_log E _ _ _ _ _ HU) as (evs1 & evs2 & Hl2).
      rewrite Hl in Hl2. apply app_inv_head in Hl2. injection Hl2 as Hev.
      rewrite Hev. apply in_or_app. right. right. left. reflexivity.
    + intros Hv Ha. simpl.
      rewrite (Upload_success_objects E _ _ _ _ _ HU).
      * apply lookup_insert_eq.
      * intros h Hin _. apply in_app_or in Hin.
        destruct Hin as [Hin|Hin];
          apply (create_fs_hooks_of fs _ _ Hfresh) in Hin; destruct Hin; subst; assumption.
  - intros e ->. reflexivity.
Qed.

End CreateClaims.

Lemma demo_keeps_objects o c t q d h : keeps_objects (demo.env o c t q d) h.
Proof. intros ctx file st st' H. simpl in H. inversion H. reflexivity. Qed.

Lemma demo_keeps_keys o c t q d h : keeps_keys (demo.env o c t q d) h.
Proof. intros ctx file st st' id H. simpl in H. inversion H. reflexivity. Qed.

(** The scenario of the specification: an empty file at [/docs/a.txt]. *)
Lemma Create_empty_file_witness :
  let service := explorer.mkSingleFileService "/docs/a.txt" in
  create_stream service = local.mkFileStream "" 0 "/docs" "a.txt" ""
  /\ explorer.Create demo.plain service (demo.request None) demo.world
     = (Done (serializer.Resp 0 serializer.DNil),
        mkWorld (w_cache demo.world)
          (mkStore (files demo.store)
             (<["uploads/1/new_a.txt" := ""]> (objects demo.store)))
          ∅
          [EvNewFileSystemFromContext;
           EvUpload create_ctx (create_stream service);
           EvHook "BeforeUpload" filesystem.HookValidateFile;
           EvGenerateSavePath (create_stream service);
           EvPut "uploads/1/new_a.txt" "";
           EvHook "AfterUpload" filesystem.GenericAfterUpload;
           EvRecycle]).
Proof.
  intros service.
  destruct (Create_empty_file demo.plain service (demo.request None) demo.world
              (demo.fs false) eq_refl eq_refl) as (Hs & _).
  split; [exact Hs|]. vm_compute. reflexivity.
Defined.

(** ** [PutContent] *)

Section PutContentFacts.
Context (E : Env).
Import serializer filesystem explorer.

(** Past its prologue, [PutContent] is its upload. *)
Lemma PutContent_upload (service : FileIDService) (ctx : context.Context)
    (c : gin.Context) (w : World) (fs : FileSystem) (size id : N)
    (origin : model.File) :
  strconv.ParseUint (gin.HeaderGet c "Content-Length") = Some size ->
  e_NewFileSystemFromContext E c = Ok fs ->
  gin.Get c "object_id" = Some (gin.AUint id) ->
  owned_by (model.UID (User fs)) (w_store w) id = Some origin ->
  let stream := put_stream c size origin in
  let shared := soft_link_branch E w origin in
  let k := e_GenerateSavePath E fs put_gin_ctx stream in
  let origin' := if shared then model.setSourceName k origin else origin in
  let w3 := add_log (EvRemoveFilesWithSoftLinks [origin])
              (add_log (EvGetFilesByIDs [id] (model.UID (User fs)))
                 (add_log EvNewFileSystemFromContext w)) in
  let w4 := if shared then add_log (EvGenerateSavePath stream) w3 else w3 in
  exists err w',
    Upload E (put_fs shared fs) (put_ctx origin') stream w4 = (Done err, w')
    /\ PutContent E service ctx c w = (Done (upload_response err), w').
Proof.
  intros Hsize Hfs Hid Hown stream shared k origin' w3 w4.
  destruct (Upload_run E (put_fs shared fs) (put_ctx origin') stream w4)
    as (err & w' & HU & _).
  exists err, w'. split; [exact HU|].
  unfold PutContent. rewrite Hsize.
  step. rewrite Hfs, Hid. step. step. simpl. rewrite Hown.
  subst shared. unfold soft_link_branch in *.
  destruct (e_softlink_query E [origin]) as [qerr|] eqn:Hq.
  - erewrite bind_Done; [|unfold RemoveFilesWithSoftLinks; rewrite Hq; reflexivity].
    cbv beta iota. step. erewrite bind_Done by exact HU. destruct err; reflexivity.
  - destruct (has_soft_link (w_store w) origin) eqn:Hs.
    + erewrite bind_Done;
        [|unfold RemoveFilesWithSoftLinks; rewrite Hq; simpl; rewrite Hs; reflexivity].
      cbv beta iota. step. erewrite bind_Done by exact HU. destruct err; reflexivity.
    + erewrite bind_Done;
        [|unfold RemoveFilesWithSoftLinks; rewrite Hq; simpl; rewrite Hs; reflexivity].
      cbv beta iota. step. erewrite bind_Done by exact HU. destruct err; reflexivity.
Qed.

End PutContentFacts.

Section PutContentStores.
Context (E : Env).
Import serializer filesystem explorer.

Lemma put_fs_hooks (shared : bool) (fs : FileSystem) :
  Hooks fs = ∅ ->
  let first := if shared then [HookUpdateSourceName] else [] in
  hooks_of (put_fs shared fs) "BeforeUpload"
  = [HookResetPolicy; HookValidateFile; HookChangeCapacity]
  /\ hooks_of (put_fs shared fs) "AfterUpload" = first ++ [GenericAfterUpdate]
  /\ hooks_of (put_fs shared fs) "AfterUploadCanceled"
     = first ++ [HookCleanFileContent; HookClearFileSize; HookGiveBackCapacity]
  /\ hooks_of (put_fs shared fs) "AfterValidateFailed"
     = first ++ [HookCleanFileContent; HookClearFileSize; HookGiveBackCapacity].
Proof.
  intros H first. subst first.
  destruct shared; unfold put_fs; cbv zeta; repeat split;
    hooks_chain; rewrite (hooks_of_fresh fs _ H); reflexivity.
Qed.

(** Hooks that only touch metadata leave objects and physical keys. *)
Lemma run_hooks_metadata stage hs ctx file w r w' :
  metadata_only E hs -> ~ In HookUpdateSourceName hs ->
  run_hooks E stage hs ctx file w = (r, w') ->
  objects (w_store w') = objects (w_store w)
  /\ forall id, key_of (w_store w') id = key_of (w_store w) id.
Proof.
  intros Hm Hn H.
  apply (run_hooks_rel E (fun a b => objects b = objects a
                                     /\ forall id, key_of b id = key_of a id)) in H; auto.
  - intros a b c0 [H1 H2] [H3 H4]. split; [congruence|]. intros id. rewrite H4. apply H2.
  - intros h st st' Hin Hs. destruct (Hm h Hin) as [Ho Hk].
    destruct h; simpl in Hs;
      try (exfalso; apply Hn; exact Hin);
      (split; [eapply Ho; exact Hs | intros id; eapply Hk; exact Hs]).
Qed.

(** The events of a stage are its hooks. *)
Lemma run_hooks_events stage hs ctx file w r w' :
  run_hooks E stage hs ctx file w = (r, w') ->
  exists evs, w_log w' = w_log w ++ evs /\ existsb is_GenerateSavePath evs = false.
Proof.
  revert w. induction hs as [|h hs IH]; intros w H; simpl in H.
  - inversion H; subst. exists []. rewrite app_nil_r. auto.
  - unfold bind, run_hook in H.
    destruct (hook_sem E h ctx file (w_store w)) as [st|err].
    + apply IH in H as (evs & Hl & Hn). exists (EvHook stage h :: evs). simpl in *.
      rewrite Hl, <- app_assoc. auto.
    + inversion H; subst. exists [EvHook stage h]. auto.
Qed.

(** An overwrite computes no path inside [Upload]: the key comes with the
    record. *)
Lemma Upload_overwrite_events fs origin file w r w' :
  Upload E fs (put_ctx origin) file w = (Done r, w') ->
  exists evs,
    w_log w' = w_log w ++ EvUpload (put_ctx origin) file :: evs
    /\ existsb is_GenerateSavePath evs = false.
Proof.
  intros H. apply Upload_inv in H.
  destruct H as [e w1 r2 w2 H1 H2 | e w1 w3 r4 w4 H1 H3 H4 | w1 w3 r5 w5 H1 H3 H5].
  - apply run_hooks_events in H1 as (evs1 & Hl1 & Hn1).
    apply run_hooks_events in H2 as (evs2 & Hl2 & Hn2).
    exists (evs1 ++ evs2). rewrite Hl2, Hl1. simpl. rewrite <- !app_assoc. simpl.
    split; [reflexivity|]. rewrite existsb_app, Hn1, Hn2. reflexivity.
  - apply run_hooks_events in H1 as (evs1 & Hl1 & Hn1).
    apply Put_inv in H3 as (_ & _ & Hl3 & _).
    apply run_hooks_events in H4 as (evs4 & Hl4 & Hn4).
    exists (evs1 ++ EvPut (upload_key E fs (put_ctx origin) file) (local.File file) :: evs4).
    rewrite Hl4, Hl3. simpl. rewrite Hl1. simpl. rewrite app_nil_r.
    repeat (rewrite <- app_assoc; simpl).
    split; [reflexivity|]. rewrite existsb_app, Hn1. simpl. exact Hn4.
  - apply run_hooks_events in H1 as (evs1 & Hl1 & Hn1).
    apply Put_inv in H3 as (_ & _ & Hl3 & _).
    apply run_hooks_events in H5 as (evs5 & Hl5 & Hn5).
    exists (evs1 ++ EvPut (upload_key E fs (put_ctx origin) file) (local.File file) :: evs5).
    rewrite Hl5, Hl3. simpl. rewrite Hl1. simpl. rewrite app_nil_r.
    repeat (rewrite <- app_assoc; simpl).
    split; [reflexivity|]. rewrite existsb_app, Hn1. simpl. exact Hn5.
Qed.

Lemma metadata_only_incl hs hs' :
  metadata_only E hs -> (forall h, In h hs' -> In h hs) -> metadata_only E hs'.
Proof. intros H Hi h Hin. apply H, Hi, Hin. Qed.

(** A successful overwrite in place: the bytes of the request are stored
    under the key of the record, and no record changes its key. *)
Lemma Upload_in_place fs origin file w w' :
  Hooks fs = ∅ -> metadata_only E overwrite_hooks ->
  Upload E (put_fs false fs) (put_ctx origin) file w = (Done None, w') ->
  objects (w_store w')
  = <[model.SourceName origin := local.File file]> (objects (w_store w))
  /\ forall id, key_of (w_store w') id = key_of (w_store w) id.
Proof.
  intros Hfresh Hm H. apply Upload_inv in H.
  destruct (put_fs_hooks false fs Hfresh) as (Hb & Ha & _).
  inversion H as [| |w1 w3 r5 w5 H1 H3 H5]; subst.
  rewrite Hb in H1. rewrite Ha in H5.
  apply run_hooks_metadata in H1 as [Ho1 Hk1];
    [|eapply metadata_only_incl; [exact Hm|simpl; tauto]
     |simpl; intros [|[|[|[]]]]; discriminate].
  apply Put_inv in H3 as (_ & _ & _ & Hf3 & Ho3).
  apply run_hooks_metadata in H5 as [Ho5 Hk5];
    [|eapply metadata_only_incl; [exact Hm|simpl; tauto]
     |simpl; intros [|[]]; discriminate].
  simpl in *. split.
  - rewrite Ho5, Ho3, Ho1. reflexivity.
  - intros id. rewrite Hk5. unfold key_of. rewrite Hf3. apply Hk1.
Qed.


Lemma put_fs_in_place_hooks fs stage :
  Hooks fs = ∅ -> ~ In HookUpdateSourceName (hooks_of (put_fs false fs) stage).
Proof.
  intros Hfresh Hin. unfold put_fs in Hin. cbv zeta in Hin.
  repeat (apply In_hooks_of_Use in Hin as [Hin|Hin]; [discriminate|]).
  rewrite (hooks_of_fresh fs _ Hfresh) in Hin. exact Hin.
Qed.

End PutContentStores.

Section PutContentClaims.
Context (E : Env).
Import serializer filesystem explorer.

Lemma owned_by_lookup (uid : N) (st : Store) (id : N) (origin : model.File) :
  files st !! id = Some origin -> model.UserID origin = uid ->
  owned_by uid st id = Some origin.
Proof.
  intros H Hu. unfold owned_by. rewrite H, Hu, N.eqb_refl. reflexivity.
Qed.


(** C8: when the soft-link check itself fails, its error appears
    nowhere. [PutContent] goes on as for a record that is not shared: no
    key is generated, no stage has [HookUpdateSourceName], the record goes
    to the upload with its original key, and the response is the one of
    the upload. When the upload succeeds the bytes of the request are
    stored under that key, so a record that shares the key now points at
    the new bytes. *)
Theorem PutContent_check_error (service : FileIDService) (ctx : context.Context)
    (c : gin.Context) (w : World) (fs : FileSystem) (size id : N)
    (origin : model.File) (qerr : error) :
  strconv.ParseUint (gin.HeaderGet c "Content-Length") = Some size ->
  e_NewFileSystemFromContext E c = Ok fs ->
  Hooks fs = ∅ ->
  gin.Get c "object_id" = Some (gin.AUint id) ->
  files (w_store w) !! id = Some origin ->
  model.UserID origin = model.UID (User fs) ->
  e_softlink_query E [origin] = Some qerr ->
  let stream := put_stream c size origin in
  let old := model.SourceName origin in
  let w3 := put_prologue (model.UID (User fs)) id origin w in
  (forall stage, ~ In HookUpdateSourceName (hooks_of (put_fs false fs) stage))
  /\ exists err w' evs,
      Upload E (put_fs false fs) (put_ctx origin) stream w3 = (Done err, w')
      /\ PutContent E service ctx c w = (Done (upload_response err), w')
      /\ w_log w' = w_log w3 ++ EvUpload (put_ctx origin) stream :: evs
      /\ existsb is_GenerateSavePath evs = false
      /\ (err = None -> metadata_only E overwrite_hooks ->
          objects (w_store w') !! old = Some (gin.Body c)
          /\ forall id' other,
               files (w_store w) !! id' = Some other ->
               model.SourceName other = old ->
               key_of (w_store w') id' = Some old).
Proof.
  intros Hsize Hfs Hfresh Hid Hrec Huid Hq stream old w3.
  pose proof (owned_by_lookup _ _ _ _ Hrec Huid) as Hown.
  pose proof (PutContent_upload E service ctx c w fs size id origin Hsize Hfs Hid Hown)
    as HP. cbv zeta in HP. unfold soft_link_branch in HP. rewrite Hq in HP.
  destruct HP as (err & w' & HU & HC). split.
  - intros stage. apply put_fs_in_place_hooks. exact Hfresh.
  - destruct (Upload_overwrite_events E _ _ _ _ _ _ HU) as (evs & Hl & Hn).
    exists err, w', evs. repeat (split; [assumption|]).
    intros -> Hm.
    destruct (Upload_in_place E _ _ _ _ _ Hfresh Hm HU) as [Ho Hk]. simpl in Ho, Hk.
    split.
    + rewrite Ho. apply lookup_insert_eq.
    + intros id' other Hother Hkey. rewrite Hk. unfold key_of. rewrite Hother.
      simpl. rewrite Hkey. reflexivity.
Qed.

End PutContentClaims.

(** ** Downloads *)

Section DownloadClaims.
Context (E : Env).
Import serializer filesystem explorer.

Lemma logged_spec evs w :
  w_cache (logged evs w) = w_cache w /\ w_store (logged evs w) = w_store w
  /\ w_header (logged evs w) = w_header w /\ w_log (logged evs w) = w_log w ++ evs.
Proof.
  revert w. induction evs as [|e evs IH]; intros w; simpl.
  - rewrite app_nil_r. auto.
  - destruct (IH (add_log e w)) as (Hc & Hs & Hh & Hl).
    fold (logged evs (add_log e w)). rewrite Hc, Hs, Hh, Hl. simpl.
    rewrite <- app_assoc. auto.
Qed.

(** C4: a download whose target cannot be resolved. When the session
    entry of [Download] or [DownloadArchived] is not in the cache, the
    response is the error of code 404; when the file id of the anonymous
    [Download] or of [Source] does not resolve, it is the not-set error
    with the cause. In each case nothing is served, no URL is signed, and
    cache, stores and response headers are as before: the only events are
    the creation of the file system, the failed lookup and the recycling
    of the file system. *)
Theorem unresolved_target_is_not_found :
  (forall (service : DownloadService) ctx c w fs,
     e_NewFileSystemFromContext E c = Ok fs ->
     w_cache w !! ("download_" +:+ ID service) = None ->
     Download E service ctx c w
     = (Done (Err (CodeLit 404) "文件下载会话不存在" None),
        logged [EvNewFileSystemFromContext; EvCacheGet ("download_" +:+ ID service);
                EvRecycle] w))
  /\ (forall (service : DownloadService) ctx c w fs,
        e_NewFileSystemFromContext E c = Ok fs ->
        w_cache w !! ("archive_" +:+ ID service) = None ->
        DownloadArchived E service ctx c w
        = (Done (Err (CodeLit 404) "归档文件不存在" None),
           logged [EvNewFileSystemFromContext; EvCacheGet ("archive_" +:+ ID service);
                   EvRecycle] w))
  /\ (forall (service : FileAnonymousGetService) ctx c w fs e,
        e_NewAnonymousFileSystem E = Ok fs ->
        e_SetTargetFileByIDs E fs [FileID service] = Fail e ->
        AnonymousDownload E service ctx c w
        = (Done (Err CodeNotSet e (Some e)),
           logged [EvNewAnonymousFileSystem; EvSetTargetFileByIDs [FileID service];
                   EvRecycle] w))
  /\ (forall (service : FileAnonymousGetService) ctx c w fs e,
        e_NewAnonymousFileSystem E = Ok fs ->
        e_SetTargetFileByIDs E fs [FileID service] = Fail e ->
        Source E service ctx c w
        = (Done (Err CodeNotSet e (Some e)),
           logged [EvNewAnonymousFileSystem; EvSetTargetFileByIDs [FileID service];
                   EvRecycle] w)).
Proof.
  repeat split.
  - intros service ctx c w fs Hfs Hmiss.
    unfold Download. step. rewrite Hfs.
    erewrite defer_Done; [| |reflexivity]; cycle 1.
    { step. simpl. rewrite Hmiss. reflexivity. }
    reflexivity.
  - intros service ctx c w fs Hfs Hmiss.
    unfold DownloadArchived. step. rewrite Hfs.
    erewrite defer_Done; [| |reflexivity]; cycle 1.
    { step. simpl. rewrite Hmiss. reflexivity. }
    reflexivity.
  - intros service ctx c w fs e Hfs Hmiss.
    unfold AnonymousDownload. step. rewrite Hfs.
    erewrite defer_Done; [| |reflexivity]; cycle 1.
    { unfold SetTargetFileByIDs. rewrite Hmiss. step. reflexivity. }
    reflexivity.
  - intros service ctx c w fs e Hfs Hmiss.
    unfold Source. step. rewrite Hfs.
    erewrite defer_Done; [| |reflexivity]; cycle 1.
    { unfold SetTargetFileByIDs. rewrite Hmiss. step. reflexivity. }
    reflexivity.
Qed.

End DownloadClaims.

Section SessionClaims.
Context (E : Env).
Import serializer filesystem explorer.

(** C3, as amended: after a session entry has been retrieved and the
    content stream has been obtained without error, [Download] and
    [DownloadArchived] delete the entry from the cache exactly when the
    group of the user has [OneTimeDownload] set, and leave it where it is
    otherwise; when the stream cannot be obtained the handler returns
    before the option is looked at and the entry stays. *)
Theorem one_time_download_deletes :
  (forall (service : DownloadService) ctx c w fs f rs,
     e_NewFileSystemFromContext E c = Ok fs ->
     w_cache w !! ("download_" +:+ ID service) = Some (CFile f) ->
     e_GetDownloadContent E (setFileTarget fs [f])
       (context.WithValue ctx fsctx.GinCtx VGin) 0 = (Some rs, None) ->
     exists w' evs,
       Download E service ctx c w = (Done (Resp 0 DNil), w')
       /\ w_log w' = w_log w ++ evs
       /\ (In (EvCacheDeletes [ID service] "download_") evs <-> one_time fs = true)
       /\ w_cache w'
          = if one_time fs then delete ("download_" +:+ ID service) (w_cache w)
            else w_cache w)
  /\ (forall (service : DownloadService) ctx c w fs p rs,
        e_NewFileSystemFromContext E c = Ok fs ->
        w_cache w !! ("archive_" +:+ ID service) = Some (CString p) ->
        e_GetPhysicalFileContent E fs p = (Some rs, None) ->
        exists w' evs,
          DownloadArchived E service ctx c w = (Done (Resp 0 DNil), w')
          /\ w_log w' = w_log w ++ evs
          /\ (In (EvCacheDeletes [ID service] "archive_") evs <-> one_time fs = true)
          /\ w_cache w'
             = if one_time fs then delete ("archive_" +:+ ID service) (w_cache w)
               else w_cache w)
  /\ (forall (service : DownloadService) ctx c w fs f rs e,
        e_NewFileSystemFromContext E c = Ok fs ->
        w_cache w !! ("download_" +:+ ID service) = Some (CFile f) ->
        e_GetDownloadContent E (setFileTarget fs [f])
          (context.WithValue ctx fsctx.GinCtx VGin) 0 = (rs, Some e) ->
        Download E service ctx c w
        = (Done (Err CodeNotSet e (Some e)),
           logged [EvNewFileSystemFromContext; EvCacheGet ("download_" +:+ ID service);
                   EvGetDownloadContent 0; EvRecycle] w))
  /\ (forall (service : DownloadService) ctx c w fs p rs e,
        e_NewFileSystemFromContext E c = Ok fs ->
        w_cache w !! ("archive_" +:+ ID service) = Some (CString p) ->
        e_GetPhysicalFileContent E fs p = (Some rs, Some e) ->
        DownloadArchived E service ctx c w
        = (Done (Err CodeNotSet e (Some e)),
           logged [EvNewFileSystemFromContext; EvCacheGet ("archive_" +:+ ID service);
                   EvGetPhysicalFileContent p; EvClose rs; EvRecycle] w)).
Proof.
  repeat apply conj.
  - intros service ctx c w fs f rs Hfs Hhit Hrs.
    unfold Download. step. rewrite Hfs.
    eexists.
    exists ([EvNewFileSystemFromContext; EvCacheGet ("download_" +:+ ID service);
             EvGetDownloadContent 0]
            ++ (if one_time fs then [EvCacheDeletes [ID service] "download_"] else [])
            ++ [EvServeContent (model.Name f) (model.UpdatedAt f) rs; EvClose rs;
                EvRecycle]).
    split.
    { erewrite defer_Done; [| |reflexivity]; cycle 1.
      { step. simpl. rewrite Hhit. step. step. rewrite Hrs.
        unfold defer_Close. erewrite defer_Done; [| |reflexivity]; cycle 1.
        { step. step. step_when. step. reflexivity. }
        reflexivity. }
      reflexivity. }
    change (User (setFileTarget fs [f])) with (User fs). fold (one_time fs).
    destruct (one_time fs); simpl.
    + split; [repeat (rewrite <- app_assoc; simpl); reflexivity|].
      split; [|reflexivity]. split; [reflexivity|]. intros _.
      do 3 right. left. reflexivity.
    + split; [repeat (rewrite <- app_assoc; simpl); reflexivity|].
      split; [|reflexivity]. split; [|discriminate].
      intros [H|[H|[H|[H|[H|[H|[]]]]]]]; discriminate H.
  - intros service ctx c w fs p rs Hfs Hhit Hrs.
    unfold DownloadArchived. step. rewrite Hfs.
    eexists.
    exists ([EvNewFileSystemFromContext; EvCacheGet ("archive_" +:+ ID service);
             EvGetPhysicalFileContent p]
            ++ (if one_time fs then [EvCacheDeletes [ID service] "archive_"] else [])
            ++ [EvServeContent "" (e_Now E) rs; EvClose rs; EvRecycle]).
    split.
    { erewrite defer_Done; [| |reflexivity]; cycle 1.
      { step. simpl. rewrite Hhit. step. step. rewrite Hrs.
        unfold defer_Close. erewrite defer_Done; [| |reflexivity]; cycle 1.
        { step_when. step. step. step. reflexivity. }
        reflexivity. }
      reflexivity. }
    fold (one_time fs).
    destruct (one_time fs); simpl.
    + split; [repeat (rewrite <- app_assoc; simpl); reflexivity|].
      split; [|reflexivity]. split; [reflexivity|]. intros _.
      do 3 right. left. reflexivity.
    + split; [repeat (rewrite <- app_assoc; simpl); reflexivity|].
      split; [|reflexivity]. split; [|discriminate].
      intros [H|[H|[H|[H|[H|[H|[]]]]]]]; discriminate H.
  - intros service ctx c w fs f rs e Hfs Hhit Hrs.
    unfold Download. step. rewrite Hfs.
    erewrite defer_Done; [| |reflexivity]; cycle 1.
    { step. simpl. rewrite Hhit. step. step. rewrite Hrs. reflexivity. }
    reflexivity.
  - intros service ctx c w fs p rs e Hfs Hhit Hrs.
    unfold DownloadArchived. step. rewrite Hfs.
    erewrite defer_Done; [| |reflexivity]; cycle 1.
    { step. simpl. rewrite Hhit. step. step. rewrite Hrs.
      unfold defer_Close. erewrite defer_Done; reflexivity. }
    reflexivity.
Qed.

(** C5: in [DownloadArchived] and in the anonymous [Download] the
    [Close] of the stream is deferred before the error is tested. When
    the content call returns its error with a nil stream, the deferred
    statement panics: the handler returns no response. With a stream next
    to the error, the stream is closed and the not-set error returned. *)
Theorem close_deferred_before_error_check :
  (forall (service : DownloadService) ctx c w fs p e,
     e_NewFileSystemFromContext E c = Ok fs ->
     w_cache w !! ("archive_" +:+ ID service) = Some (CString p) ->
     e_GetPhysicalFileContent E fs p = (None, Some e) ->
     DownloadArchived E service ctx c w
     = (Panic "invalid memory address or nil pointer dereference",
        logged [EvNewFileSystemFromContext; EvCacheGet ("archive_" +:+ ID service);
                EvGetPhysicalFileContent p; EvRecycle] w))
  /\ (forall (service : FileAnonymousGetService) ctx c w fs t e,
        e_NewAnonymousFileSystem E = Ok fs ->
        e_SetTargetFileByIDs E fs [FileID service] = Ok t ->
        e_GetDownloadContent E (setFileTarget fs t) ctx 0 = (None, Some e) ->
        AnonymousDownload E service ctx c w
        = (Panic "invalid memory address or nil pointer dereference",
           logged [EvNewAnonymousFileSystem; EvSetTargetFileByIDs [FileID service];
                   EvGetDownloadContent 0; EvRecycle] w))
  /\ (forall (service : FileAnonymousGetService) ctx c w fs t rs e,
        e_NewAnonymousFileSystem E = Ok fs ->
        e_SetTargetFileByIDs E fs [FileID service] = Ok t ->
        e_GetDownloadContent E (setFileTarget fs t) ctx 0 = (Some rs, Some e) ->
        AnonymousDownload E service ctx c w
        = (Done (Err CodeNotSet e (Some e)),
           logged [EvNewAnonymousFileSystem; EvSetTargetFileByIDs [FileID service];
                   EvGetDownloadContent 0; EvClose rs; EvRecycle] w)).
Proof.
  repeat apply conj.
  - intros service ctx c w fs p e Hfs Hhit Hrs.
    unfold DownloadArchived. step. rewrite Hfs.
    erewrite defer_Done; [| |reflexivity]; cycle 1.
    { step. simpl. rewrite Hhit. step. step. rewrite Hrs. reflexivity. }
    reflexivity.
  - intros service ctx c w fs t e Hfs Ht Hrs.
    unfold AnonymousDownload. step. rewrite Hfs.
    erewrite defer_Done; [| |reflexivity]; cycle 1.
    { unfold SetTargetFileByIDs. rewrite Ht. step. step. rewrite Hrs. reflexivity. }
    reflexivity.
  - intros service ctx c w fs t rs e Hfs Ht Hrs.
    unfold AnonymousDownload. step. rewrite Hfs.
    erewrite defer_Done; [| |reflexivity]; cycle 1.
    { unfold SetTargetFileByIDs. rewrite Ht. step. step. rewrite Hrs.
      unfold defer_Close. erewrite defer_Done; reflexivity. }
    reflexivity.
Qed.

End SessionClaims.

(** ** Previews *)

Section PreviewClaims.
Context (E : Env).
Import serializer filesystem explorer.

Lemma resolve_object_cases fs ctx c w o w' :
  resolve_object E fs ctx c w = (o, w') ->
  w_cache w' = w_cache w /\ w_header w' = w_header w
  /\ (exists evs, w_log w' = w_log w ++ evs)
  /\ forall fs' oid resp, o = Done (fs', oid, Some resp) -> is_error resp = true.
Proof.
  unfold resolve_object.
  destruct (match context.Value ctx fsctx.FileModelCtx with
            | Some (VFilePtr file) => _ | _ => _ end) as [fs1 oid1].
  destruct (context.Value ctx fsctx.FolderModelCtx) as [[| | | |d|]|];
    try (intros H; inversion H; subst; repeat split; auto;
         [exists []; rewrite app_nil_r; reflexivity | intros; discriminate]).
  unfold assert_path.
  destruct (context.Value ctx fsctx.PathCtx) as [[| | | | |p]|];
    try (intros H; inversion H; subst; repeat split; auto;
         [exists []; rewrite app_nil_r; reflexivity | intros; discriminate]).
  step. unfold ResetFileIfNotExist. 
  destruct (e_ResetFileIfNotExist E (setRoot fs1 d) ctx p); step;
    intros H; inversion H; subst; simpl; repeat split; eauto; intros; try discriminate.
  inversion H0; subst. reflexivity.
Qed.
Lemma Preview_cases fs ctx id isText w fs' r w' :
  Preview E fs ctx id isText w = (Done (fs', r), w') ->
  w_cache w' = w_cache w /\ w_header w' = w_header w
  /\ (exists evs, w_log w' = w_log w ++ evs)
  /\ forall resp, r = Ok resp -> Redirect resp = true ->
       isText = false /\ e_IsDirectlyPreview E fs' = false
       /\ e_preview_url E fs' ctx id = Ok (URL resp, MaxAge resp).
Proof.
  unfold Preview. step.
  destruct (e_preview_target E fs ctx id) as [t|err].
  - destruct isText; simpl.
    + step. destruct (e_GetDownloadContent E (setFileTarget fs t) ctx id) as [rs [e|]];
        intros H; inversion H; subst; simpl;
        (split; [reflexivity|]); (split; [reflexivity|]); (split; [eexists; repeat (rewrite <- app_assoc; simpl); reflexivity|]);
        intros resp Hr; inversion Hr; subst; discriminate.
    + destruct (e_IsDirectlyPreview E (setFileTarget fs t)) eqn:Hd.
      * step. destruct (e_GetDownloadContent E (setFileTarget fs t) ctx id) as [rs [e|]];
          intros H; inversion H; subst; simpl;
          (split; [reflexivity|]); (split; [reflexivity|]); (split; [eexists; repeat (rewrite <- app_assoc; simpl); reflexivity|]);
          intros resp Hr; inversion Hr; subst; discriminate.
      * destruct (e_preview_url E (setFileTarget fs t) ctx id) as [[u ttl]|err] eqn:Hu;
          intros H; inversion H; subst; simpl;
          (split; [reflexivity|]); (split; [reflexivity|]); (split; [eexists; repeat (rewrite <- app_assoc; simpl); reflexivity|]);
          intros resp Hr; inversion Hr; subst; auto.
  - intros H; inversion H; subst; simpl.
    (split; [reflexivity|]); (split; [reflexivity|]); (split; [eexists; repeat (rewrite <- app_assoc; simpl); reflexivity|]).
    intros; discriminate.
Qed.

(** A preview designated as text, on the model of [Preview]: the result
    never asks for a redirect, and its content is the stream that
    [GetDownloadContent] returned for the resolved target, so the bytes
    pass through the service. *)
Lemma Preview_text fs ctx id w fs' resp w' :
  Preview E fs ctx id true w = (Done (fs', Ok resp), w') ->
  Redirect resp = false
  /\ e_GetDownloadContent E fs' ctx id = (Content resp, None)
  /\ w' = logged [EvPreview id true; EvGetDownloadContent id] w.
Proof.
  unfold Preview. step.
  destruct (e_preview_target E fs ctx id) as [t|err]; [|intros H; inversion H].
  cbn [orb]. step.
  destruct (e_GetDownloadContent E (setFileTarget fs t) ctx id) as [rs [e|]] eqn:Hc;
    intros H; inversion H; subst.
  repeat split. exact Hc.
Qed.

(** The handler after [Preview] has answered with a redirect: whatever
    [isText] is, the response is the redirect of code -301 to the URL of
    the result, with its lifetime as [max-age]. *)
Lemma PreviewContent_redirects (service : FileIDService) ctx c isText w
    fs fs1 id w1 fs2 resp w2 :
  e_NewFileSystemFromContext E c = Ok fs ->
  resolve_object E fs ctx c (add_log EvNewFileSystemFromContext w)
  = (Done (fs1, Some (gin.AUint id), None), w1) ->
  Preview E fs1 ctx id isText w1 = (Done (fs2, Ok resp), w2) ->
  Redirect resp = true ->
  PreviewContent E service ctx c isText w
  = (Done (Resp (-301) (DString (URL resp))),
     add_log EvRecycle
       (set_header (<["Cache-Control" := "max-age=" +:+ pretty (MaxAge resp)]>
                      (w_header w2)) w2)).
Proof.
  intros Hfs Hres Hprev Hred.
  unfold PreviewContent. step. rewrite Hfs.
  erewrite defer_Done; [| |reflexivity]; cycle 1.
  { erewrite bind_Done by exact Hres. cbv beta iota. step.
    erewrite bind_Done by exact Hprev. cbv beta iota. rewrite Hred.
    step. reflexivity. }
  reflexivity.
Qed.

(** The handler after [Preview] has answered with content: the stream of
    the result is served under the name and the modification time of the
    first file of the target and closed, after [Cache-Control: no-cache]
    was set when the preview is for text. *)
Lemma PreviewContent_serves (service : FileIDService) ctx c isText w
    fs fs1 id w1 fs2 resp w2 rs f t :
  e_NewFileSystemFromContext E c = Ok fs ->
  resolve_object E fs ctx c (add_log EvNewFileSystemFromContext w)
  = (Done (fs1, Some (gin.AUint id), None), w1) ->
  Preview E fs1 ctx id isText w1 = (Done (fs2, Ok resp), w2) ->
  Redirect resp = false -> Content resp = Some rs -> FileTarget fs2 = f :: t ->
  PreviewContent E service ctx c isText w
  = (Done (Resp 0 DNil),
     logged [EvServeContent (model.Name f) (model.UpdatedAt f) rs; EvClose rs;
             EvRecycle]
       (if isText
        then set_header (<["Cache-Control" := "no-cache"]> (w_header w2)) w2
        else w2)).
Proof.
  intros Hfs Hres Hprev Hred Hcontent Htarget.
  unfold PreviewContent. step. rewrite Hfs.
  erewrite defer_Done; [| |reflexivity]; cycle 1.
  { erewrite bind_Done by exact Hres. cbv beta iota. step.
    erewrite bind_Done by exact Hprev. cbv beta iota. rewrite Hred, Hcontent.
    unfold defer_Close. erewrite defer_Done; [| |reflexivity]; cycle 1.
    { step_when. rewrite Htarget. step. step. reflexivity. }
    reflexivity. }
  destruct isText; reflexivity.
Qed.

(** Every response of [PreviewContent] that is no error comes from a
    run in which [Preview] answered, and is one of the two above. *)
Lemma PreviewContent_inv (service : FileIDService) ctx c isText w r w' :
  PreviewContent E service ctx c isText w = (Done r, w') ->
  is_error r = true
  \/ exists fs fs1 id w1 fs2 resp w2,
       e_NewFileSystemFromContext E c = Ok fs
       /\ resolve_object E fs ctx c (add_log EvNewFileSystemFromContext w)
          = (Done (fs1, Some (gin.AUint id), None), w1)
       /\ Preview E fs1 ctx id isText w1 = (Done (fs2, Ok resp), w2)
       /\ w_header w2 = w_header w
       /\ ((Redirect resp = true /\ r = Resp (-301) (DString (URL resp)))
           \/ (Redirect resp = false /\ r = Resp 0 DNil
               /\ exists rs f t, Content resp = Some rs /\ FileTarget fs2 = f :: t)).
Proof.
  intros H. unfold PreviewContent in H.
  apply bind_inv in H as (r0 & w0 & H0 & H).
  inversion H0; subst r0 w0; clear H0.
  destruct (e_NewFileSystemFromContext E c) as [fs|err] eqn:Hfs.
  2:{ inversion H; subst. left. reflexivity. }
  apply defer_inv in H as (w9 & H & _).
  apply bind_inv in H as ([[fs1 oid] early] & w1 & Hres & H).
  pose proof (resolve_object_cases _ _ _ _ _ _ Hres) as (_ & Hh1 & _ & Hearly).
  destruct early as [resp0|].
  { inversion H; subst. left. eapply Hearly; reflexivity. }
  apply bind_inv in H as (id & w3 & Hid & H).
  destruct oid as [[n|s]|]; try discriminate Hid.
  inversion Hid; subst n w3; clear Hid.
  apply bind_inv in H as ([fs2 pr] & w2 & Hp & H).
  pose proof (Preview_cases _ _ _ _ _ _ _ _ Hp) as (_ & Hh2 & _ & _).
  destruct pr as [resp|err].
  2:{ inversion H; subst. left. reflexivity. }
  right. exists fs, fs1, id, w1, fs2, resp, w2.
  split; [reflexivity|]. split; [exact Hres|]. split; [exact Hp|].
  split; [rewrite Hh2, Hh1; reflexivity|].
  destruct (Redirect resp) eqn:Hr.
  - left. apply bind_inv in H as ([] & w5 & _ & H). inversion H; subst. auto.
  - right. unfold defer_Close in H.
    destruct (Content resp) as [rs|] eqn:Hc; [|discriminate].
    apply defer_inv in H as (w5 & H & _).
    apply bind_inv in H as ([] & w6 & _ & H).
    apply bind_inv in H as (target & w7 & Hi & H).
    destruct (FileTarget fs2) as [|f t] eqn:Ht; [discriminate Hi|].
    apply bind_inv in H as ([] & w8 & _ & H). inversion H; subst.
    split; [reflexivity|]. split; [reflexivity|]. exists rs, f, t. auto.
Qed.

(** C6: previews designated as text. In the handler itself the redirect
    depends on the result of [Preview] alone: a result that asks for a
    redirect is answered by code -301 with the URL and [Cache-Control:
    max-age] of its lifetime, whatever [isText] is; any other result has
    its stream served under the name and time of the target and closed,
    with [Cache-Control: no-cache] exactly for text. That a text preview
    never gets a result asking for a redirect is decided inside
    [Preview]: on its model the result for text carries the stream that
    [GetDownloadContent] returned. Together: a preview with [isText] set
    never answers with a redirect, and a response that is no error is
    code 0 after the stream [GetDownloadContent] returned was served
    with [no-cache]; a redirect answers only a preview that is not text
    and whose result asks for it. *)
Theorem text_preview_is_proxied :
  (forall (service : FileIDService) ctx c isText w fs fs1 id w1 fs2 resp w2,
     e_NewFileSystemFromContext E c = Ok fs ->
     resolve_object E fs ctx c (add_log EvNewFileSystemFromContext w)
     = (Done (fs1, Some (gin.AUint id), None), w1) ->
     Preview E fs1 ctx id isText w1 = (Done (fs2, Ok resp), w2) ->
     Redirect resp = true ->
     PreviewContent E service ctx c isText w
     = (Done (Resp (-301) (DString (URL resp))),
        add_log EvRecycle
          (set_header (<["Cache-Control" := "max-age=" +:+ pretty (MaxAge resp)]>
                         (w_header w2)) w2)))
  /\ (forall (service : FileIDService) ctx c isText w fs fs1 id w1 fs2 resp w2 rs f t,
        e_NewFileSystemFromContext E c = Ok fs ->
        resolve_object E fs ctx c (add_log EvNewFileSystemFromContext w)
        = (Done (fs1, Some (gin.AUint id), None), w1) ->
        Preview E fs1 ctx id isText w1 = (Done (fs2, Ok resp), w2) ->
        Redirect resp = false -> Content resp = Some rs -> FileTarget fs2 = f :: t ->
        PreviewContent E service ctx c isText w
        = (Done (Resp 0 DNil),
           logged [EvServeContent (model.Name f) (model.UpdatedAt f) rs; EvClose rs;
                   EvRecycle]
             (if isText
              then set_header (<["Cache-Control" := "no-cache"]> (w_header w2)) w2
              else w2)))
  /\ (forall fs ctx id w fs' resp w',
        Preview E fs ctx id true w = (Done (fs', Ok resp), w') ->
        Redirect resp = false
        /\ e_GetDownloadContent E fs' ctx id = (Content resp, None)
        /\ w' = logged [EvPreview id true; EvGetDownloadContent id] w)
  /\ (forall (service : FileIDService) ctx c w r w',
        PreviewContent E service ctx c true w = (Done r, w') ->
        is_redirect r = false
        /\ (is_error r = false ->
            r = Resp 0 DNil
            /\ exists fs fs1 id w1 fs2 resp rs f t,
                 e_NewFileSystemFromContext E c = Ok fs
                 /\ resolve_object E fs ctx c (add_log EvNewFileSystemFromContext w)
                    = (Done (fs1, Some (gin.AUint id), None), w1)
                 /\ Preview E fs1 ctx id true w1
                    = (Done (fs2, Ok resp),
                       logged [EvPreview id true; EvGetDownloadContent id] w1)
                 /\ Content resp = Some rs
                 /\ e_GetDownloadContent E fs2 ctx id = (Some rs, None)
                 /\ FileTarget fs2 = f :: t
                 /\ w_header w' = <["Cache-Control" := "no-cache"]> (w_header w)
                 /\ w'
                    = logged [EvServeContent (model.Name f) (model.UpdatedAt f) rs;
                              EvClose rs; EvRecycle]
                        (set_header (<["Cache-Control" := "no-cache"]> (w_header w1))
                           (logged [EvPreview id true; EvGetDownloadContent id] w1))))
  /\ (forall (service : FileIDService) ctx c isText w r w',
        PreviewContent E service ctx c isText w = (Done r, w') ->
        is_redirect r = true ->
        isText = false
        /\ exists fs fs1 id w1 fs2 resp w2,
             e_NewFileSystemFromContext E c = Ok fs
             /\ resolve_object E fs ctx c (add_log EvNewFileSystemFromContext w)
                = (Done (fs1, Some (gin.AUint id), None), w1)
             /\ Preview E fs1 ctx id false w1 = (Done (fs2, Ok resp), w2)
             /\ Redirect resp = true
             /\ r = Resp (-301) (DString (URL resp))
             /\ w_header w'
                = <["Cache-Control" := "max-age=" +:+ pretty (MaxAge resp)]> (w_header w)).
Proof.
  split; [exact PreviewContent_redirects|].
  split; [exact PreviewContent_serves|].
  split; [exact Preview_text|].
  split.
  - intros service ctx c w r w' H.
    destruct (PreviewContent_inv _ _ _ _ _ _ _ H)
      as [He|(fs & fs1 & id & w1 & fs2 & resp & w2 & Hfs & Hres & Hp & Hh & Hcase)].
    { split; [destruct r; [discriminate He|reflexivity|reflexivity]|].
      rewrite He. discriminate. }
    destruct (Preview_text _ _ _ _ _ _ _ Hp) as (Hred & Hget & Hw2).
    destruct Hcase as [[Hr _]|(_ & -> & rs & f & t & Hc & Ht)]; [congruence|].
    split; [reflexivity|]. intros _. split; [reflexivity|].
    exists fs, fs1, id, w1, fs2, resp, rs, f, t.
    rewrite Hc in Hget.
    rewrite (PreviewContent_serves _ _ _ _ _ _ _ _ _ _ _ _ _ _ _
               Hfs Hres Hp Hred Hc Ht) in H.
    inversion H; subst w'. clear H. subst w2.
    repeat split; auto.
    cbn [w_header add_log set_header]. rewrite Hh. reflexivity.
  - intros service ctx c isText w r w' H Hredirect.
    destruct (PreviewContent_inv _ _ _ _ _ _ _ H)
      as [He|(fs & fs1 & id & w1 & fs2 & resp & w2 & Hfs & Hres & Hp & Hh & Hcase)].
    { destruct r; simpl in *; congruence. }
    destruct Hcase as [[Hr ->]|(_ & -> & _)]; [|discriminate Hredirect].
    assert (isText = false) as ->.
    { destruct isText; [|reflexivity].
      destruct (Preview_text _ _ _ _ _ _ _ Hp) as (Hred & _). congruence. }
    split; [reflexivity|]. exists fs, fs1, id, w1, fs2, resp, w2.
    rewrite (PreviewContent_redirects _ _ _ _ _ _ _ _ _ _ _ _
               Hfs Hres Hp Hr) in H.
    inversion H; subst w'. repeat split; auto. simpl. rewrite Hh. reflexivity.
Qed.

End PreviewClaims.

(** ** The document preview address *)

Section Escaping.

Lemma string_forallb_app p a b :
  string_forallb p (a +:+ b) = string_forallb p a && string_forallb p b.
Proof.
  induction a as [|c a IH]; simpl; [reflexivity|].
  rewrite IH. apply andb_assoc.
Qed.

Lemma string_existsb_app p a b :
  string_existsb p (a +:+ b) = string_existsb p a || string_existsb p b.
Proof.
  induction a as [|c a IH]; simpl; [reflexivity|].
  rewrite IH. apply orb_assoc.
Qed.

Lemma string_forallb_impl (p q : ascii -> bool) s :
  (forall c, p c = true -> q c = true) ->
  string_forallb p s = true -> string_forallb q s = true.
Proof.
  intros Hpq. induction s as [|c s IH]; simpl; [reflexivity|].
  intros H. apply andb_true_iff in H as [H1 H2].
  rewrite (Hpq _ H1), (IH H2). reflexivity.
Qed.

Lemma QueryEscape_cons c s :
  url.QueryEscape (String c s) = url.QueryEscape (String c "") +:+ url.QueryEscape s.
Proof.
  unfold url.QueryEscape. simpl.
  destruct (url.shouldEscape url.encodeQueryComponent c); [|reflexivity].
  destruct (ascii_eqb c " "); reflexivity.
Qed.

Lemma QueryEscape_char_safe c :
  string_forallb query_safe (url.QueryEscape (String c "")) = true.
Proof. destruct c as [[] [] [] [] [] [] [] []]; vm_compute; reflexivity. Qed.

Lemma QueryEscape_char_plus c :
  string_existsb (ascii_eqb "+"%char) (url.QueryEscape (String c ""))
  = ascii_eqb " "%char c.
Proof. destruct c as [[] [] [] [] [] [] [] []]; vm_compute; reflexivity. Qed.

Lemma query_safe_not_brace c : query_safe c = true -> negb (ascii_eqb c "{"%char) = true.
Proof. destruct c as [[] [] [] [] [] [] [] []]; vm_compute; auto. Qed.

(** Every byte [QueryEscape] writes is a letter, a digit, one of
    [-_.~], a percent sign or a plus sign. *)
Lemma QueryEscape_safe s : string_forallb query_safe (url.QueryEscape s) = true.
Proof.
  induction s as [|c s IH]; [reflexivity|].
  rewrite QueryEscape_cons, string_forallb_app, QueryEscape_char_safe, IH. reflexivity.
Qed.

(** A plus sign of the output stands for a space of the input. *)
Lemma QueryEscape_plus s :
  string_existsb (ascii_eqb "+"%char) (url.QueryEscape s)
  = string_existsb (ascii_eqb " "%char) s.
Proof.
  induction s as [|c s IH]; [reflexivity|].
  rewrite QueryEscape_cons, string_existsb_app, QueryEscape_char_plus, IH. reflexivity.
Qed.

Lemma QueryEscape_brace_free s : brace_free (url.QueryEscape s) = true.
Proof.
  unfold brace_free. eapply string_forallb_impl; [|apply QueryEscape_safe].
  apply query_safe_not_brace.
Qed.

End Escaping.

Section Templates.

Lemma prefix_brace old c s :
  negb (ascii_eqb c "{"%char) = true -> String.prefix (String "{"%char old) (String c s) = false.
Proof.
  intros H. cbn [String.prefix].
  destruct (ascii_dec "{" c) as [<-|Hne]; [discriminate H|reflexivity].
Qed.

(** Text without an opening brace passes a replacement of a placeholder
    unchanged. *)
Lemma replace_literal old new lit rest :
  brace_free lit = true ->
  strings.replace_from (String "{"%char old) new 0 (lit +:+ rest)
  = lit +:+ strings.replace_from (String "{"%char old) new 0 rest.
Proof.
  induction lit as [|c lit IH]; intros H; [reflexivity|].
  apply andb_true_iff in H as [Hc Hl].
  change (String c lit +:+ rest) with (String c (lit +:+ rest)).
  cbn [strings.replace_from]. rewrite (prefix_brace _ _ _ Hc).
  rewrite (IH Hl). reflexivity.
Qed.

Lemma replace_src_at_src new rest :
  strings.replace_from "{$src}" new 0 ("{$src}" +:+ rest)
  = new +:+ strings.replace_from "{$src}" new 0 rest.
Proof. destruct rest; reflexivity. Qed.

Lemma replace_src_at_srcB64 new rest :
  strings.replace_from "{$src}" new 0 ("{$srcB64}" +:+ rest)
  = "{$srcB64}" +:+ strings.replace_from "{$src}" new 0 rest.
Proof. reflexivity. Qed.

Lemma replace_srcB64_at_srcB64 new rest :
  strings.replace_from "{$srcB64}" new 0 ("{$srcB64}" +:+ rest)
  = new +:+ strings.replace_from "{$srcB64}" new 0 rest.
Proof. destruct rest; reflexivity. Qed.

Lemma replace_srcB64_at_src new rest :
  strings.replace_from "{$srcB64}" new 0 ("{$src}" +:+ rest)
  = "{$src}" +:+ strings.replace_from "{$srcB64}" new 0 rest.
Proof. reflexivity. Qed.

(** One pass over a template whose two kinds of placeholder are
    currently written [x] and [y]. *)
Lemma replace_fill old new x y x' y' segs :
  (forall rest, strings.replace_from (String "{"%char old) new 0 (x +:+ rest)
                = x' +:+ strings.replace_from (String "{"%char old) new 0 rest) ->
  (forall rest, strings.replace_from (String "{"%char old) new 0 (y +:+ rest)
                = y' +:+ strings.replace_from (String "{"%char old) new 0 rest) ->
  literals_brace_free segs = true ->
  strings.replace_from (String "{"%char old) new 0 (fill x y segs) = fill x' y' segs.
Proof.
  intros Hx Hy. induction segs as [|[lit| |] segs IH]; simpl; intros H.
  - reflexivity.
  - apply andb_true_iff in H as [Hl Hs].
    rewrite (replace_literal _ _ _ _ Hl), (IH Hs). reflexivity.
  - rewrite Hx, (IH H). reflexivity.
  - rewrite Hy, (IH H). reflexivity.
Qed.

(** Both walks of the table fill the template the same way. *)
Lemma replace_pairs_fill a b segs :
  brace_free a = true -> brace_free b = true ->
  literals_brace_free segs = true ->
  util.replace_pairs [("{$src}", a); ("{$srcB64}", b)] (render segs) = fill a b segs
  /\ util.replace_pairs [("{$srcB64}", b); ("{$src}", a)] (render segs) = fill a b segs.
Proof.
  intros Ha Hb Hs. unfold util.replace_pairs, render. simpl. unfold strings.ReplaceAll.
  split.
  - rewrite (replace_fill _ a "{$src}" "{$srcB64}" a "{$srcB64}" segs
               (replace_src_at_src a) (replace_src_at_srcB64 a) Hs).
    apply replace_fill; [|apply replace_srcB64_at_srcB64|exact Hs].
    intros rest. apply replace_literal. exact Ha.
  - rewrite (replace_fill _ b "{$src}" "{$srcB64}" "{$src}" b segs
               (replace_srcB64_at_src b) (replace_srcB64_at_srcB64 b) Hs).
    apply replace_fill; [apply replace_src_at_src| |exact Hs].
    intros rest. apply replace_literal. exact Hb.
Qed.

(** A walk of a map of two entries takes them in one order or the
    other. *)
Lemma map_to_list_two (k1 k2 v1 v2 : string) :
  k1 <> k2 ->
  map_to_list (<[k1 := v1]> (<[k2 := v2]> (∅ : gmap string string)))
  = [(k1, v1); (k2, v2)]
  \/ map_to_list (<[k1 := v1]> (<[k2 := v2]> (∅ : gmap string string)))
     = [(k2, v2); (k1, v1)].
Proof.
  intros Hne.
  assert (Hp : map_to_list (<[k1 := v1]> (<[k2 := v2]> (∅ : gmap string string)))
               ≡ₚ [(k1, v1); (k2, v2)]).
  { rewrite map_to_list_insert.
    - rewrite map_to_list_insert by apply lookup_empty.
      rewrite map_to_list_empty. reflexivity.
    - rewrite lookup_insert_ne by congruence. apply lookup_empty. }
  symmetry in Hp. apply Permutation_length_2_inv in Hp. exact Hp.
Qed.

Lemma Replace_fill (u : string) (segs : list segment) :
  literals_brace_free segs = true ->
  util.Replace (doc_preview_table u) (render segs)
  = fill (url.QueryEscape u) (url.QueryEscape (base64.EncodeToString u)) segs.
Proof.
  intros Hs. unfold util.Replace, doc_preview_table.
  destruct (replace_pairs_fill _ _ segs (QueryEscape_brace_free u)
              (QueryEscape_brace_free (base64.EncodeToString u)) Hs) as [H1 H2].
  destruct (map_to_list_two "{$src}" "{$srcB64}" (url.QueryEscape u)
              (url.QueryEscape (base64.EncodeToString u))) as [->| ->];
    [discriminate| |]; assumption.
Qed.

End Templates.

Section DocPreviewClaims.
Context (E : Env).
Import serializer filesystem explorer.

(** C2: when the download URL [u] has been obtained,
    [CreateDocPreviewSession] answers with code 0 and with the template of
    the setting [office_preview_service] in which [{$src}] is replaced by
    [QueryEscape u] and [{$srcB64}] by [QueryEscape] of the base64
    encoding of [u]. All bytes of the two values are letters, digits,
    [-_.~], the percent sign or the plus sign, and a plus sign stands for
    a space of the URL. In a template whose literal text has no opening
    brace the literal text is kept as it is and each placeholder is
    replaced by its value, whatever the order of the walk of the table. *)
Theorem doc_preview_address :
  (forall (service : FileIDService) ctx c w fs fs' id w2 u,
     e_NewFileSystemFromContext E c = Ok fs ->
     resolve_object E fs ctx c (add_log EvNewFileSystemFromContext w)
     = (Done (fs', Some (gin.AUint id), None), w2) ->
     e_GetDownloadURL E fs' ctx id "doc_preview_timeout" = Ok u ->
     CreateDocPreviewSession E service ctx c w
     = (Done (Resp 0
                (DString
                   (util.Replace (doc_preview_table u)
                      (e_GetSettingByName E "office_preview_service")))),
        logged [EvGetDownloadURL id "doc_preview_timeout"; EvRecycle] w2))
  /\ (forall u,
        string_forallb query_safe (url.QueryEscape u) = true
        /\ string_forallb query_safe (url.QueryEscape (base64.EncodeToString u)) = true
        /\ string_existsb (ascii_eqb "+"%char) (url.QueryEscape u)
           = string_existsb (ascii_eqb " "%char) u)
  /\ (forall u segs,
        literals_brace_free segs = true ->
        util.Replace (doc_preview_table u) (render segs)
        = fill (url.QueryEscape u) (url.QueryEscape (base64.EncodeToString u)) segs).
Proof.
  repeat apply conj.
  - intros service ctx c w fs fs' id w2 u Hfs Hres Hu.
    unfold CreateDocPreviewSession. step. rewrite Hfs.
    erewrite defer_Done; [| |reflexivity]; cycle 1.
    { erewrite bind_Done by exact Hres. cbv beta iota. step. step. rewrite Hu.
      reflexivity. }
    reflexivity.
  - intros u. repeat split; [apply QueryEscape_safe..|apply QueryEscape_plus].
  - intros u segs. apply Replace_fill.
Qed.

End DocPreviewClaims.

(** ** The properties on the concrete environment *)

Section Witnesses.
Import serializer filesystem explorer.

(** A request without Content-Length, and one whose length is signed. *)
Lemma PutContent_unparsable_length_witness :
  PutContent demo.plain scenario.by_id [] (demo.request None) demo.world
  = (Done (ParamErr "无法解析文件尺寸" (Some "strconv.ParseUint")), demo.world)
  /\ PutContent demo.plain scenario.by_id [] (demo.request (Some "-9")) demo.world
     = (Done (ParamErr "无法解析文件尺寸" (Some "strconv.ParseUint")), demo.world).
Proof.
  split; apply PutContent_unparsable_length; [left|right]; reflexivity.
Defined.


(** The same overwrite when the soft-link query fails: the object record
    43 points at now holds the new bytes. *)
Lemma PutContent_check_error_witness :
  exists w',
    PutContent scenario.query_fails scenario.by_id [] (demo.request (Some "9")) demo.world
    = (Done (Resp 0 DNil), w')
    /\ objects (w_store w') !! "uploads/1/shared.bin" = Some "new bytes"
    /\ key_of (w_store w') 43 = Some "uploads/1/shared.bin".
Proof.
  destruct (PutContent_check_error scenario.query_fails scenario.by_id []
              (demo.request (Some "9")) demo.world (demo.fs false) 9 42 demo.file42
              "database is locked" eq_refl eq_refl eq_refl eq_refl eq_refl eq_refl eq_refl)
    as (_ & err & w' & evs & HU & HC & _ & _ & Hafter).
  assert (Herr : err = None).
  { vm_compute in HU. inversion HU. reflexivity. }
  subst err. exists w'. split; [exact HC|].
  destruct Hafter as (Hobj & Hkeys);
    [reflexivity
     | intros h _; split; [apply demo_keeps_objects | apply demo_keeps_keys] |].
  split; [exact Hobj|]. apply (Hkeys 43%N demo.file43); reflexivity.
Defined.

(** The scenario of the specification: the session of the download has
    expired, the file of the anonymous download does not resolve. *)
Lemma unresolved_target_is_not_found_witness :
  Download demo.plain scenario.expired [] (demo.request None) demo.world
  = (Done (Err (CodeLit 404) "文件下载会话不存在" None),
     logged [EvNewFileSystemFromContext; EvCacheGet "download_gone"; EvRecycle]
       demo.world)
  /\ AnonymousDownload scenario.unresolved scenario.anonymous [] (demo.request None)
       demo.world
     = (Done (Err CodeNotSet "record not found" (Some "record not found")),
        logged [EvNewAnonymousFileSystem; EvSetTargetFileByIDs [7%N]; EvRecycle]
          demo.world).
Proof.
  destruct (unresolved_target_is_not_found demo.plain) as (Hd & _ & _ & _).
  destruct (unresolved_target_is_not_found scenario.unresolved) as (_ & _ & Ha & _).
  split.
  - apply (Hd scenario.expired [] (demo.request None) demo.world (demo.fs false));
      reflexivity.
  - apply (Ha scenario.anonymous [] (demo.request None) demo.world (demo.fs false));
      reflexivity.
Defined.

(** C3 as it is worded fails when the content cannot be opened: the
    entry was retrieved, one-time download is set, and the entry is still
    in the cache. *)
Lemma one_time_download_counterexample :
  w_cache demo.world !! "download_abc" = Some (CFile demo.file7)
  /\ one_time (demo.fs true) = true
  /\ Download scenario.unreadable scenario.session [] (demo.request None) demo.world
     = (Done (Err CodeNotSet "open: no such file" (Some "open: no such file")),
        logged [EvNewFileSystemFromContext; EvCacheGet "download_abc";
                EvGetDownloadContent 0; EvRecycle] demo.world)
  /\ w_cache (logged [EvNewFileSystemFromContext; EvCacheGet "download_abc";
                      EvGetDownloadContent 0; EvRecycle] demo.world) !! "download_abc"
     = Some (CFile demo.file7)
  /\ ~ deleted_iff_one_time.
Proof.
  assert (Hrun :
    Download scenario.unreadable scenario.session [] (demo.request None) demo.world
    = (Done (Err CodeNotSet "open: no such file" (Some "open: no such file")),
       logged [EvNewFileSystemFromContext; EvCacheGet "download_abc";
               EvGetDownloadContent 0; EvRecycle] demo.world))
    by (vm_compute; reflexivity).
  split; [vm_compute; reflexivity|]. split; [reflexivity|]. split; [exact Hrun|].
  split; [vm_compute; reflexivity|].
  intros Hclaim.
  specialize (Hclaim scenario.unreadable scenario.session [] (demo.request None)
                demo.world (demo.fs true) (CFile demo.file7) _ _ eq_refl
                ltac:(vm_compute; reflexivity) Hrun).
  destruct Hclaim as [_ Hdel]. specialize (Hdel eq_refl).
  vm_compute in Hdel. discriminate Hdel.
Defined.

(** The prepared download [abc], served once with one-time download set
    and once without. *)
Lemma one_time_download_deletes_witness :
  (exists w',
     Download scenario.one_time_served scenario.session [] (demo.request None) demo.world
     = (Done (Resp 0 DNil), w')
     /\ w_cache w' !! "download_abc" = None)
  /\ (exists w',
        Download demo.plain scenario.session [] (demo.request None) demo.world
        = (Done (Resp 0 DNil), w')
        /\ w_cache w' !! "download_abc" = Some (CFile demo.file7)).
Proof.
  split.
  - destruct (one_time_download_deletes scenario.one_time_served) as (Hd & _).
    destruct (Hd scenario.session [] (demo.request None) demo.world (demo.fs true)
                demo.file7 demo.stream eq_refl ltac:(vm_compute; reflexivity) eq_refl)
      as (w' & evs & Hrun & _ & _ & Hc).
    exists w'. split; [exact Hrun|]. rewrite Hc. simpl. apply lookup_delete_eq.
  - destruct (one_time_download_deletes demo.plain) as (Hd & _).
    destruct (Hd scenario.session [] (demo.request None) demo.world (demo.fs false)
                demo.file7 demo.stream eq_refl ltac:(vm_compute; reflexivity) eq_refl)
      as (w' & evs & Hrun & _ & _ & Hc).
    exists w'. split; [exact Hrun|]. rewrite Hc. vm_compute. reflexivity.
Defined.

(** The archive cannot be opened: [DownloadArchived] panics, and so does
    the anonymous [Download] of an unreadable file. *)
Lemma close_deferred_before_error_check_witness :
  DownloadArchived scenario.unreadable scenario.session [] (demo.request None) demo.world
  = (Panic "invalid memory address or nil pointer dereference",
     logged [EvNewFileSystemFromContext; EvCacheGet "archive_abc";
             EvGetPhysicalFileContent "/tmp/archive.zip"; EvRecycle] demo.world)
  /\ AnonymousDownload scenario.unreadable scenario.anonymous [] (demo.request None)
       demo.world
     = (Panic "invalid memory address or nil pointer dereference",
        logged [EvNewAnonymousFileSystem; EvSetTargetFileByIDs [7%N];
                EvGetDownloadContent 0; EvRecycle] demo.world).
Proof.
  destruct (close_deferred_before_error_check scenario.unreadable) as (Ha & Hd & _).
  split.
  - apply (Ha scenario.session [] (demo.request None) demo.world (demo.fs true)
             "/tmp/archive.zip" "open: no such file");
      [reflexivity | vm_compute; reflexivity | reflexivity].
  - apply (Hd scenario.anonymous [] (demo.request None) demo.world (demo.fs true)
             [demo.file7] "open: no such file"); reflexivity.
Defined.

(** A text preview of record 7 is served with [no-cache] from the
    stream the file system returned; the same preview not as text is
    redirected with [max-age]. *)
Lemma text_preview_is_proxied_witness :
  PreviewContent demo.plain scenario.by_id [] (demo.request None) true demo.world
  = (Done (Resp 0 DNil),
     mkWorld (w_cache demo.world) demo.store (<["Cache-Control" := "no-cache"]> ∅)
       [EvNewFileSystemFromContext; EvPreview 42 true; EvGetDownloadContent 42;
        EvServeContent "notes.txt" 0 demo.stream; EvClose demo.stream; EvRecycle])
  /\ PreviewContent demo.plain scenario.by_id [] (demo.request None) false demo.world
     = (Done (Resp (-301) (DString "https://cdn/preview")),
        mkWorld (w_cache demo.world) demo.store (<["Cache-Control" := "max-age=600"]> ∅)
          [EvNewFileSystemFromContext; EvPreview 42 false; EvRecycle]).
Proof.
  destruct (text_preview_is_proxied demo.plain) as (Hredirect & Hserve & _).
  split.
  - rewrite (Hserve scenario.by_id [] (demo.request None) true demo.world
               (demo.fs false) (demo.fs false) 42%N
               (add_log EvNewFileSystemFromContext demo.world)
               (setFileTarget (demo.fs false) [demo.file7])
               (mkContentResponse false (Some demo.stream) "" 0)
               (logged [EvPreview 42 true; EvGetDownloadContent 42]
                  (add_log EvNewFileSystemFromContext demo.world))
               demo.stream demo.file7 []);
      [vm_compute; reflexivity|reflexivity|vm_compute; reflexivity
      |vm_compute; reflexivity|reflexivity|reflexivity|reflexivity].
  - rewrite (Hredirect scenario.by_id [] (demo.request None) false demo.world
               (demo.fs false) (demo.fs false) 42%N
               (add_log EvNewFileSystemFromContext demo.world)
               (setFileTarget (demo.fs false) [demo.file7])
               (mkContentResponse true None "https://cdn/preview" 600)
               (add_log (EvPreview 42 false)
                  (add_log EvNewFileSystemFromContext demo.world)));
      [vm_compute; reflexivity|reflexivity|vm_compute; reflexivity
      |vm_compute; reflexivity|reflexivity].
Defined.

(** The scenario of the specification: the download URL
    [https://cdn/x?sig=ab+c]. *)
Lemma doc_preview_address_witness :
  fst (CreateDocPreviewSession demo.plain scenario.by_id [] (demo.request None)
         demo.world)
  = Done (Resp 0 (DString
       "https://view.officeapps.live.com/op/view.aspx?src=https%3A%2F%2Fcdn%2Fx%3Fsig%3Dab%2Bc"))
  /\ util.Replace (doc_preview_table "https://cdn/x?sig=ab+c") (render scenario.viewer)
     = "https://viewer.example/?src=https%3A%2F%2Fcdn%2Fx%3Fsig%3Dab%2Bc&b64=aHR0cHM6Ly9jZG4veD9zaWc9YWIrYw%3D%3D&embed=1".
Proof.
  destruct (doc_preview_address demo.plain) as (Hrun & _ & Hfill).
  split.
  - erewrite (Hrun scenario.by_id [] (demo.request None) demo.world (demo.fs false)
                (demo.fs false) 42%N _ "https://cdn/x?sig=ab+c" eq_refl);
      [vm_compute; reflexivity | vm_compute; reflexivity | reflexivity].
  - rewrite Hfill by reflexivity. vm_compute. reflexivity.
Defined.

End Witnesses.

(** * Further properties of the code *)

(** ** [net/url]: the escapes *)

Section EscapeRoundTrip.

Lemma escape_cons mode c s :
  url.escape mode (String c s) = url.escape mode (String c "") +:+ url.escape mode s.
Proof.
  simpl. destruct (url.shouldEscape mode c); [|reflexivity].
  destruct mode; [reflexivity|]. destruct (ascii_eqb c " "); reflexivity.
Qed.

Lemma unescape_char mode c rest :
  unescape mode (url.escape mode (String c "") +:+ rest)
  = option_map (String c) (unescape mode rest).
Proof.
  destruct mode; destruct c as [[] [] [] [] [] [] [] []]; reflexivity.
Qed.

(** Decoding an escaped string gives the string back. *)
Lemma unescape_escape mode s : unescape mode (url.escape mode s) = Some s.
Proof.
  induction s as [|c s IH]; [reflexivity|].
  rewrite escape_cons, unescape_char, IH. reflexivity.
Qed.

End EscapeRoundTrip.

Section EscapeFacts.

(** X1: [QueryEscape] and [PathEscape] lose nothing: decoding the
    escaped string gives the string back, so two strings with the same
    escape are the same string. *)
Theorem escape_round_trip :
  (forall s, unescape url.encodeQueryComponent (url.QueryEscape s) = Some s)
  /\ (forall s, unescape url.encodePathSegment (url.PathEscape s) = Some s)
  /\ (forall a b, url.QueryEscape a = url.QueryEscape b -> a = b)
  /\ (forall a b, url.PathEscape a = url.PathEscape b -> a = b).
Proof.
  repeat apply conj.
  - intros s. apply unescape_escape.
  - intros s. apply unescape_escape.
  - intros a b H. apply (f_equal (unescape url.encodeQueryComponent)) in H.
    unfold url.QueryEscape in H. rewrite !unescape_escape in H. congruence.
  - intros a b H. apply (f_equal (unescape url.encodePathSegment)) in H.
    unfold url.PathEscape in H. rewrite !unescape_escape in H. congruence.
Qed.

Lemma PathEscape_char_safe c :
  string_forallb path_safe (url.PathEscape (String c "")) = true.
Proof. destruct c as [[] [] [] [] [] [] [] []]; vm_compute; reflexivity. Qed.

Lemma PathEscape_safe s : string_forallb path_safe (url.PathEscape s) = true.
Proof.
  induction s as [|c s IH]; [reflexivity|].
  unfold url.PathEscape in *.
  rewrite escape_cons, string_forallb_app, IH, andb_true_r.
  apply PathEscape_char_safe.
Qed.

Lemma path_safe_quoted c : path_safe c = true -> breaks_quoted c = false.
Proof. destruct c as [[] [] [] [] [] [] [] []]; vm_compute; congruence. Qed.

Lemma PathEscape_quoted s : string_existsb breaks_quoted (url.PathEscape s) = false.
Proof.
  pose proof (PathEscape_safe s) as H.
  induction (url.PathEscape s) as [|c t IH]; [reflexivity|].
  simpl in *. apply andb_true_iff in H as [Hc Ht].
  rewrite (path_safe_quoted _ Hc), (IH Ht). reflexivity.
Qed.

End EscapeFacts.

(** ** [encoding/base64] *)

Section Base64Facts.

Lemma string_ind3 (P : string -> Prop) :
  P "" ->
  (forall a, P (String a "")) ->
  (forall a b, P (String a (String b ""))) ->
  (forall a b c s, P s -> P (String a (String b (String c s)))) ->
  forall s, P s.
Proof.
  intros H0 H1 H2 H3 s.
  assert (H : P s /\ (forall a, P (String a s)) /\ forall a b, P (String a (String b s))).
  { induction s as [|c s (IH0 & IH1 & IH2)]; repeat split; auto. }
  apply H.
Qed.

Lemma enc_alphabet n : base64_char (base64.enc n) = true.
Proof.
  unfold base64.enc. generalize (N.to_nat n). intros k.
  do 64 (destruct k as [|k]; [reflexivity|]). reflexivity.
Qed.

Lemma encode_alphabet s : string_forallb base64_char (base64.encode s) = true.
Proof.
  induction s as [|a|a b|a b c s IH] using string_ind3;
    cbn [base64.encode string_forallb]; rewrite ?enc_alphabet, ?IH; reflexivity.
Qed.

Lemma encode_length s :
  String.length (base64.encode s) = 4 * ((String.length s + 2) / 3).
Proof.
  induction s as [|a|a b|a b c s IH] using string_ind3; try reflexivity.
  cbn [base64.encode String.length]. rewrite IH.
  replace (S (S (S (String.length s))) + 2) with (1 * 3 + (String.length s + 2)) by lia.
  rewrite Nat.div_add_l by discriminate. lia.
Qed.

Lemma QueryEscape_base64_char c :
  base64_char c = true ->
  string_forallb alnum_or_percent (url.QueryEscape (String c "")) = true.
Proof. destruct c as [[] [] [] [] [] [] [] []]; vm_compute; congruence. Qed.

(** X2: the standard base64 encoding of [n] bytes has [4 * ceil (n / 3)]
    bytes, all of the base64 alphabet or the padding; its query escape,
    which is what [CreateDocPreviewSession] puts where [{$srcB64}] is,
    consists of letters, digits and percent signs only. *)
Theorem base64_escaped_alphabet (u : string) :
  String.length (base64.EncodeToString u) = 4 * ((String.length u + 2) / 3)
  /\ string_forallb base64_char (base64.EncodeToString u) = true
  /\ string_forallb alnum_or_percent (url.QueryEscape (base64.EncodeToString u)) = true.
Proof.
  unfold base64.EncodeToString.
  split; [apply encode_length|]. split; [apply encode_alphabet|].
  pose proof (encode_alphabet u) as H.
  induction (base64.encode u) as [|c t IH]; [reflexivity|].
  simpl in H. apply andb_true_iff in H as [Hc Ht].
  rewrite QueryEscape_cons, string_forallb_app, (QueryEscape_base64_char _ Hc), (IH Ht).
  reflexivity.
Qed.

End Base64Facts.

(** ** [strconv.ParseUint] *)

Section ParseUintFacts.

Lemma parse_digits_digits s acc n :
  strconv.parse_digits s acc = Some n -> string_forallb is_digit s = true.
Proof.
  revert acc. induction s as [|c s IH]; intros acc H; [reflexivity|].
  simpl in *. destruct (is_digit c); [|discriminate].
  destruct (strconv.maxUint64 <? acc * 10 + (byte_of c - 48))%N; [discriminate|].
  simpl. eapply IH. exact H.
Qed.

Lemma is_digit_value c : is_digit c = true -> (byte_of c - 48 <= 9)%N.
Proof.
  unfold is_digit, in_range. intros H. apply andb_true_iff in H as [H1 H2].
  apply N.leb_le in H1, H2. lia.
Qed.

Lemma parse_digits_accepts s acc :
  string_forallb is_digit s = true ->
  (acc * 10 ^ N.of_nat (String.length s) + (10 ^ N.of_nat (String.length s) - 1)
   <= strconv.maxUint64)%N ->
  exists n, strconv.parse_digits s acc = Some n.
Proof.
  revert acc. induction s as [|c s IH]; intros acc Hd Hb; [simpl; eauto|].
  simpl in Hd. apply andb_true_iff in Hd as [Hc Hs].
  cbn [strconv.parse_digits]. rewrite Hc.
  pose proof (is_digit_value c Hc) as Hv.
  cbn [String.length] in Hb. rewrite Nat2N.inj_succ, N.pow_succ_r' in Hb.
  set (p := (10 ^ N.of_nat (String.length s))%N) in *.
  assert (Hp : (1 <= p)%N).
  { pose proof (N.pow_nonzero 10 (N.of_nat (String.length s))) as Hnz.
    fold p in Hnz. assert (p <> 0%N) by (apply Hnz; discriminate). lia. }
  destruct (N.ltb_spec strconv.maxUint64 (acc * 10 + (byte_of c - 48))%N) as [Hlt|Hle].
  - exfalso. nia.
  - apply IH; [exact Hs|]. fold p. nia.
Qed.

(** X3: [ParseUint] accepts only non-empty strings of decimal digits
    (no sign, no space, no prefix) and never returns more than
    [maxUint64]; it accepts every such string of at most 19 digits,
    leading zeros included. A request whose Content-Length has any other
    byte is answered by [PutContent] with the parameter error. *)
Theorem ParseUint_decimal :
  (forall s n,
     strconv.ParseUint s = Some n ->
     s <> "" /\ string_forallb is_digit s = true /\ (n <= strconv.maxUint64)%N)
  /\ (forall s,
        s <> "" -> string_forallb is_digit s = true -> String.length s <= 19 ->
        exists n, strconv.ParseUint s = Some n)
  /\ (forall E service ctx c w,
        string_forallb is_digit (gin.HeaderGet c "Content-Length") = false ->
        exists msg err,
          explorer.PutContent E service ctx c w = (Done (serializer.ParamErr msg err), w)).
Proof.
  repeat apply conj.
  - intros s n H. destruct s as [|c s]; [discriminate|].
    split; [discriminate|]. split.
    + eapply parse_digits_digits. exact H.
    + eapply ParseUint_bound. exact H.
  - intros s Hne Hd Hl. destruct s as [|c s]; [congruence|].
    apply parse_digits_accepts; [exact Hd|].
    assert (Hpow : (10 ^ N.of_nat (String.length (String c s)) <= 10 ^ 19)%N).
    { apply N.pow_le_mono_r; [discriminate|]. lia. }
    change (10 ^ 19)%N with 10000000000000000000%N in Hpow.
    unfold strconv.maxUint64. lia.
  - intros E service ctx c w Hd.
    assert (Hp : strconv.ParseUint (gin.HeaderGet c "Content-Length") = None).
    { destruct (strconv.ParseUint _) as [n|] eqn:Hn; [|reflexivity].
      destruct (gin.HeaderGet c "Content-Length") as [|a s] eqn:Hh; [discriminate|].
      apply parse_digits_digits in Hn. congruence. }
    unfold explorer.PutContent. rewrite Hp. eauto.
Qed.

End ParseUintFacts.

(** ** Package [path] *)

Ltac no_slash_cons H Hc Ha :=
  cbn [string_forallb] in H; apply andb_true_iff in H as [Hc Ha];
  apply negb_true_iff in Hc.

Section PathFacts.

Lemma string_app_cons c a b : String c a +:+ b = String c (a +:+ b).
Proof. reflexivity. Qed.

Lemma string_app_nil_r s : s +:+ "" = s.
Proof.
  induction s as [|c s IH]; [reflexivity|]. rewrite string_app_cons, IH. reflexivity.
Qed.

Lemma string_app_assoc a b c : (a +:+ b) +:+ c = a +:+ (b +:+ c).
Proof.
  induction a as [|x a IH]; [reflexivity|]. rewrite !string_app_cons, IH. reflexivity.
Qed.

Lemma string_rev_acc_app s acc : string_rev_acc s acc = string_rev s +:+ acc.
Proof.
  unfold string_rev. revert acc. induction s as [|c s IH]; intros acc; [reflexivity|].
  simpl. rewrite IH, (IH (String c "")), string_app_assoc. reflexivity.
Qed.

Lemma string_rev_cons c s : string_rev (String c s) = string_rev s +:+ String c "".
Proof. unfold string_rev at 1. simpl. apply string_rev_acc_app. Qed.

Lemma string_rev_app a b : string_rev (a +:+ b) = string_rev b +:+ string_rev a.
Proof.
  induction a as [|c a IH].
  - change ("" +:+ b) with b. change (string_rev "") with "".
    rewrite string_app_nil_r. reflexivity.
  - rewrite string_app_cons, !string_rev_cons, IH, string_app_assoc. reflexivity.
Qed.

Lemma string_rev_involutive s : string_rev (string_rev s) = s.
Proof.
  induction s as [|c s IH]; [reflexivity|].
  rewrite string_rev_cons, string_rev_app, IH. reflexivity.
Qed.

Lemma no_slash_app a b : no_slash (a +:+ b) = no_slash a && no_slash b.
Proof. apply string_forallb_app. Qed.

Lemma no_slash_rev s : no_slash (string_rev s) = no_slash s.
Proof.
  unfold no_slash in *. induction s as [|c s IH]; [reflexivity|].
  rewrite string_rev_cons, string_forallb_app, IH. cbn [string_forallb].
  rewrite andb_true_r. apply andb_comm.
Qed.

Lemma take_until_slash_no_slash s : no_slash (path.take_until_slash s) = true.
Proof.
  unfold no_slash. induction s as [|c s IH]; [reflexivity|].
  cbn [path.take_until_slash].
  destruct (ascii_eqb c path.slash) eqn:Hc; [reflexivity|].
  cbn [string_forallb]. rewrite Hc, IH. reflexivity.
Qed.

(** Up to its first slash a string is cut where the slash is. *)
Lemma take_until_slash_app a b :
  no_slash a = true -> path.take_until_slash (a +:+ String path.slash b) = a.
Proof.
  unfold no_slash. induction a as [|c a IH]; intros H; [reflexivity|].
  no_slash_cons H Hc Ha.
  rewrite string_app_cons. cbn [path.take_until_slash]. rewrite Hc, (IH Ha).
  reflexivity.
Qed.

Lemma drop_until_slash_app a b :
  no_slash a = true ->
  path.drop_until_slash (a +:+ String path.slash b) = String path.slash b.
Proof.
  unfold no_slash. induction a as [|c a IH]; intros H; [reflexivity|].
  no_slash_cons H Hc Ha.
  rewrite string_app_cons. cbn [path.drop_until_slash]. rewrite Hc. apply IH. exact Ha.
Qed.

Lemma take_until_slash_all a : no_slash a = true -> path.take_until_slash a = a.
Proof.
  unfold no_slash. induction a as [|c a IH]; intros H; [reflexivity|].
  no_slash_cons H Hc Ha.
  cbn [path.take_until_slash]. rewrite Hc, (IH Ha). reflexivity.
Qed.

Lemma drop_until_slash_all a : no_slash a = true -> path.drop_until_slash a = "".
Proof.
  unfold no_slash. induction a as [|c a IH]; intros H; [reflexivity|].
  no_slash_cons H Hc Ha.
  cbn [path.drop_until_slash]. rewrite Hc. apply IH. exact Ha.
Qed.

Lemma strip_leading_no_slash a b :
  a <> "" -> no_slash a = true -> path.strip_leading (a +:+ b) = a +:+ b.
Proof.
  unfold no_slash. destruct a as [|c a]; intros Hne H; [congruence|].
  no_slash_cons H Hc Ha.
  rewrite string_app_cons. cbn [path.strip_leading]. rewrite Hc. reflexivity.
Qed.

Lemma string_rev_nonempty s : s <> "" -> string_rev s <> "".
Proof.
  intros Hne H. apply (f_equal string_rev) in H.
  rewrite string_rev_involutive in H. exact (Hne H).
Qed.

Lemma Base_unfold p :
  p <> "" ->
  path.Base p
  = match path.after_last_slash (path.strip_trailing p) with
    | EmptyString => "/"
    | _ => path.after_last_slash (path.strip_trailing p)
    end.
Proof. destruct p; [congruence|reflexivity]. Qed.

(** The last element of a path that does not end in a slash. *)
Lemma Base_last d name :
  name <> "" -> no_slash name = true ->
  path.Base (d +:+ String path.slash name) = name.
Proof.
  intros Hne Hs.
  assert (Hr : string_rev (d +:+ String path.slash name)
               = string_rev name +:+ String path.slash (string_rev d)).
  { rewrite string_rev_app, string_rev_cons, string_app_assoc. reflexivity. }
  rewrite Base_unfold by (destruct d; discriminate).
  unfold path.strip_trailing. rewrite Hr.
  rewrite strip_leading_no_slash;
    [|apply string_rev_nonempty; exact Hne|rewrite no_slash_rev; exact Hs].
  rewrite <- Hr, string_rev_involutive.
  unfold path.after_last_slash. rewrite Hr.
  rewrite take_until_slash_app by (rewrite no_slash_rev; exact Hs).
  rewrite string_rev_involutive.
  destruct name; [congruence|reflexivity].
Qed.

Lemma upto_last_slash_last d name :
  no_slash name = true ->
  path.upto_last_slash (d +:+ String path.slash name) = d +:+ "/".
Proof.
  intros Hs. unfold path.upto_last_slash.
  rewrite string_rev_app, string_rev_cons, string_app_assoc.
  change (String path.slash "" +:+ string_rev d) with (String path.slash (string_rev d)).
  rewrite drop_until_slash_app by (rewrite no_slash_rev; exact Hs).
  change (String path.slash (string_rev d)) with (String path.slash "" +:+ string_rev d).
  rewrite <- (string_rev_involutive (String path.slash "")) at 1.
  rewrite <- string_rev_app, string_rev_involutive. reflexivity.
Qed.

Lemma Dir_last d name :
  no_slash name = true ->
  path.Dir (d +:+ String path.slash name) = path.Clean (d +:+ "/").
Proof.
  intros Hs. unfold path.Dir, path.Split. cbn [fst].
  rewrite upto_last_slash_last by exact Hs. reflexivity.
Qed.

Lemma Base_bare p : p <> "" -> no_slash p = true -> path.Base p = p.
Proof.
  intros Hne Hs. rewrite Base_unfold by exact Hne.
  unfold path.strip_trailing.
  rewrite <- (string_app_nil_r (string_rev p)).
  rewrite strip_leading_no_slash;
    [|apply string_rev_nonempty; exact Hne|rewrite no_slash_rev; exact Hs].
  rewrite string_app_nil_r, string_rev_involutive.
  unfold path.after_last_slash.
  rewrite take_until_slash_all by (rewrite no_slash_rev; exact Hs).
  rewrite string_rev_involutive. destruct p; [congruence|reflexivity].
Qed.

Lemma Dir_bare p : no_slash p = true -> path.Dir p = ".".
Proof.
  intros Hs. unfold path.Dir, path.Split, path.upto_last_slash. cbn [fst].
  rewrite drop_until_slash_all by (rewrite no_slash_rev; exact Hs). reflexivity.
Qed.

Lemma Base_shape p : path.Base p <> "" /\ (path.Base p = "/" \/ no_slash (path.Base p) = true).
Proof.
  unfold path.Base. destruct p as [|c p]; [split; [discriminate|right; reflexivity]|].
  destruct (path.after_last_slash _) as [|x t] eqn:Ha.
  - split; [discriminate|left; reflexivity].
  - split; [discriminate|right]. rewrite <- Ha.
    unfold path.after_last_slash. rewrite no_slash_rev.
    apply take_until_slash_no_slash.
Qed.

End PathFacts.

Section CleanFacts.

(** [Split] cuts a path in two: what it returns put together is the
    path, and the file part has no slash. *)
Lemma Split_join p :
  fst (path.Split p) +:+ snd (path.Split p) = p
  /\ no_slash (snd (path.Split p)) = true.
Proof.
  unfold path.Split, path.upto_last_slash, path.after_last_slash. cbn [fst snd].
  split.
  - rewrite <- string_rev_app.
    assert (H : forall s, path.take_until_slash s +:+ path.drop_until_slash s = s).
    { induction s as [|c s IH]; [reflexivity|].
      cbn [path.take_until_slash path.drop_until_slash].
      destruct (ascii_eqb c path.slash); [reflexivity|].
      rewrite string_app_cons, IH. reflexivity. }
    rewrite H. apply string_rev_involutive.
  - rewrite no_slash_rev. apply take_until_slash_no_slash.
Qed.

Lemma upto_last_slash_rooted p : is_rooted (path.upto_last_slash p) = is_rooted p.
Proof.
  destruct (Split_join p) as [Hj Hs]. unfold path.Split in *. cbn [fst snd] in *.
  destruct (path.upto_last_slash p) as [|x u] eqn:Hu.
  - change ("" +:+ path.after_last_slash p) with (path.after_last_slash p) in Hj.
    rewrite Hj in Hs. destruct p as [|c p]; [reflexivity|].
    unfold no_slash in Hs. no_slash_cons Hs Hc Hp. simpl. symmetry. exact Hc.
  - rewrite string_app_cons in Hj. rewrite <- Hj. reflexivity.
Qed.

Lemma elements_no_slash s cur :
  no_slash cur = true -> Forall (fun e => no_slash e = true) (path.elements s cur).
Proof.
  revert cur. induction s as [|c s IH]; intros cur Hc; cbn [path.elements].
  - constructor; [rewrite no_slash_rev; exact Hc|constructor].
  - destruct (ascii_eqb c path.slash) eqn:Heq.
    + constructor; [rewrite no_slash_rev; exact Hc|]. apply IH. reflexivity.
    + apply IH. unfold no_slash in *. cbn [string_forallb]. rewrite Heq, Hc. reflexivity.
Qed.

Lemma clean_step_ok rooted stack e :
  Forall element_ok stack -> no_slash e = true ->
  Forall element_ok (path.clean_step rooted stack e).
Proof.
  intros Hst He. unfold path.clean_step.
  destruct (String.eqb e "") eqn:H0; [exact Hst|].
  destruct (String.eqb e ".") eqn:H1; [exact Hst|].
  assert (Hok : element_ok e).
  { split; [|exact He]. intros ->. discriminate H0. }
  destruct (String.eqb e "..") eqn:H2.
  - destruct stack as [|top rest].
    + destruct rooted; [constructor|]. constructor; [exact Hok|constructor].
    + destruct (String.eqb top "..").
      * constructor; assumption.
      * inversion Hst; assumption.
  - constructor; assumption.
Qed.

Lemma fold_clean_step_ok rooted l stack :
  Forall element_ok stack -> Forall (fun e => no_slash e = true) l ->
  Forall element_ok (fold_left (path.clean_step rooted) l stack).
Proof.
  revert stack. induction l as [|e l IH]; intros stack Hst Hl; [exact Hst|].
  inversion Hl; subst. simpl. apply IH; [|assumption].
  apply clean_step_ok; assumption.
Qed.

Lemma join_head e l :
  e <> "" -> exists x t, e = String x t /\ exists r, path.join (e :: l) = String x r.
Proof.
  intros Hne. destruct e as [|x t]; [congruence|].
  exists x, t. split; [reflexivity|].
  destruct l; simpl; eauto.
Qed.

Lemma Clean_shape p : path.Clean p <> "" /\ is_rooted (path.Clean p) = is_rooted p.
Proof.
  unfold path.Clean. destruct p as [|c s]; [split; [discriminate|reflexivity]|].
  cbv zeta.
  assert (Hk : Forall element_ok
                 (rev (fold_left (path.clean_step (ascii_eqb c path.slash))
                         (path.elements (String c s) "") []))).
  { apply Forall_rev. apply fold_clean_step_ok; [constructor|].
    apply elements_no_slash. reflexivity. }
  change (is_rooted (String c s)) with (ascii_eqb c path.slash).
  destruct (ascii_eqb c path.slash) eqn:Hc.
  - split; [discriminate|reflexivity].
  - destruct (rev _) as [|e l].
    + split; [discriminate|reflexivity].
    + inversion Hk as [|? ? [Hne Hs] _]; subst.
      destruct (join_head e l Hne) as (x & t & -> & r & ->).
      split; [discriminate|]. unfold no_slash in Hs. no_slash_cons Hs Hx Ht.
      exact Hx.
Qed.

End CleanFacts.

(** ** The path [Create] is given *)

Section CreatePath.

Lemma strip_trailing_slash x :
  path.strip_trailing (x +:+ "/") = path.strip_trailing x.
Proof.
  unfold path.strip_trailing. rewrite string_rev_app. reflexivity.
Qed.

(** Trailing slashes do not count for [Base]. *)
Lemma Base_trailing x : x <> "" -> path.Base (x +:+ "/") = path.Base x.
Proof.
  intros Hne. rewrite (Base_unfold x) by exact Hne.
  rewrite Base_unfold by (destruct x; discriminate).
  rewrite strip_trailing_slash. reflexivity.
Qed.

Lemma Dir_trailing x : path.Dir (x +:+ "/") = path.Clean (x +:+ "/").
Proof. apply (Dir_last x ""). reflexivity. Qed.

Lemma all_slash_rev_acc s acc :
  all_slash s = true -> all_slash acc = true -> all_slash (string_rev_acc s acc) = true.
Proof.
  unfold all_slash. revert acc. induction s as [|c s IH]; intros acc Hs Ha; [exact Ha|].
  cbn [string_forallb] in Hs. apply andb_true_iff in Hs as [Hc Hs].
  cbn [string_rev_acc]. apply IH; [exact Hs|].
  cbn [string_forallb]. rewrite Hc, Ha. reflexivity.
Qed.

Lemma strip_leading_all_slash s : all_slash s = true -> path.strip_leading s = "".
Proof.
  unfold all_slash. induction s as [|c s IH]; intros H; [reflexivity|].
  cbn [string_forallb] in H. apply andb_true_iff in H as [Hc Hs].
  cbn [path.strip_leading]. rewrite Hc. apply IH, Hs.
Qed.

Lemma elements_all_slash s :
  all_slash s = true -> Forall (fun e => e = "") (path.elements s "").
Proof.
  unfold all_slash. induction s as [|c s IH]; intros H; cbn [path.elements].
  - repeat constructor.
  - cbn [string_forallb] in H. apply andb_true_iff in H as [Hc Hs].
    rewrite Hc. constructor; [reflexivity|]. apply IH, Hs.
Qed.

Lemma fold_clean_step_empty rooted l stack :
  Forall (fun e => e = "") l -> fold_left (path.clean_step rooted) l stack = stack.
Proof.
  revert stack. induction l as [|e l IH]; intros stack H; [reflexivity|].
  inversion H; subst. simpl. apply IH. assumption.
Qed.

(** A path of slashes only names the root. *)
Lemma Base_Dir_root p :
  p <> "" -> all_slash p = true -> path.Base p = "/" /\ path.Dir p = "/".
Proof.
  intros Hne Hs. split.
  - rewrite Base_unfold by exact Hne. unfold path.strip_trailing.
    rewrite strip_leading_all_slash; [reflexivity|].
    apply all_slash_rev_acc; [exact Hs|reflexivity].
  - unfold path.Dir, path.Split, path.upto_last_slash. cbn [fst].
    assert (Hr : all_slash (string_rev p) = true)
      by (apply all_slash_rev_acc; [exact Hs|reflexivity]).
    assert (Hd : path.drop_until_slash (string_rev p) = string_rev p).
    { destruct (string_rev p) as [|c r]; [reflexivity|].
      unfold all_slash in Hr. cbn [string_forallb] in Hr.
      apply andb_true_iff in Hr as [Hc _].
      cbn [path.drop_until_slash]. rewrite Hc. reflexivity. }
    rewrite Hd, string_rev_involutive.
    destruct p as [|c s]; [congruence|].
    pose proof Hs as Hs'. unfold all_slash in Hs'. cbn [string_forallb] in Hs'.
    apply andb_true_iff in Hs' as [Hc _].
    unfold path.Clean. cbv zeta. rewrite Hc.
    rewrite fold_clean_step_empty by (apply elements_all_slash; exact Hs).
    reflexivity.
Qed.

(** X4: how [path.Split], [path.Base] and [path.Dir] cut a path. The
    two parts of [Split] put together are the path, and the second has no
    slash. Of [d/name], with [name] not empty and without slash, [Base]
    is [name] and [Dir] is [d/] cleaned. [Base] never returns the empty
    string and returns a slash only as the string [/]; [Dir] never
    returns the empty string, and its result begins with a slash exactly
    when the path does. *)
Theorem path_Split_Base_Dir :
  (forall p, fst (path.Split p) +:+ snd (path.Split p) = p
             /\ no_slash (snd (path.Split p)) = true)
  /\ (forall d name,
        name <> "" -> no_slash name = true ->
        path.Base (d +:+ String path.slash name) = name
        /\ path.Dir (d +:+ String path.slash name) = path.Clean (d +:+ "/"))
  /\ (forall p, path.Base p <> ""
                /\ (path.Base p = "/" \/ no_slash (path.Base p) = true))
  /\ (forall p, path.Dir p <> "" /\ is_rooted (path.Dir p) = is_rooted p).
Proof.
  split; [intros p; apply Split_join|].
  split; [intros d name Hne Hs; split; [apply Base_last|apply Dir_last]; assumption|].
  split; [intros p; apply Base_shape|].
  intros p. unfold path.Dir, path.Split. cbn [fst].
  destruct (Clean_shape (path.upto_last_slash p)) as [Hne ->].
  split; [exact Hne|apply upto_last_slash_rooted].
Qed.

End CreatePath.

Section CreateEdges.
Context (E : Env).
Import serializer filesystem explorer.

Lemma Create_uploads_stream service c w fs dir name :
  e_NewFileSystemFromContext E c = Ok fs ->
  path.Dir (Path service) = dir -> path.Base (Path service) = name ->
  exists err w1,
    Upload E (create_fs fs) create_ctx (local.mkFileStream "" 0 dir name "")
      (add_log EvNewFileSystemFromContext w) = (Done err, w1)
    /\ Create E service c w = (Done (upload_response err), add_log EvRecycle w1).
Proof.
  intros Hfs <- <-. destruct (Create_upload E service c w fs Hfs) as (r & w1 & HU & HC).
  exists r, w1. split; [exact HU|exact HC].
Qed.

(** X5: what [Create] uploads for the paths that are no plain
    [dir/name]. For a bare name the empty file goes to the folder [.]
    under that name. A path that ends in a slash is not refused: the
    file is named after the last element before the slashes and is put
    into the folder of that very name, [x/] cleaned. For a path of
    slashes only the file is named [/] and goes to the folder [/]. *)
Theorem Create_path_edge_cases :
  (forall service c w fs,
     e_NewFileSystemFromContext E c = Ok fs ->
     Path service <> "" -> no_slash (Path service) = true ->
     exists err w1,
       Upload E (create_fs fs) create_ctx
         (local.mkFileStream "" 0 "." (Path service) "")
         (add_log EvNewFileSystemFromContext w) = (Done err, w1)
       /\ Create E service c w = (Done (upload_response err), add_log EvRecycle w1))
  /\ (forall service c w fs x,
        e_NewFileSystemFromContext E c = Ok fs ->
        x <> "" -> Path service = x +:+ "/" ->
        exists err w1,
          Upload E (create_fs fs) create_ctx
            (local.mkFileStream "" 0 (path.Clean (x +:+ "/")) (path.Base x) "")
            (add_log EvNewFileSystemFromContext w) = (Done err, w1)
          /\ Create E service c w = (Done (upload_response err), add_log EvRecycle w1))
  /\ (forall service c w fs,
        e_NewFileSystemFromContext E c = Ok fs ->
        Path service <> "" -> all_slash (Path service) = true ->
        exists err w1,
          Upload E (create_fs fs) create_ctx (local.mkFileStream "" 0 "/" "/" "")
            (add_log EvNewFileSystemFromContext w) = (Done err, w1)
          /\ Create E service c w = (Done (upload_response err), add_log EvRecycle w1)).
Proof.
  split; [|split].
  - intros service c w fs Hfs Hne Hs.
    apply Create_uploads_stream; [exact Hfs|apply Dir_bare, Hs|apply Base_bare; assumption].
  - intros service c w fs x Hfs Hne Hp.
    apply Create_uploads_stream; [exact Hfs| |]; rewrite Hp.
    + apply Dir_trailing.
    + apply Base_trailing, Hne.
  - intros service c w fs Hfs Hne Hs.
    destruct (Base_Dir_root _ Hne Hs) as [Hb Hd].
    apply Create_uploads_stream; assumption.
Qed.

End CreateEdges.

(** ** [Clean] returns a clean path *)

Section CleanIdempotent.

Lemma eqb_false_ne (a b : string) : a <> b -> String.eqb a b = false.
Proof. intros H. destruct (String.eqb_spec a b); [contradiction|reflexivity]. Qed.

Lemma clean_step_plain rooted stack e :
  plain_elem e -> path.clean_step rooted stack e = e :: stack.
Proof.
  intros ((Hne & _) & Hd & Hdd). unfold path.clean_step.
  rewrite !eqb_false_ne by assumption. reflexivity.
Qed.

Lemma clean_step_stack rooted stack e :
  clean_stack rooted stack -> no_slash e = true ->
  clean_stack rooted (path.clean_step rooted stack e).
Proof.
  intros (names & dots & -> & Hn & Hd & Hr) He. unfold path.clean_step.
  destruct (String.eqb_spec e ""); [exists names, dots; auto|].
  destruct (String.eqb_spec e "."); [exists names, dots; auto|].
  destruct (String.eqb_spec e "..") as [->|Hdd].
  - destruct names as [|top names]; simpl.
    + destruct dots as [|top dots].
      * destruct rooted; [exists [], []; auto|].
        exists [], [".."]. repeat split; auto. discriminate.
      * inversion Hd; subst. simpl.
        exists [], (".." :: ".." :: dots). repeat split; auto.
        intros Hrt. specialize (Hr Hrt). discriminate.
    + inversion Hn as [|? ? (_ & _ & Htop) Hn']; subst.
      rewrite eqb_false_ne by exact Htop.
      exists names, dots. auto.
  - exists (e :: names), dots. repeat split; auto.
    constructor; [|exact Hn]. repeat split; assumption.
Qed.

Lemma fold_clean_step_stack rooted l stack :
  clean_stack rooted stack -> Forall (fun e => no_slash e = true) l ->
  clean_stack rooted (fold_left (path.clean_step rooted) l stack).
Proof.
  revert stack. induction l as [|e l IH]; intros stack Hst Hl; [exact Hst|].
  inversion Hl; subst. simpl. apply IH; [|assumption].
  apply clean_step_stack; assumption.
Qed.

Lemma fold_clean_step_names rooted l stack :
  Forall plain_elem l -> fold_left (path.clean_step rooted) l stack = rev l ++ stack.
Proof.
  revert stack. induction l as [|e l IH]; intros stack Hl; [reflexivity|].
  inversion Hl; subst. simpl. rewrite clean_step_plain by assumption.
  rewrite IH by assumption. rewrite <- app_assoc. reflexivity.
Qed.

Lemma fold_clean_step_dots l stack :
  Forall (fun e => e = "..") l -> Forall (fun e => e = "..") stack ->
  fold_left (path.clean_step false) l stack = rev l ++ stack.
Proof.
  revert stack. induction l as [|e l IH]; intros stack Hl Hst; [reflexivity|].
  inversion Hl; subst. simpl.
  assert (Hs : path.clean_step false stack ".." = ".." :: stack).
  { destruct stack as [|top rest]; [reflexivity|].
    inversion Hst; subst. reflexivity. }
  rewrite Hs, IH by (try constructor; auto). rewrite <- app_assoc. reflexivity.
Qed.

Lemma elements_app e s cur :
  no_slash e = true ->
  path.elements (e +:+ s) cur = path.elements s (string_rev e +:+ cur).
Proof.
  revert cur. unfold no_slash. induction e as [|c e IH]; intros cur He; [reflexivity|].
  cbn [string_forallb] in He. apply andb_true_iff in He as [Hc He].
  apply negb_true_iff in Hc.
  rewrite string_app_cons. cbn [path.elements]. rewrite Hc, IH by exact He.
  rewrite string_rev_cons, string_app_assoc. reflexivity.
Qed.

Lemma elements_join l :
  l <> [] -> Forall element_ok l -> path.elements (path.join l) "" = l.
Proof.
  induction l as [|e l IH]; intros Hne Hl; [congruence|].
  inversion Hl as [|? ? [_ He] Hl']; subst.
  destruct l as [|e' l].
  - cbn [path.join]. rewrite <- (string_app_nil_r e) at 1.
    rewrite elements_app by exact He. cbn [path.elements].
    rewrite string_app_nil_r, string_rev_involutive. reflexivity.
  - change (path.join (e :: e' :: l)) with (e +:+ "/" +:+ path.join (e' :: l)).
    rewrite elements_app by exact He.
    change ("/" +:+ path.join (e' :: l)) with (String path.slash (path.join (e' :: l))).
    cbn [path.elements]. change (ascii_eqb path.slash path.slash) with true.
    cbv iota. rewrite string_app_nil_r, string_rev_involutive.
    rewrite IH by (try discriminate; assumption). reflexivity.
Qed.

Lemma plain_elem_ok l : Forall plain_elem l -> Forall element_ok l.
Proof. intros H. eapply Forall_impl; [exact H|]. intros e [He _]. exact He. Qed.

Lemma dots_ok l : Forall (fun e => e = "..") l -> Forall element_ok l.
Proof.
  intros H. eapply Forall_impl; [exact H|].
  intros e ->. split; [discriminate|reflexivity].
Qed.

(** The elements [Clean] has kept are read back as they are. *)
Lemma fold_clean_step_kept rooted stack :
  clean_stack rooted stack ->
  fold_left (path.clean_step rooted) (rev stack) [] = stack.
Proof.
  intros (names & dots & -> & Hn & Hd & Hr).
  rewrite rev_app_distr, fold_left_app.
  assert (Hdots : fold_left (path.clean_step rooted) (rev dots) [] = dots).
  { destruct rooted.
    - rewrite (Hr eq_refl). reflexivity.
    - rewrite fold_clean_step_dots by (try apply Forall_rev; auto).
      rewrite rev_involutive, app_nil_r. reflexivity. }
  rewrite Hdots, fold_clean_step_names by (apply Forall_rev; exact Hn).
  rewrite rev_involutive. reflexivity.
Qed.

Lemma clean_stack_ok rooted stack : clean_stack rooted stack -> Forall element_ok stack.
Proof.
  intros (names & dots & -> & Hn & Hd & _).
  apply Forall_app. split; [apply plain_elem_ok, Hn|apply dots_ok, Hd].
Qed.

Lemma Clean_kept rooted (kept : list string) :
  clean_stack rooted (rev kept) ->
  path.Clean (if rooted then "/" +:+ path.join kept
              else match kept with [] => "." | _ => path.join kept end)
  = (if rooted then "/" +:+ path.join kept
     else match kept with [] => "." | _ => path.join kept end).
Proof.
  intros Hst.
  assert (Hok : Forall element_ok kept).
  { rewrite <- (rev_involutive kept). apply Forall_rev, clean_stack_ok with rooted, Hst. }
  pose proof (fold_clean_step_kept _ _ Hst) as Hfold. rewrite rev_involutive in Hfold.
  destruct rooted.
  - change ("/" +:+ path.join kept) with (String path.slash (path.join kept)).
    unfold path.Clean. cbv zeta. change (ascii_eqb path.slash path.slash) with true.
    cbv iota. cbn [path.elements]. change (ascii_eqb path.slash path.slash) with true.
    cbv iota. change (string_rev "") with "".
    destruct kept as [|e l]; [reflexivity|].
    rewrite elements_join by (try discriminate; exact Hok).
    change (fold_left (path.clean_step true) ("" :: e :: l) [])
      with (fold_left (path.clean_step true) (e :: l) []).
    rewrite Hfold, rev_involutive. reflexivity.
  - destruct kept as [|e l]; [reflexivity|].
    inversion Hok as [|? ? [Hne Hs] _]; subst.
    destruct (join_head e l Hne) as (x & t & -> & r & Hj).
    unfold no_slash in Hs. no_slash_cons Hs Hx Ht.
    pose proof (elements_join (String x t :: l)) as Hel.
    rewrite Hj in *. unfold path.Clean. cbv zeta. rewrite Hx.
    rewrite Hel by (try discriminate; exact Hok).
    rewrite Hfold, rev_involutive. rewrite Hj. reflexivity.
Qed.

Lemma Clean_idempotent p : path.Clean (path.Clean p) = path.Clean p.
Proof.
  destruct p as [|c s]; [reflexivity|].
  unfold path.Clean at 2 3. cbv zeta.
  apply Clean_kept. rewrite rev_involutive.
  apply fold_clean_step_stack.
  - exists [], []. repeat split; auto.
  - apply elements_no_slash. reflexivity.
Qed.

End CleanIdempotent.

Section CleanCanonical.

(** X6: [path.Clean] returns a clean path. Its result is the list of
    the elements it kept, joined by slashes, after the leading slash of
    a rooted path, or [.] when a relative path keeps nothing; no kept
    element is empty, holds a slash or is [.], and [..] is kept only at
    the beginning of a relative path. Cleaning a clean path changes
    nothing; so the folder [path.Dir] computes, which is the virtual path
    [Create] uploads to, is a clean path. *)
Theorem Clean_canonical :
  (forall p,
     exists kept,
       clean_stack (is_rooted p) (rev kept)
       /\ path.Clean p
          = if is_rooted p then "/" +:+ path.join kept
            else match kept with [] => "." | _ => path.join kept end)
  /\ (forall p, path.Clean (path.Clean p) = path.Clean p)
  /\ (forall p, path.Clean (path.Dir p) = path.Dir p)
  /\ (forall service,
        path.Clean (local.VirtualPath (create_stream service))
        = local.VirtualPath (create_stream service)).
Proof.
  split; [|split; [|split]].
  - intros [|c s].
    + exists []. split; [exists [], []; repeat split; auto|reflexivity].
    + exists (rev (fold_left (path.clean_step (ascii_eqb c path.slash))
                     (path.elements (String c s) "") [])).
      split; [|reflexivity]. rewrite rev_involutive.
      apply fold_clean_step_stack.
      * exists [], []. repeat split; auto.
      * apply elements_no_slash. reflexivity.
  - apply Clean_idempotent.
  - intros p. apply Clean_idempotent.
  - intros service. apply Clean_idempotent.
Qed.

End CleanCanonical.

(** ** Paths through the handlers *)

(** Every way a handler built from the calls of the environment can go:
    the calls are unfolded and the scrutinee of the innermost match is
    taken apart, one call at a time. *)
Ltac split_calls H :=
  repeat (cbv beta iota zeta
            delta [bind ret defer emit panic modify when index0 assert_uint
                   explorer.assert_string explorer.assert_File explorer.assert_path
                   explorer.resolve_object
                   cache.Get cache.Deletes
                   NewFileSystemFromContext NewAnonymousFileSystem Recycle
                   GetPhysicalFileContent GetDownloadContent Close defer_Close
                   SetTargetFileByIDs ResetFileIfNotExist SignURL GetDownloadURL
                   Header ServeContent Preview] in H;
          match type of H with
          | context [match ?x with _ => _ end] =>
              lazymatch x with
              | context [match _ with _ => _ end] => fail
              | _ => destruct x eqn:?
              end
          end).

Section SourceFacts.
Context (E : Env).
Import serializer filesystem explorer.

(** X7: [Source] answers with the redirect of code -302 to the URL
    signed for the first file of the target, with the lifetime of the
    setting [preview_timeout] (60 by default) and not as a download. A
    failure to sign is the not-set error. A target that resolves to no
    file makes the handler panic. In each case the file system is
    recycled. No other response than an error or this redirect is ever
    returned, and cache, stores and response headers stay as they
    were. *)
Theorem Source_redirects_to_signed_url :
  (forall (service : FileAnonymousGetService) ctx c w fs f t u,
     e_NewAnonymousFileSystem E = Ok fs ->
     e_SetTargetFileByIDs E fs [FileID service] = Ok (f :: t) ->
     e_SignURL E (setFileTarget fs (f :: t)) ctx f
       (e_GetIntSetting E "preview_timeout" 60) false = Ok u ->
     Source E service ctx c w
     = (Done (Resp (-302) (DString u)),
        logged [EvNewAnonymousFileSystem; EvSetTargetFileByIDs [FileID service];
                EvSignURL f (e_GetIntSetting E "preview_timeout" 60) false;
                EvRecycle] w))
  /\ (forall (service : FileAnonymousGetService) ctx c w fs f t e,
        e_NewAnonymousFileSystem E = Ok fs ->
        e_SetTargetFileByIDs E fs [FileID service] = Ok (f :: t) ->
        e_SignURL E (setFileTarget fs (f :: t)) ctx f
          (e_GetIntSetting E "preview_timeout" 60) false = Fail e ->
        Source E service ctx c w
        = (Done (Err CodeNotSet e (Some e)),
           logged [EvNewAnonymousFileSystem; EvSetTargetFileByIDs [FileID service];
                   EvSignURL f (e_GetIntSetting E "preview_timeout" 60) false;
                   EvRecycle] w))
  /\ (forall (service : FileAnonymousGetService) ctx c w fs,
        e_NewAnonymousFileSystem E = Ok fs ->
        e_SetTargetFileByIDs E fs [FileID service] = Ok [] ->
        Source E service ctx c w
        = (Panic "index out of range [0] with length 0",
           logged [EvNewAnonymousFileSystem; EvSetTargetFileByIDs [FileID service];
                   EvRecycle] w))
  /\ (forall (service : FileAnonymousGetService) ctx c w o w',
        Source E service ctx c w = (o, w') ->
        w_cache w' = w_cache w /\ w_store w' = w_store w /\ w_header w' = w_header w
        /\ forall r, o = Done r -> is_error r = false ->
             exists u, r = Resp (-302) (DString u)).
Proof.
  split; [|split; [|split]].
  - intros service ctx c w fs f t u Hfs Ht Hu.
    unfold Source. step. rewrite Hfs.
    erewrite defer_Done; [| |reflexivity]; cycle 1.
    { unfold SetTargetFileByIDs. rewrite Ht. step. step. step. rewrite Hu. reflexivity. }
    reflexivity.
  - intros service ctx c w fs f t e Hfs Ht Hu.
    unfold Source. step. rewrite Hfs.
    erewrite defer_Done; [| |reflexivity]; cycle 1.
    { unfold SetTargetFileByIDs. rewrite Ht. step. step. step. rewrite Hu. reflexivity. }
    reflexivity.
  - intros service ctx c w fs Hfs Ht.
    unfold Source. step. rewrite Hfs.
    erewrite defer_Done; [| |reflexivity]; cycle 1.
    { unfold SetTargetFileByIDs. rewrite Ht. step. reflexivity. }
    reflexivity.
  - intros service ctx c w o w' H.
    unfold Source in H. split_calls H; inversion H; subst; clear H;
      cbn [w_store w_cache w_header add_log];
      (split; [reflexivity|]); (split; [reflexivity|]); (split; [reflexivity|]);
      intros rr Hrr; inversion Hrr; subst; cbn [is_error]; intros He;
      first [discriminate He|eauto].
Qed.

End SourceFacts.

Section AnonymousFacts.
Context (E : Env).
Import serializer filesystem explorer.


End AnonymousFacts.

Section SessionFacts.
Context (E : Env).
Import serializer filesystem explorer.

(** X9: a served archive. [DownloadArchived] sets
    [Content-Disposition: attachment;] and [Content-Type:
    application/zip], serves the stream without a name and with the
    current time as modification time, closes the stream and recycles
    the file system; the stores are not touched. A session entry that is
    no path (a file record, as [Download] expects one) makes the handler
    panic before any content is opened. *)
Theorem DownloadArchived_serves_zip :
  (forall (service : DownloadService) ctx c w fs p rs,
     e_NewFileSystemFromContext E c = Ok fs ->
     w_cache w !! ("archive_" +:+ ID service) = Some (CString p) ->
     e_GetPhysicalFileContent E fs p = (Some rs, None) ->
     exists w',
       DownloadArchived E service ctx c w = (Done (Resp 0 DNil), w')
       /\ w_header w'
          = <["Content-Type" := "application/zip"]>
              (<["Content-Disposition" := "attachment;"]> (w_header w))
       /\ w_store w' = w_store w
       /\ w_log w'
          = w_log w
            ++ [EvNewFileSystemFromContext; EvCacheGet ("archive_" +:+ ID service);
                EvGetPhysicalFileContent p]
            ++ (if one_time fs then [EvCacheDeletes [ID service] "archive_"] else [])
            ++ [EvServeContent "" (e_Now E) rs; EvClose rs; EvRecycle])
  /\ (forall (service : DownloadService) ctx c w fs f,
        e_NewFileSystemFromContext E c = Ok fs ->
        w_cache w !! ("archive_" +:+ ID service) = Some (CFile f) ->
        DownloadArchived E service ctx c w
        = (Panic "interface conversion: interface {} is model.File, not string",
           logged [EvNewFileSystemFromContext; EvCacheGet ("archive_" +:+ ID service);
                   EvRecycle] w)).
Proof.
  split.
  - intros service ctx c w fs p rs Hfs Hhit Hrs.
    unfold DownloadArchived. step. rewrite Hfs.
    eexists. split.
    { erewrite defer_Done; [| |reflexivity]; cycle 1.
      { step. simpl. rewrite Hhit. step. step. rewrite Hrs.
        unfold defer_Close. erewrite defer_Done; [| |reflexivity]; cycle 1.
        { step_when. step. step. step. reflexivity. }
        reflexivity. }
      reflexivity. }
    fold (one_time fs). destruct (one_time fs); simpl;
      repeat (rewrite <- app_assoc; simpl); auto.
  - intros service ctx c w fs f Hfs Hhit.
    unfold DownloadArchived. step. rewrite Hfs.
    erewrite defer_Done; [| |reflexivity]; cycle 1.
    { step. simpl. rewrite Hhit. reflexivity. }
    reflexivity.
Qed.

(** X10: a served download. [Download] serves the record kept in the
    session entry itself, under its name and modification time, and
    announces it by [Content-Disposition: attachment; filename=] with the
    path-escaped name between double quotes; the escaped name holds no
    double quote, no backslash, no control byte and no byte outside
    ASCII, and decodes to the name. A session entry that is no file
    record makes the handler panic, and so does a content call that
    returns neither a stream nor an error; the file system is recycled
    all the same and the entry stays in the cache. *)
Theorem Download_attachment_header :
  (forall (service : DownloadService) ctx c w fs f rs,
     e_NewFileSystemFromContext E c = Ok fs ->
     w_cache w !! ("download_" +:+ ID service) = Some (CFile f) ->
     e_GetDownloadContent E (setFileTarget fs [f])
       (context.WithValue ctx fsctx.GinCtx VGin) 0 = (Some rs, None) ->
     exists w',
       Download E service ctx c w = (Done (Resp 0 DNil), w')
       /\ w_header w'
          = <["Content-Disposition" :=
                "attachment; filename=" +:+ dquote
                +:+ url.PathEscape (model.Name f) +:+ dquote]> (w_header w)
       /\ string_existsb breaks_quoted (url.PathEscape (model.Name f)) = false
       /\ unescape url.encodePathSegment (url.PathEscape (model.Name f))
          = Some (model.Name f)
       /\ w_store w' = w_store w
       /\ w_log w'
          = w_log w
            ++ [EvNewFileSystemFromContext; EvCacheGet ("download_" +:+ ID service);
                EvGetDownloadContent 0]
            ++ (if one_time fs then [EvCacheDeletes [ID service] "download_"] else [])
            ++ [EvServeContent (model.Name f) (model.UpdatedAt f) rs; EvClose rs;
                EvRecycle])
  /\ (forall (service : DownloadService) ctx c w fs p,
        e_NewFileSystemFromContext E c = Ok fs ->
        w_cache w !! ("download_" +:+ ID service) = Some (CString p) ->
        Download E service ctx c w
        = (Panic "interface conversion: interface {} is string, not model.File",
           logged [EvNewFileSystemFromContext; EvCacheGet ("download_" +:+ ID service);
                   EvRecycle] w))
  /\ (forall (service : DownloadService) ctx c w fs f,
        e_NewFileSystemFromContext E c = Ok fs ->
        w_cache w !! ("download_" +:+ ID service) = Some (CFile f) ->
        e_GetDownloadContent E (setFileTarget fs [f])
          (context.WithValue ctx fsctx.GinCtx VGin) 0 = (None, None) ->
        Download E service ctx c w
        = (Panic "invalid memory address or nil pointer dereference",
           logged [EvNewFileSystemFromContext; EvCacheGet ("download_" +:+ ID service);
                   EvGetDownloadContent 0; EvRecycle] w)).
Proof.
  split; [|split].
  - intros service ctx c w fs f rs Hfs Hhit Hrs.
    unfold Download. step. rewrite Hfs.
    eexists. split.
    { erewrite defer_Done; [| |reflexivity]; cycle 1.
      { step. simpl. rewrite Hhit. step. step. rewrite Hrs.
        unfold defer_Close. erewrite defer_Done; [| |reflexivity]; cycle 1.
        { step. step. step_when. step. reflexivity. }
        reflexivity. }
      reflexivity. }
    change (User (setFileTarget fs [f])) with (User fs). fold (one_time fs).
    split; [destruct (one_time fs); reflexivity|].
    split; [apply PathEscape_quoted|].
    split; [apply unescape_escape|].
    destruct (one_time fs); simpl; repeat (rewrite <- app_assoc; simpl); auto.
  - intros service ctx c w fs p Hfs Hhit.
    unfold Download. step. rewrite Hfs.
    erewrite defer_Done; [| |reflexivity]; cycle 1.
    { step. simpl. rewrite Hhit. reflexivity. }
    reflexivity.
  - intros service ctx c w fs f Hfs Hhit Hrs.
    unfold Download. step. rewrite Hfs.
    erewrite defer_Done; [| |reflexivity]; cycle 1.
    { step. simpl. rewrite Hhit. step. step. rewrite Hrs. reflexivity. }
    reflexivity.
Qed.

(** X11: [CreateDownloadSession] answers code 0 with the URL that
    [GetDownloadURL] returns for the object id of the request and the
    setting [download_timeout], as it is, without escaping; a failure is
    the not-set error. The object id is read from the request only: when
    it is missing or is no unsigned integer the handler panics. The file
    system is recycled in each case and nothing but the log changes. *)
Theorem CreateDownloadSession_url :
  (forall (service : FileIDService) ctx c w fs id,
     e_NewFileSystemFromContext E c = Ok fs ->
     gin.Get c "object_id" = Some (gin.AUint id) ->
     CreateDownloadSession E service ctx c w
     = (Done match e_GetDownloadURL E fs ctx id "download_timeout" with
             | Ok u => Resp 0 (DString u)
             | Fail e => Err CodeNotSet e (Some e)
             end,
        logged [EvNewFileSystemFromContext; EvGetDownloadURL id "download_timeout";
                EvRecycle] w))
  /\ (forall (service : FileIDService) ctx c w fs,
        e_NewFileSystemFromContext E c = Ok fs ->
        (forall id, gin.Get c "object_id" <> Some (gin.AUint id)) ->
        CreateDownloadSession E service ctx c w
        = (Panic "interface conversion: interface {} is not uint",
           logged [EvNewFileSystemFromContext; EvRecycle] w)).
Proof.
  split.
  - intros service ctx c w fs id Hfs Hid.
    unfold CreateDownloadSession. step. rewrite Hfs.
    destruct (e_GetDownloadURL E fs ctx id "download_timeout") eqn:Hu;
      (erewrite defer_Done; [| |reflexivity]; cycle 1);
      [rewrite Hid; step; step; rewrite Hu; reflexivity|reflexivity
      |rewrite Hid; step; step; rewrite Hu; reflexivity|reflexivity].
  - intros service ctx c w fs Hfs Hid.
    unfold CreateDownloadSession. step. rewrite Hfs.
    erewrite defer_Done; [| |reflexivity]; cycle 1.
    { destruct (gin.Get c "object_id") as [[n|s]|]; [destruct (Hid n); reflexivity| |];
        reflexivity. }
    reflexivity.
Qed.

End SessionFacts.

Section ContextObject.
Context (E : Env).
Import serializer filesystem explorer.

(** The response of [CreateDocPreviewSession] once the download URL was
    asked for. *)
Lemma doc_preview_response_eq u setting :
  util.Replace (<["{$src}" := url.QueryEscape u]>
                  (<["{$srcB64}" := url.QueryEscape (base64.EncodeToString u)]> ∅))
    setting
  = util.Replace (doc_preview_table u) setting.
Proof. reflexivity. Qed.

Lemma resolve_object_folder fs ctx c w d p :
  context.Value ctx fsctx.FileModelCtx = None ->
  context.Value ctx fsctx.FolderModelCtx = Some (VFolderPtr d) ->
  context.Value ctx fsctx.PathCtx = Some (VString p) ->
  resolve_object E fs ctx c w
  = (Done match e_ResetFileIfNotExist E (setRoot fs d) ctx p with
          | Ok t => (setFileTarget (setRoot fs d) t, Some (gin.AUint 0), None)
          | Fail e => (setRoot fs d, gin.Get c "object_id",
                       Some (Err CodeNotFound e (Some e)))
          end,
     add_log (EvResetFileIfNotExist p) w).
Proof.
  intros Hfile Hfolder Hpath.
  unfold resolve_object. rewrite Hfile, Hfolder, Hpath. cbv beta iota zeta.
  step. unfold ResetFileIfNotExist.
  destruct (e_ResetFileIfNotExist E (setRoot fs d) ctx p); step; reflexivity.
Qed.

(** X12: where the object of a document preview comes from. When the
    context carries a file, the object id of the request is not looked
    at: the file is added to the target and the download URL is asked for
    id 0, also when the request has no object id at all. When the
    context carries a folder, the folder becomes the root and the target
    is reset from the path of the context: a failure is the not-found
    error, a success asks for id 0, and a context without a path makes
    the handler panic. With neither, a request without an object id
    makes the handler panic. The file system is recycled in each
    case. *)
Theorem doc_preview_object_from_context :
  (forall (service : FileIDService) ctx c w fs file,
     e_NewFileSystemFromContext E c = Ok fs ->
     context.Value ctx fsctx.FileModelCtx = Some (VFilePtr file) ->
     context.Value ctx fsctx.FolderModelCtx = None ->
     CreateDocPreviewSession E service ctx c w
     = (Done match e_GetDownloadURL E (SetTargetFile fs [file]) ctx 0
                     "doc_preview_timeout" with
             | Ok u => Resp 0 (DString (util.Replace (doc_preview_table u)
                                          (e_GetSettingByName E "office_preview_service")))
             | Fail e => Err CodeNotSet e (Some e)
             end,
        logged [EvNewFileSystemFromContext; EvGetDownloadURL 0 "doc_preview_timeout";
                EvRecycle] w))
  /\ (forall (service : FileIDService) ctx c w fs d p e,
        e_NewFileSystemFromContext E c = Ok fs ->
        context.Value ctx fsctx.FileModelCtx = None ->
        context.Value ctx fsctx.FolderModelCtx = Some (VFolderPtr d) ->
        context.Value ctx fsctx.PathCtx = Some (VString p) ->
        e_ResetFileIfNotExist E (setRoot fs d) ctx p = Fail e ->
        CreateDocPreviewSession E service ctx c w
        = (Done (Err CodeNotFound e (Some e)),
           logged [EvNewFileSystemFromContext; EvResetFileIfNotExist p; EvRecycle] w))
  /\ (forall (service : FileIDService) ctx c w fs d p t,
        e_NewFileSystemFromContext E c = Ok fs ->
        context.Value ctx fsctx.FileModelCtx = None ->
        context.Value ctx fsctx.FolderModelCtx = Some (VFolderPtr d) ->
        context.Value ctx fsctx.PathCtx = Some (VString p) ->
        e_ResetFileIfNotExist E (setRoot fs d) ctx p = Ok t ->
        CreateDocPreviewSession E service ctx c w
        = (Done match e_GetDownloadURL E (setFileTarget (setRoot fs d) t) ctx 0
                        "doc_preview_timeout" with
                | Ok u => Resp 0 (DString (util.Replace (doc_preview_table u)
                                             (e_GetSettingByName E "office_preview_service")))
                | Fail e => Err CodeNotSet e (Some e)
                end,
           logged [EvNewFileSystemFromContext; EvResetFileIfNotExist p;
                   EvGetDownloadURL 0 "doc_preview_timeout"; EvRecycle] w))
  /\ (forall (service : FileIDService) ctx c w fs d,
        e_NewFileSystemFromContext E c = Ok fs ->
        context.Value ctx fsctx.FolderModelCtx = Some (VFolderPtr d) ->
        context.Value ctx fsctx.PathCtx = None ->
        CreateDocPreviewSession E service ctx c w
        = (Panic "interface conversion: interface {} is not string",
           logged [EvNewFileSystemFromContext; EvRecycle] w))
  /\ (forall (service : FileIDService) ctx c w fs,
        e_NewFileSystemFromContext E c = Ok fs ->
        context.Value ctx fsctx.FileModelCtx = None ->
        context.Value ctx fsctx.FolderModelCtx = None ->
        gin.Get c "object_id" = None ->
        CreateDocPreviewSession E service ctx c w
        = (Panic "interface conversion: interface {} is not uint",
           logged [EvNewFileSystemFromContext; EvRecycle] w)).
Proof.
  split; [|split; [|split; [|split]]].
  - intros service ctx c w fs file Hfs Hfile Hfolder.
    unfold CreateDocPreviewSession. step. rewrite Hfs.
    destruct (e_GetDownloadURL E (SetTargetFile fs [file]) ctx 0 "doc_preview_timeout")
      eqn:Hu;
      (erewrite defer_Done; [| |reflexivity]; cycle 1);
      [unfold resolve_object; rewrite Hfile, Hfolder; step; step; step; rewrite Hu;
       reflexivity|reflexivity
      |unfold resolve_object; rewrite Hfile, Hfolder; step; step; step; rewrite Hu;
       reflexivity|reflexivity].
  - intros service ctx c w fs d p e Hfs Hfile Hfolder Hpath Hreset.
    unfold CreateDocPreviewSession. step. rewrite Hfs.
    erewrite defer_Done; [| |reflexivity]; cycle 1.
    { erewrite bind_Done by (apply resolve_object_folder; eassumption).
      rewrite Hreset. reflexivity. }
    reflexivity.
  - intros service ctx c w fs d p t Hfs Hfile Hfolder Hpath Hreset.
    unfold CreateDocPreviewSession. step. rewrite Hfs.
    destruct (e_GetDownloadURL E (setFileTarget (setRoot fs d) t) ctx 0
                "doc_preview_timeout") eqn:Hu;
      (erewrite defer_Done; [| |reflexivity]; cycle 1);
      [erewrite bind_Done by (apply resolve_object_folder; eassumption);
       rewrite Hreset; cbv beta iota; step; step; rewrite Hu; reflexivity|reflexivity
      |erewrite bind_Done by (apply resolve_object_folder; eassumption);
       rewrite Hreset; cbv beta iota; step; step; rewrite Hu; reflexivity|reflexivity].
  - intros service ctx c w fs d Hfs Hfolder Hpath.
    unfold CreateDocPreviewSession. step. rewrite Hfs.
    erewrite defer_Done; [| |reflexivity]; cycle 1.
    { unfold resolve_object. rewrite Hfolder, Hpath.
      destruct (context.Value ctx fsctx.FileModelCtx) as [[]|]; reflexivity. }
    reflexivity.
  - intros service ctx c w fs Hfs Hfile Hfolder Hid.
    unfold CreateDocPreviewSession. step. rewrite Hfs.
    erewrite defer_Done; [| |reflexivity]; cycle 1.
    { unfold resolve_object. rewrite Hfile, Hfolder, Hid. reflexivity. }
    reflexivity.
Qed.

End ContextObject.

(** ** The life of the file system object *)

Section Emits.
Context (P : Event -> Prop).

Lemma emits_ret {A} (a : A) : emits P (ret a).
Proof.
  intros w o w' H. inversion H; subst. exists []. rewrite app_nil_r. auto.
Qed.

Lemma emits_panic {A} msg : emits P (@panic A msg).
Proof.
  intros w o w' H. inversion H; subst. exists []. rewrite app_nil_r. auto.
Qed.

Lemma emits_emit e : P e -> emits P (emit e).
Proof.
  intros He w o w' H. inversion H; subst. exists [e]. simpl. auto.
Qed.

Lemma emits_bind {A B} (m : M A) (k : A -> M B) :
  emits P m -> (forall a, emits P (k a)) -> emits P (bind m k).
Proof.
  intros Hm Hk w o w' H. unfold bind in H.
  destruct (m w) as [[a|s] w1] eqn:H1.
  - destruct (Hm _ _ _ H1) as (evs1 & Hl1 & HP1).
    destruct (Hk a _ _ _ H) as (evs2 & Hl2 & HP2).
    exists (evs1 ++ evs2). rewrite Hl2, Hl1, <- app_assoc.
    split; [reflexivity|apply Forall_app; auto].
  - inversion H; subst. exact (Hm _ _ _ H1).
Qed.

Lemma emits_defer {A} (d : M unit) (body : M A) :
  emits P d -> emits P body -> emits P (defer d body).
Proof.
  intros Hd Hb w o w' H. unfold defer in H.
  destruct (body w) as [r w1] eqn:H1.
  destruct (d w1) as [[u|s] w2] eqn:H2; inversion H; subst;
    destruct (Hb _ _ _ H1) as (evs1 & Hl1 & HP1);
    destruct (Hd _ _ _ H2) as (evs2 & Hl2 & HP2);
    exists (evs1 ++ evs2); rewrite Hl2, Hl1, <- app_assoc;
    (split; [reflexivity|apply Forall_app; auto]).
Qed.

Lemma emits_when b m : emits P m -> emits P (when b m).
Proof. intros H. destruct b; [exact H|apply emits_ret]. Qed.

Lemma emits_Header k v : emits P (Header k v).
Proof.
  intros w o w' H. inversion H; subst. exists []. simpl. rewrite app_nil_r. auto.
Qed.

Lemma emits_index0 {A} (l : list A) : emits P (index0 l).
Proof. destruct l; [apply emits_panic|apply emits_ret]. Qed.

Lemma emits_assert_uint v : emits P (assert_uint v).
Proof. destruct v as [[n|s]|]; first [apply emits_ret|apply emits_panic]. Qed.

Lemma emits_log1 {A} (m : M A) e :
  P e -> (forall w, exists a, m w = (Done a, add_log e w)) -> emits P m.
Proof.
  intros He Hm w o w' H. destruct (Hm w) as [a Ha]. rewrite Ha in H.
  inversion H; subst. exists [e]. simpl. auto.
Qed.

End Emits.

Section Lifecycle.
Context (E : Env).
Import serializer filesystem explorer.

Ltac quiet_log1 e := apply (emits_log1 not_Recycle _ e); [discriminate|intros; eexists; reflexivity].

Lemma quiet_run_hooks stage hs ctx file : emits not_Recycle (run_hooks E stage hs ctx file).
Proof.
  induction hs as [|h hs IH]; simpl; [apply emits_ret|].
  apply emits_bind.
  - intros w o w' H. unfold run_hook in H.
    destruct (hook_sem E h ctx file (w_store w)); inversion H; subst;
      exists [EvHook stage h]; simpl; (split; [reflexivity|]);
      repeat constructor; discriminate.
  - intros [e|]; [apply emits_ret|exact IH].
Qed.

Lemma quiet_Put ctx k file : emits not_Recycle (Put E ctx k file).
Proof.
  intros w o w' H. unfold Put in H. cbv zeta in H.
  exists [EvPut k (local.File file)].
  split; [|repeat constructor; discriminate].
  destruct (e_transfer E k file); inversion H; reflexivity.
Qed.

Lemma quiet_Upload fs ctx file : emits not_Recycle (Upload E fs ctx file).
Proof.
  unfold Upload, Trigger.
  apply emits_bind; [apply emits_emit; discriminate|intros _].
  apply emits_bind; [apply quiet_run_hooks|intros [e|]].
  - apply emits_bind; [apply quiet_run_hooks|intros _; apply emits_ret].
  - apply emits_bind.
    + destruct (context.Value ctx fsctx.FileModelCtx) as [[]|];
        first [apply emits_ret|quiet_log1 (EvGenerateSavePath file)].
    + intros k. apply emits_bind; [apply quiet_Put|intros [e|]].
      * apply emits_bind; [apply quiet_run_hooks|intros _; apply emits_ret].
      * apply quiet_run_hooks.
Qed.

Lemma quiet_resolve_object fs ctx c : emits not_Recycle (resolve_object E fs ctx c).
Proof.
  unfold resolve_object.
  destruct (match context.Value ctx fsctx.FileModelCtx with
            | Some (VFilePtr file) => _ | _ => _ end) as [fs1 oid1].
  destruct (context.Value ctx fsctx.FolderModelCtx) as [[| | | |d|]|];
    try apply emits_ret.
  apply emits_bind.
  - unfold assert_path.
    destruct (context.Value ctx fsctx.PathCtx) as [[]|];
      first [apply emits_ret|apply emits_panic].
  - intros p. apply emits_bind.
    + unfold ResetFileIfNotExist.
      apply emits_bind; [apply emits_emit; discriminate|intros _].
      destruct (e_ResetFileIfNotExist E (setRoot fs1 d) ctx p); apply emits_ret.
    + intros [fs2 [e|]]; apply emits_ret.
Qed.

Lemma quiet_defer_Close {A} rs (body : RSCloser -> M A) :
  (forall s, emits not_Recycle (body s)) -> emits not_Recycle (defer_Close rs body).
Proof.
  intros H. destruct rs as [s|]; [|apply emits_panic].
  apply emits_defer; [apply emits_emit; discriminate|apply H].
Qed.

Lemma quiet_Preview fs ctx id isText : emits not_Recycle (Preview E fs ctx id isText).
Proof.
  unfold Preview.
  apply emits_bind; [apply emits_emit; discriminate|intros _].
  destruct (e_preview_target E fs ctx id) as [t|err]; [|apply emits_ret].
  cbv zeta. destruct (isText || e_IsDirectlyPreview E (setFileTarget fs t)).
  - apply emits_bind; [quiet_log1 (EvGetDownloadContent id)|].
    intros [rs [e|]]; apply emits_ret.
  - destruct (e_preview_url E (setFileTarget fs t) ctx id) as [[u ttl]|err];
      apply emits_ret.
Qed.

(** The handler after its file system was created: what the body logs
    comes first, the recycling last. *)
Lemma recycled_last {A} fs (body : M A) w o w' :
  emits not_Recycle body -> defer (Recycle fs) body w = (o, w') ->
  exists evs, w_log w' = w_log w ++ evs ++ [EvRecycle] /\ Forall not_Recycle evs.
Proof.
  intros Hb H. unfold defer in H. destruct (body w) as [r w1] eqn:H1.
  simpl in H. inversion H; subst.
  destruct (Hb _ _ _ H1) as (evs & Hl & HP).
  exists evs. simpl. rewrite Hl, <- app_assoc. auto.
Qed.

Lemma recycled_after {A} fs (body : M A) e w o w' :
  emits not_Recycle body -> e <> EvRecycle ->
  defer (Recycle fs) body (add_log e w) = (o, w') ->
  exists evs, w_log w' = w_log w ++ evs ++ [EvRecycle] /\ Forall not_Recycle evs.
Proof.
  intros Hb He H. destruct (recycled_last _ _ _ _ _ Hb H) as (evs & Hl & HP).
  exists (e :: evs). simpl in Hl. rewrite Hl, <- app_assoc.
  split; [reflexivity|constructor; assumption].
Qed.

Ltac quiet_step :=
  first
    [ apply emits_ret | apply emits_panic | apply emits_index0
    | apply emits_assert_uint | apply emits_Header
    | apply emits_when
    | apply quiet_Upload | apply quiet_resolve_object | apply quiet_Preview
    | apply quiet_defer_Close; intros
    | apply emits_emit; discriminate
    | apply emits_bind; [|intros]
    | match goal with
      | |- emits _ (match ?x with _ => _ end) => destruct x
      | |- emits _ (if ?x then _ else _) => destruct x
      | |- emits _ (let _ := _ in _) => cbv zeta
      end ].

Lemma quiet_cache_Get k : emits not_Recycle (cache.Get k).
Proof. quiet_log1 (EvCacheGet k). Qed.

Lemma quiet_cache_Deletes keys prefix : emits not_Recycle (cache.Deletes keys prefix).
Proof.
  intros w o w' H. inversion H; subst. exists [EvCacheDeletes keys prefix].
  split; [reflexivity|repeat constructor; discriminate].
Qed.

(** X13: every handler but [PutContent] recycles the file system it
    created exactly once, as the last thing it does, whether it returns
    a response or panics. [PutContent] never recycles its file
    system. *)
Theorem file_system_recycled_once :
  (forall (service : SingleFileService) c w fs o w',
     e_NewFileSystemFromContext E c = Ok fs ->
     Create E service c w = (o, w') ->
     exists evs, w_log w' = w_log w ++ evs ++ [EvRecycle] /\ Forall not_Recycle evs)
  /\ (forall (service : DownloadService) ctx c w fs o w',
        e_NewFileSystemFromContext E c = Ok fs ->
        DownloadArchived E service ctx c w = (o, w')
        \/ Download E service ctx c w = (o, w') ->
        exists evs, w_log w' = w_log w ++ evs ++ [EvRecycle] /\ Forall not_Recycle evs)
  /\ (forall (service : FileAnonymousGetService) ctx c w fs o w',
        e_NewAnonymousFileSystem E = Ok fs ->
        AnonymousDownload E service ctx c w = (o, w')
        \/ Source E service ctx c w = (o, w') ->
        exists evs, w_log w' = w_log w ++ evs ++ [EvRecycle] /\ Forall not_Recycle evs)
  /\ (forall (service : FileIDService) ctx c isText w fs o w',
        e_NewFileSystemFromContext E c = Ok fs ->
        CreateDocPreviewSession E service ctx c w = (o, w')
        \/ CreateDownloadSession E service ctx c w = (o, w')
        \/ PreviewContent E service ctx c isText w = (o, w') ->
        exists evs, w_log w' = w_log w ++ evs ++ [EvRecycle] /\ Forall not_Recycle evs)
  /\ (forall (service : FileIDService) ctx c w o w',
        PutContent E service ctx c w = (o, w') ->
        exists evs, w_log w' = w_log w ++ evs /\ Forall not_Recycle evs).
Proof.
  split; [|split; [|split; [|split]]].
  - intros service c w fs o w' Hfs H.
    unfold Create in H. erewrite bind_Done in H by reflexivity. rewrite Hfs in H.
    eapply recycled_after; [| |exact H]; [|discriminate]. repeat quiet_step.
  - intros service ctx c w fs o w' Hfs [H|H].
    + unfold DownloadArchived in H. erewrite bind_Done in H by reflexivity.
      rewrite Hfs in H.
      eapply recycled_after; [| |exact H]; [|discriminate].
      apply emits_bind; [apply quiet_cache_Get|intros [v|]]; [|quiet_step].
      apply emits_bind; [destruct v; quiet_step|intros p].
      apply emits_bind; [quiet_log1 (EvGetPhysicalFileContent p)|intros [rs err]].
      apply quiet_defer_Close. intros s. destruct err; [quiet_step|].
      apply emits_bind; [apply emits_when, quiet_cache_Deletes|intros _].
      apply emits_bind; [apply emits_Header|intros _].
      apply emits_bind; [apply emits_Header|intros _].
      apply emits_bind; [apply emits_emit; discriminate|intros _]. quiet_step.
    + unfold Download in H. erewrite bind_Done in H by reflexivity.
      rewrite Hfs in H.
      eapply recycled_after; [| |exact H]; [|discriminate].
      apply emits_bind; [apply quiet_cache_Get|intros [v|]]; [|quiet_step].
      apply emits_bind; [destruct v; quiet_step|intros f]. cbv zeta.
      apply emits_bind; [quiet_log1 (EvGetDownloadContent 0)|intros [rs err]].
      destruct err; [quiet_step|].
      apply quiet_defer_Close. intros s.
      apply emits_bind; [apply emits_index0|intros target].
      apply emits_bind; [apply emits_Header|intros _].
      apply emits_bind; [apply emits_when, quiet_cache_Deletes|intros _].
      apply emits_bind; [apply emits_emit; discriminate|intros _]. quiet_step.
  - intros service ctx c w fs o w' Hfs [H|H].
    + unfold AnonymousDownload in H. erewrite bind_Done in H by reflexivity.
      rewrite Hfs in H.
      eapply recycled_after; [| |exact H]; [|discriminate].
      apply emits_bind.
      { unfold SetTargetFileByIDs.
        apply emits_bind; [apply emits_emit; discriminate|intros _].
        destruct (e_SetTargetFileByIDs E fs [FileID service]); quiet_step. }
      intros [fs1 [e|]]; [quiet_step|].
      apply emits_bind; [quiet_log1 (EvGetDownloadContent 0)|intros [rs err]].
      apply quiet_defer_Close. intros s. destruct err; [quiet_step|].
      apply emits_bind; [apply emits_index0|intros target].
      apply emits_bind; [apply emits_emit; discriminate|intros _]. quiet_step.
    + unfold Source in H. erewrite bind_Done in H by reflexivity.
      rewrite Hfs in H.
      eapply recycled_after; [| |exact H]; [|discriminate].
      apply emits_bind.
      { unfold SetTargetFileByIDs.
        apply emits_bind; [apply emits_emit; discriminate|intros _].
        destruct (e_SetTargetFileByIDs E fs [FileID service]); quiet_step. }
      intros [fs1 [e|]]; [quiet_step|].
      apply emits_bind; [apply emits_index0|intros target].
      apply emits_bind;
        [quiet_log1 (EvSignURL target (e_GetIntSetting E "preview_timeout" 60) false)|].
      intros [u|e]; quiet_step.
  - intros service ctx c isText w fs o w' Hfs [H|[H|H]].
    + unfold CreateDocPreviewSession in H. erewrite bind_Done in H by reflexivity.
      rewrite Hfs in H.
      eapply recycled_after; [| |exact H]; [|discriminate].
      apply emits_bind; [apply quiet_resolve_object|intros [[fs1 oid] [resp|]]];
        [quiet_step|].
      apply emits_bind; [apply emits_assert_uint|intros id].
      apply emits_bind; [quiet_log1 (EvGetDownloadURL id "doc_preview_timeout")|].
      intros [u|e]; quiet_step.
    + unfold CreateDownloadSession in H. erewrite bind_Done in H by reflexivity.
      rewrite Hfs in H.
      eapply recycled_after; [| |exact H]; [|discriminate].
      apply emits_bind; [apply emits_assert_uint|intros id].
      apply emits_bind; [quiet_log1 (EvGetDownloadURL id "download_timeout")|].
      intros [u|e]; quiet_step.
    + unfold PreviewContent in H. erewrite bind_Done in H by reflexivity.
      rewrite Hfs in H.
      eapply recycled_after; [| |exact H]; [|discriminate].
      apply emits_bind; [apply quiet_resolve_object|intros [[fs1 oid] [resp|]]];
        [quiet_step|].
      apply emits_bind; [apply emits_assert_uint|intros id].
      apply emits_bind; [apply quiet_Preview|intros [fs2 [resp|e]]]; [|quiet_step].
      destruct (Redirect resp).
      * apply emits_bind; [apply emits_Header|intros _]. quiet_step.
      * apply quiet_defer_Close. intros s.
        apply emits_bind; [apply emits_when, emits_Header|intros _].
        apply emits_bind; [apply emits_index0|intros target].
        apply emits_bind; [apply emits_emit; discriminate|intros _]. quiet_step.
  - intros service ctx c w o w'. revert w o w'.
    change (emits not_Recycle (PutContent E service ctx c)).
    unfold PutContent. cbv zeta.
    destruct (strconv.ParseUint (gin.HeaderGet c "Content-Length")) as [size|];
      [|quiet_step].
    apply emits_bind; [quiet_log1 EvNewFileSystemFromContext|intros [fs|err]];
      [|quiet_step].
    apply emits_bind; [apply emits_assert_uint|intros id].
    apply emits_bind.
    { intros w o w' H. inversion H; subst.
      exists [EvGetFilesByIDs [id] (model.UID (User fs))].
      split; [reflexivity|repeat constructor; discriminate]. }
    intros [|origin rest]; [quiet_step|].
    apply emits_bind.
    { intros w o w' H. inversion H; subst.
      exists [EvRemoveFilesWithSoftLinks [origin]].
      split; [reflexivity|repeat constructor; discriminate]. }
    intros [fileList err].
    apply emits_bind.
    { destruct err; [quiet_step|]. destruct fileList; [|quiet_step].
      apply emits_bind; [|intros; quiet_step].
      match goal with
      | |- emits _ (GenerateSavePath _ _ _ ?f) => quiet_log1 (EvGenerateSavePath f)
      end. }
    intros [origin' fs'].
    apply emits_bind; [apply quiet_Upload|intros [e|]]; quiet_step.
Qed.

End Lifecycle.

(** ** What the handlers leave alone *)

Section Frames.
Context (E : Env).
Import serializer filesystem explorer.

Lemma delete_all_one k prefix (m : gmap string cache_value) :
  cache.delete_all [k] prefix m = delete (prefix +:+ k) m.
Proof. reflexivity. Qed.

(** X14: the two handlers of a download session never touch the stores,
    and of the cache they change at most the entry of their own session:
    every other entry is as before, whether the handler returns or
    panics. A response that is no error is code 0 without data. *)
Theorem session_download_frame :
  (forall (service : DownloadService) ctx c w o w',
     Download E service ctx c w = (o, w') ->
     w_store w' = w_store w
     /\ (forall k, k <> "download_" +:+ ID service -> w_cache w' !! k = w_cache w !! k)
     /\ forall r, o = Done r -> is_error r = false -> r = Resp 0 DNil)
  /\ (forall (service : DownloadService) ctx c w o w',
        DownloadArchived E service ctx c w = (o, w') ->
        w_store w' = w_store w
        /\ (forall k, k <> "archive_" +:+ ID service -> w_cache w' !! k = w_cache w !! k)
        /\ forall r, o = Done r -> is_error r = false -> r = Resp 0 DNil).
Proof.
  split.
  - intros service ctx c w o w' H. unfold Download in H. split_calls H;
      inversion H; subst; clear H; cbn [w_store w_cache set_cache set_header add_log];
      (split; [reflexivity|]);
      (split; [intros k Hk; rewrite ?delete_all_one, ?lookup_delete_ne by congruence;
               reflexivity|]);
      intros rr Hrr; inversion Hrr; subst; cbn [is_error]; intros He;
      first [discriminate He|eauto].
  - intros service ctx c w o w' H. unfold DownloadArchived in H. split_calls H;
      inversion H; subst; clear H; cbn [w_store w_cache set_cache set_header add_log];
      (split; [reflexivity|]);
      (split; [intros k Hk; rewrite ?delete_all_one, ?lookup_delete_ne by congruence;
               reflexivity|]);
      intros rr Hrr; inversion Hrr; subst; cbn [is_error]; intros He;
      first [discriminate He|eauto].
Qed.


End Frames.

(** ** [PutContent] before the upload *)

Section PutContentPrologue.
Context (E : Env).
Import serializer filesystem explorer.

Lemma owned_by_other uid st id :
  files st !! id = None
  \/ (exists f, files st !! id = Some f /\ model.UserID f <> uid) ->
  owned_by uid st id = None.
Proof.
  unfold owned_by. intros [->|(f & -> & Hne)]; [reflexivity|].
  destruct (N.eqb_spec (model.UserID f) uid); [contradiction|reflexivity].
Qed.

(** X16: how [PutContent] ends before it uploads anything. When the
    file system cannot be created the response is the policy error.
    When the request has no object id, or one that is no unsigned
    integer, the handler panics. When the store has no record of that
    id, or the record belongs to another user, the response is the error
    of code 404: a record of someone else is answered like a missing
    one. In each case the stores are as before, no hook was registered
    or run and nothing was uploaded: only the creation of the file
    system and the lookup are logged. *)
Theorem PutContent_prologue_failures :
  (forall (service : FileIDService) ctx c w size err,
     strconv.ParseUint (gin.HeaderGet c "Content-Length") = Some size ->
     e_NewFileSystemFromContext E c = Fail err ->
     PutContent E service ctx c w
     = (Done (Err CodePolicyNotAllowed err (Some err)),
        logged [EvNewFileSystemFromContext] w))
  /\ (forall (service : FileIDService) ctx c w size fs,
        strconv.ParseUint (gin.HeaderGet c "Content-Length") = Some size ->
        e_NewFileSystemFromContext E c = Ok fs ->
        (forall id, gin.Get c "object_id" <> Some (gin.AUint id)) ->
        PutContent E service ctx c w
        = (Panic "interface conversion: interface {} is not uint",
           logged [EvNewFileSystemFromContext] w))
  /\ (forall (service : FileIDService) ctx c w size fs id,
        strconv.ParseUint (gin.HeaderGet c "Content-Length") = Some size ->
        e_NewFileSystemFromContext E c = Ok fs ->
        gin.Get c "object_id" = Some (gin.AUint id) ->
        files (w_store w) !! id = None
        \/ (exists f, files (w_store w) !! id = Some f
                      /\ model.UserID f <> model.UID (User fs)) ->
        PutContent E service ctx c w
        = (Done (Err (CodeLit 404) "文件不存在" None),
           logged [EvNewFileSystemFromContext;
                   EvGetFilesByIDs [id] (model.UID (User fs))] w)).
Proof.
  split; [|split].
  - intros service ctx c w size err Hsize Hfs.
    unfold PutContent. rewrite Hsize. step. rewrite Hfs. reflexivity.
  - intros service ctx c w size fs Hsize Hfs Hid.
    unfold PutContent. rewrite Hsize. step. rewrite Hfs.
    destruct (gin.Get c "object_id") as [[n|s]|]; [destruct (Hid n); reflexivity| |];
      reflexivity.
  - intros service ctx c w size fs id Hsize Hfs Hid Hown.
    apply (owned_by_other (model.UID (User fs))) in Hown.
    unfold PutContent. rewrite Hsize. step. rewrite Hfs, Hid. step. step.
    simpl. rewrite Hown. reflexivity.
Qed.

(** X17: the responses of the two handlers that upload. Neither
    [Create] nor [PutContent] ever answers with a redirect. A response
    that is no error is code 0 without data, and it is given only after
    [Upload] returned no error: for [Create] the upload of the empty
    stream to the path, for [PutContent] the upload of the body over the
    record of the request, owned by the user. *)
Theorem upload_handlers_response :
  (forall (service : SingleFileService) c w r w',
     Create E service c w = (Done r, w') ->
     is_redirect r = false
     /\ (is_error r = false ->
         r = Resp 0 DNil
         /\ exists fs w1,
              e_NewFileSystemFromContext E c = Ok fs
              /\ Upload E (create_fs fs) create_ctx (create_stream service)
                   (add_log EvNewFileSystemFromContext w) = (Done None, w1)
              /\ w' = add_log EvRecycle w1))
  /\ (forall (service : FileIDService) ctx c w r w',
        PutContent E service ctx c w = (Done r, w') ->
        is_redirect r = false
        /\ (is_error r = false ->
            r = Resp 0 DNil
            /\ exists fs size id origin,
                 strconv.ParseUint (gin.HeaderGet c "Content-Length") = Some size
                 /\ e_NewFileSystemFromContext E c = Ok fs
                 /\ gin.Get c "object_id" = Some (gin.AUint id)
                 /\ owned_by (model.UID (User fs)) (w_store w) id = Some origin
                 /\ let stream := put_stream c size origin in
                    let shared := soft_link_branch E w origin in
                    let k := e_GenerateSavePath E fs put_gin_ctx stream in
                    let origin' := if shared then model.setSourceName k origin
                                   else origin in
                    let w3 := put_prologue (model.UID (User fs)) id origin w in
                    let w4 := if shared then add_log (EvGenerateSavePath stream) w3
                              else w3 in
                    Upload E (put_fs shared fs) (put_ctx origin') stream w4
                    = (Done None, w'))).
Proof.
  split.
  - intros service c w r w' H.
    destruct (e_NewFileSystemFromContext E c) as [fs|err] eqn:Hfs.
    + destruct (Create_upload E service c w fs Hfs) as (r0 & w1 & HU & HC).
      rewrite HC in H. inversion H; subst r w'. clear H.
      destruct r0 as [e|]; (split; [reflexivity|]); [discriminate|].
      intros _. split; [reflexivity|]. exists fs, w1. auto.
    + unfold Create in H. erewrite bind_Done in H by reflexivity.
      rewrite Hfs in H. inversion H; subst. split; [reflexivity|discriminate].
  - intros service ctx c w r w' H.
    destruct (strconv.ParseUint (gin.HeaderGet c "Content-Length")) as [size|] eqn:Hsize.
    2:{ unfold PutContent in H. rewrite Hsize in H. inversion H; subst.
        split; [reflexivity|discriminate]. }
    destruct (e_NewFileSystemFromContext E c) as [fs|err] eqn:Hfs.
    2:{ unfold PutContent in H. rewrite Hsize in H.
        erewrite bind_Done in H by reflexivity. rewrite Hfs in H.
        inversion H; subst. split; [reflexivity|discriminate]. }
    destruct (gin.Get c "object_id") as [[id|s]|] eqn:Hid.
    2,3: unfold PutContent in H; rewrite Hsize in H;
         erewrite bind_Done in H by reflexivity; rewrite Hfs, Hid in H;
         discriminate H.
    destruct (owned_by (model.UID (User fs)) (w_store w) id) as [origin|] eqn:Hown.
    + destruct (PutContent_upload E service ctx c w fs size id origin Hsize Hfs Hid Hown)
        as (err & w1 & HU & HP).
      rewrite HP in H. inversion H; subst r w1. clear H.
      destruct err as [e|]; (split; [reflexivity|]); [discriminate|].
      intros _. split; [reflexivity|]. exists fs, size, id, origin.
      repeat split; auto.
    + unfold PutContent in H. rewrite Hsize in H.
      erewrite bind_Done in H by reflexivity. rewrite Hfs, Hid in H.
      erewrite bind_Done in H by reflexivity.
      erewrite bind_Done in H by reflexivity.
      simpl in H. rewrite Hown in H. inversion H; subst.
      split; [reflexivity|discriminate].
Qed.

End PutContentPrologue.

(** ** The context and the hooks of [Create] *)

Section CreateContext.
Context (E : Env).
Import serializer filesystem explorer.

(** X18: what [Create] hands to [Upload]. The context carries
    [fsctx.DisableOverwrite] with the value [true] and nothing else; on a
    file system that comes without hooks, [BeforeUpload] has the
    validate-file hook, [AfterUpload] the generic after-upload hook, and
    no other stage has a hook. [Create] is the upload of the empty stream
    with this context and this file system, between the creation and the
    recycling of the file system. What the flag makes the upload do is
    decided by the storage driver. *)
Theorem Create_upload_context (service : SingleFileService) (c : gin.Context)
    (w : World) (fs : FileSystem) :
  e_NewFileSystemFromContext E c = Ok fs ->
  Hooks fs = ∅ ->
  create_ctx = [(fsctx.DisableOverwrite, VBool true)]
  /\ context.Value create_ctx fsctx.DisableOverwrite = Some (VBool true)
  /\ (forall stage,
        hooks_of (create_fs fs) stage
        = if String.eqb stage "BeforeUpload" then [HookValidateFile]
          else if String.eqb stage "AfterUpload" then [GenericAfterUpload]
          else [])
  /\ exists err w1,
       Upload E (create_fs fs) create_ctx (create_stream service)
         (add_log EvNewFileSystemFromContext w) = (Done err, w1)
       /\ Create E service c w = (Done (upload_response err), add_log EvRecycle w1).
Proof.
  intros Hfs Hfresh. split; [reflexivity|]. split; [reflexivity|]. split.
  - intros stage. unfold hooks_of. rewrite (create_fs_hooks fs Hfresh).
    destruct (String.eqb_spec stage "BeforeUpload") as [->|Hb]; [reflexivity|].
    destruct (String.eqb_spec stage "AfterUpload") as [->|Ha].
    + rewrite lookup_insert_eq. reflexivity.
    + rewrite !lookup_insert_ne, lookup_empty by congruence. reflexivity.
  - destruct (Create_upload E service c w fs Hfs) as (err & w1 & HU & HC).
    exists err, w1. auto.
Qed.

End CreateContext.

(** ** The further properties on the concrete environment *)

Section FurtherWitnesses.
Import serializer filesystem explorer.

Lemma escape_round_trip_witness :
  unescape url.encodeQueryComponent (url.QueryEscape "a b&c") = Some "a b&c"
  /\ unescape url.encodePathSegment (url.PathEscape "a b/c?d=e") = Some "a b/c?d=e"
  /\ "report 1.pdf" = "report 1.pdf".
Proof.
  destruct escape_round_trip as (Hq & Hp & _ & Hinj).
  split; [apply Hq|]. split; [apply Hp|]. apply Hinj. reflexivity.
Defined.

(** Leading zeros are accepted; a length with a letter is refused. *)
Lemma ParseUint_decimal_witness :
  (exists n, strconv.ParseUint "0042" = Some n)
  /\ (exists msg err,
        PutContent demo.plain scenario.by_id [] (demo.request (Some "12a")) demo.world
        = (Done (ParamErr msg err), demo.world)).
Proof.
  destruct ParseUint_decimal as (_ & Haccept & Hput).
  split.
  - apply Haccept; [discriminate|reflexivity|simpl; lia].
  - apply Hput. vm_compute. reflexivity.
Defined.

Lemma path_Split_Base_Dir_witness :
  path.Base ("/docs" +:+ String path.slash "a.txt") = "a.txt"
  /\ path.Dir ("/docs" +:+ String path.slash "a.txt") = path.Clean ("/docs" +:+ "/").
Proof.
  destruct path_Split_Base_Dir as (_ & Hlast & _).
  apply Hlast; [discriminate|reflexivity].
Defined.

(** [docs/] creates a file [docs] in the folder [docs]. *)
Lemma Create_path_edge_cases_witness :
  exists err w1,
    Upload demo.plain (create_fs (demo.fs false)) create_ctx
      (local.mkFileStream "" 0 "docs" "docs" "")
      (add_log EvNewFileSystemFromContext demo.world) = (Done err, w1)
    /\ Create demo.plain (mkSingleFileService "docs/") (demo.request None) demo.world
       = (Done (upload_response err), add_log EvRecycle w1).
Proof.
  destruct (Create_path_edge_cases demo.plain) as (_ & Htrail & _).
  apply (Htrail (mkSingleFileService "docs/") (demo.request None) demo.world
           (demo.fs false) "docs"); [reflexivity|discriminate|reflexivity].
Defined.

Lemma Source_redirects_to_signed_url_witness :
  Source demo.plain scenario.anonymous [] (demo.request None) demo.world
  = (Done (Resp (-302) (DString "https://cdn/uploads/1/notes.txt")),
     logged [EvNewAnonymousFileSystem; EvSetTargetFileByIDs [7%N];
             EvSignURL demo.file7 60 false; EvRecycle] demo.world).
Proof.
  destruct (Source_redirects_to_signed_url demo.plain) as (Hok & _).
  apply (Hok scenario.anonymous [] (demo.request None) demo.world (demo.fs false)
           demo.file7 []); reflexivity.
Defined.


Lemma DownloadArchived_serves_zip_witness :
  exists w',
    DownloadArchived demo.plain scenario.session [] (demo.request None) demo.world
    = (Done (Resp 0 DNil), w')
    /\ w_header w' !! "Content-Type" = Some "application/zip"
    /\ w_header w' !! "Content-Disposition" = Some "attachment;".
Proof.
  destruct (DownloadArchived_serves_zip demo.plain) as (Hok & _).
  destruct (Hok scenario.session [] (demo.request None) demo.world (demo.fs false)
              "/tmp/archive.zip" demo.stream eq_refl ltac:(vm_compute; reflexivity)
              eq_refl) as (w' & Hrun & Hh & _).
  exists w'. split; [exact Hrun|]. rewrite Hh. split; vm_compute; reflexivity.
Defined.

Lemma Download_attachment_header_witness :
  exists w',
    Download demo.plain scenario.session [] (demo.request None) demo.world
    = (Done (Resp 0 DNil), w')
    /\ w_header w' !! "Content-Disposition"
       = Some ("attachment; filename=" +:+ dquote +:+ "notes.txt" +:+ dquote).
Proof.
  destruct (Download_attachment_header demo.plain) as (Hok & _).
  destruct (Hok scenario.session [] (demo.request None) demo.world (demo.fs false)
              demo.file7 demo.stream eq_refl ltac:(vm_compute; reflexivity) eq_refl)
    as (w' & Hrun & Hh & _).
  exists w'. split; [exact Hrun|]. rewrite Hh. vm_compute. reflexivity.
Defined.

Lemma CreateDownloadSession_url_witness :
  CreateDownloadSession demo.plain scenario.by_id [] (demo.request None) demo.world
  = (Done (Resp 0 (DString "https://cdn/x?sig=ab+c")),
     logged [EvNewFileSystemFromContext; EvGetDownloadURL 42 "download_timeout";
             EvRecycle] demo.world).
Proof.
  destruct (CreateDownloadSession_url demo.plain) as (Hok & _).
  apply (Hok scenario.by_id [] (demo.request None) demo.world (demo.fs false) 42%N);
    [reflexivity|vm_compute; reflexivity].
Defined.

(** A request without object id, with the file in the context. *)
Lemma doc_preview_object_from_context_witness :
  CreateDocPreviewSession demo.plain scenario.by_id
    (context.WithValue context.Background fsctx.FileModelCtx (VFilePtr demo.file7))
    (gin.mkContext ∅ ∅ "") demo.world
  = (Done (Resp 0 (DString
       "https://view.officeapps.live.com/op/view.aspx?src=https%3A%2F%2Fcdn%2Fx%3Fsig%3Dab%2Bc")),
     logged [EvNewFileSystemFromContext; EvGetDownloadURL 0 "doc_preview_timeout";
             EvRecycle] demo.world).
Proof.
  destruct (doc_preview_object_from_context demo.plain) as (Hfile & _).
  rewrite (Hfile scenario.by_id
             (context.WithValue context.Background fsctx.FileModelCtx
                (VFilePtr demo.file7))
             (gin.mkContext ∅ ∅ "") demo.world (demo.fs false)
             demo.file7 eq_refl eq_refl eq_refl).
  vm_compute. reflexivity.
Defined.

Lemma file_system_recycled_once_witness :
  exists evs,
    w_log (snd (Create demo.plain (mkSingleFileService "/docs/a.txt")
                  (demo.request None) demo.world))
    = w_log demo.world ++ evs ++ [EvRecycle]
    /\ Forall not_Recycle evs.
Proof.
  destruct (file_system_recycled_once demo.plain) as (Hcreate & _).
  apply (Hcreate (mkSingleFileService "/docs/a.txt") (demo.request None) demo.world
           (demo.fs false)
           (fst (Create demo.plain (mkSingleFileService "/docs/a.txt")
                   (demo.request None) demo.world)));
    [reflexivity|apply surjective_pairing].
Defined.

(** A one-time download deletes its own entry and leaves the archive of
    the same id where it is. *)
Lemma session_download_frame_witness :
  w_cache (snd (Download scenario.one_time_served scenario.session []
                  (demo.request None) demo.world)) !! "archive_abc"
  = Some (CString "/tmp/archive.zip").
Proof.
  destruct (session_download_frame scenario.one_time_served) as (Hd & _).
  destruct (Hd scenario.session [] (demo.request None) demo.world _ _
              (surjective_pairing _)) as (_ & Hc & _).
  rewrite Hc; [vm_compute; reflexivity|]. intros Hk. vm_compute in Hk. discriminate Hk.
Defined.


(** A request for a record that does not exist. *)
Lemma PutContent_prologue_failures_witness :
  PutContent demo.plain scenario.by_id []
    (gin.mkContext (<["object_id" := gin.AUint 99]> ∅) (<["Content-Length" := "9"]> ∅)
       "new bytes")
    demo.world
  = (Done (Err (CodeLit 404) "文件不存在" None),
     logged [EvNewFileSystemFromContext; EvGetFilesByIDs [99%N] 1] demo.world).
Proof.
  destruct (PutContent_prologue_failures demo.plain) as (_ & _ & Hmiss).
  apply (Hmiss scenario.by_id [] _ demo.world 9%N (demo.fs false) 99%N);
    [vm_compute; reflexivity|reflexivity|vm_compute; reflexivity|].
  left. vm_compute. reflexivity.
Defined.

(** The success of [Create] for [/docs/a.txt] comes from an upload that
    returned no error. *)
Lemma upload_handlers_response_witness :
  exists fs w1,
    e_NewFileSystemFromContext demo.plain (demo.request None) = Ok fs
    /\ Upload demo.plain (create_fs fs) create_ctx
         (create_stream (mkSingleFileService "/docs/a.txt"))
         (add_log EvNewFileSystemFromContext demo.world) = (Done None, w1)
    /\ snd (Create demo.plain (mkSingleFileService "/docs/a.txt") (demo.request None)
              demo.world) = add_log EvRecycle w1.
Proof.
  destruct (upload_handlers_response demo.plain) as (Hcreate & _).
  eassert (Hrun : Create demo.plain (mkSingleFileService "/docs/a.txt")
                    (demo.request None) demo.world = (Done (Resp 0 DNil), _))
    by (vm_compute; reflexivity).
  destruct (Hcreate _ _ _ _ _ Hrun) as (_ & Hok).
  destruct (Hok eq_refl) as (_ & fs & w1 & Hfs & HU & Hw).
  exists fs, w1. rewrite Hrun. auto.
Defined.

Lemma Create_upload_context_witness :
  hooks_of (create_fs (demo.fs false)) "BeforeUpload" = [HookValidateFile]
  /\ hooks_of (create_fs (demo.fs false)) "AfterUpload" = [GenericAfterUpload]
  /\ hooks_of (create_fs (demo.fs false)) "AfterUploadCanceled" = []
  /\ context.Value create_ctx fsctx.DisableOverwrite = Some (VBool true).
Proof.
  destruct (Create_upload_context demo.plain (mkSingleFileService "/docs/a.txt")
              (demo.request None) demo.world (demo.fs false) eq_refl eq_refl)
    as (_ & Hflag & Hhooks & _).
  rewrite !Hhooks. auto.
Defined.

End FurtherWitnesses.
